(** * Sensei diagnostic API: template matcher and geo-aware pricing engine

    A shallow embedding of [sensei_BOSS.py]: the catalog tables
    ([load_pricing_matrix], [load_diagnostic_templates],
    [load_business_model]), the template matcher [query_knowledge_base],
    the road resolver [calculate_boda_pricing], the pricing engine
    [calculate_price_estimate] and the handler [diagnose] with its
    time-of-day selection.

    Conventions of the embedding.
    - A Python [str] is a [string] holding its UTF-8 encoding. [lower] is
      [str.lower()] on every string, with the case tables of Unicode 14.0
      (CPython 3.11). [replace] and [title] are applied to the road keys of
      the table only, which are ASCII, and act on the ASCII letters.
    - A Python [float] is a primitive binary64 [float]; [int * float] first
      converts the integer ([float_of_int]) and [int(x)] truncates toward
      zero ([int_of_float]), raising on infinities and NaN. Properties of
      float arithmetic are derived from its specification ([SFmul],
      [Prim2SF]), with real numbers for the values.
    - A [dict] literal is an association list in insertion order ([get],
      [lookup]); a two-element list [[lo, hi]] is a pair.
    - A raised exception is the [Raise] branch of [result]. *)

From Stdlib Require Import Bool List ZArith Lia String Ascii DecimalString.
From Stdlib Require Import Floats.
From Stdlib Require Import Reals Lra.
Import ListNotations.

Set Warnings "-inexact-float".

Open Scope string_scope.
Open Scope Z_scope.

(* ================================================================== *)
(** ** Python values: exceptions, strings, numbers, dictionaries *)

Inductive exn : Type :=
| KeyError
| IndexError
| TypeError
| ValueError
| OverflowError.

Inductive result (A : Type) : Type :=
| Ret (a : A)
| Raise (e : exn).

Arguments Ret {A} a.
Arguments Raise {A} e.

Definition bind {A B : Type} (m : result A) (k : A -> result B) : result B :=
  match m with
  | Ret a => k a
  | Raise e => Raise e
  end.

Notation "x <- m ;; k" := (bind m (fun x => k))
  (at level 61, m at next level, right associativity).

(** [c.lower()] on one character. *)
Definition lower_ascii (c : ascii) : ascii :=
  let n := nat_of_ascii c in
  if (Nat.leb 65 n && Nat.leb n 90)%bool then ascii_of_nat (n + 32) else c.

(** [c.upper()] on one character. *)
Definition upper_ascii (c : ascii) : ascii :=
  let n := nat_of_ascii c in
  if (Nat.leb 97 n && Nat.leb n 122)%bool then ascii_of_nat (n - 32) else c.

Definition is_upper (c : ascii) : bool :=
  let n := nat_of_ascii c in (Nat.leb 65 n && Nat.leb n 90)%bool.

Definition is_lower (c : ascii) : bool :=
  let n := nat_of_ascii c in (Nat.leb 97 n && Nat.leb n 122)%bool.

(** *** [str.lower()]

    A [str] is held as its UTF-8 encoding (a lone surrogate as its
    three-byte form), so that equality, concatenation, emptiness and the
    substring test [in] are those of the byte strings. [lower] follows
    CPython's [unicode_lower]: an all-ASCII string folds [A-Z] byte by
    byte; any other string is lower-cased code point by code point
    ([do_lower]), with the one multi-character mapping (U+0130) and the
    positional rule for capital sigma ([final_sigma]). The three tables
    are those of the Unicode Character Database 14.0, which CPython 3.11
    carries. *)

(** The runs of the simple lowercase mapping: [(first, last, stride,
    delta)] maps each code point [first + i * stride <= last] to itself
    plus [delta]. *)
Definition lower_table : list (Z * Z * Z * Z) :=
  [
    (65, 90, 1, 32); (192, 214, 1, 32); (216, 222, 1, 32); (256, 302, 2, 1);
    (306, 310, 2, 1); (313, 327, 2, 1); (330, 374, 2, 1); (376, 376, 1, -121);
    (377, 381, 2, 1); (385, 385, 1, 210); (386, 388, 2, 1); (390, 390, 1, 206);
    (391, 391, 1, 1); (393, 394, 1, 205); (395, 395, 1, 1); (398, 398, 1, 79);
    (399, 399, 1, 202); (400, 400, 1, 203); (401, 401, 1, 1); (403, 403, 1, 205);
    (404, 404, 1, 207); (406, 406, 1, 211); (407, 407, 1, 209); (408, 408, 1, 1);
    (412, 412, 1, 211); (413, 413, 1, 213); (415, 415, 1, 214); (416, 420, 2, 1);
    (422, 422, 1, 218); (423, 423, 1, 1); (425, 425, 1, 218); (428, 428, 1, 1);
    (430, 430, 1, 218); (431, 431, 1, 1); (433, 434, 1, 217); (435, 437, 2, 1);
    (439, 439, 1, 219); (440, 440, 1, 1); (444, 444, 1, 1); (452, 452, 1, 2);
    (453, 453, 1, 1); (455, 455, 1, 2); (456, 456, 1, 1); (458, 458, 1, 2);
    (459, 475, 2, 1); (478, 494, 2, 1); (497, 497, 1, 2); (498, 500, 2, 1);
    (502, 502, 1, -97); (503, 503, 1, -56); (504, 542, 2, 1); (544, 544, 1, -130);
    (546, 562, 2, 1); (570, 570, 1, 10795); (571, 571, 1, 1); (573, 573, 1, -163);
    (574, 574, 1, 10792); (577, 577, 1, 1); (579, 579, 1, -195); (580, 580, 1, 69);
    (581, 581, 1, 71); (582, 590, 2, 1); (880, 882, 2, 1); (886, 886, 1, 1);
    (895, 895, 1, 116); (902, 902, 1, 38); (904, 906, 1, 37); (908, 908, 1, 64);
    (910, 911, 1, 63); (913, 929, 1, 32); (931, 939, 1, 32); (975, 975, 1, 8);
    (984, 1006, 2, 1); (1012, 1012, 1, -60); (1015, 1015, 1, 1); (1017, 1017, 1, -7);
    (1018, 1018, 1, 1); (1021, 1023, 1, -130); (1024, 1039, 1, 80); (1040, 1071, 1, 32);
    (1120, 1152, 2, 1); (1162, 1214, 2, 1); (1216, 1216, 1, 15); (1217, 1229, 2, 1);
    (1232, 1326, 2, 1); (1329, 1366, 1, 48); (4256, 4293, 1, 7264); (4295, 4295, 1, 7264);
    (4301, 4301, 1, 7264); (5024, 5103, 1, 38864); (5104, 5109, 1, 8); (7312, 7354, 1, -3008);
    (7357, 7359, 1, -3008); (7680, 7828, 2, 1); (7838, 7838, 1, -7615); (7840, 7934, 2, 1);
    (7944, 7951, 1, -8); (7960, 7965, 1, -8); (7976, 7983, 1, -8); (7992, 7999, 1, -8);
    (8008, 8013, 1, -8); (8025, 8031, 2, -8); (8040, 8047, 1, -8); (8072, 8079, 1, -8);
    (8088, 8095, 1, -8); (8104, 8111, 1, -8); (8120, 8121, 1, -8); (8122, 8123, 1, -74);
    (8124, 8124, 1, -9); (8136, 8139, 1, -86); (8140, 8140, 1, -9); (8152, 8153, 1, -8);
    (8154, 8155, 1, -100); (8168, 8169, 1, -8); (8170, 8171, 1, -112); (8172, 8172, 1, -7);
    (8184, 8185, 1, -128); (8186, 8187, 1, -126); (8188, 8188, 1, -9); (8486, 8486, 1, -7517);
    (8490, 8490, 1, -8383); (8491, 8491, 1, -8262); (8498, 8498, 1, 28); (8544, 8559, 1, 16);
    (8579, 8579, 1, 1); (9398, 9423, 1, 26); (11264, 11311, 1, 48); (11360, 11360, 1, 1);
    (11362, 11362, 1, -10743); (11363, 11363, 1, -3814); (11364, 11364, 1, -10727); (11367, 11371, 2, 1);
    (11373, 11373, 1, -10780); (11374, 11374, 1, -10749); (11375, 11375, 1, -10783); (11376, 11376, 1, -10782);
    (11378, 11378, 1, 1); (11381, 11381, 1, 1); (11390, 11391, 1, -10815); (11392, 11490, 2, 1);
    (11499, 11501, 2, 1); (11506, 11506, 1, 1); (42560, 42604, 2, 1); (42624, 42650, 2, 1);
    (42786, 42798, 2, 1); (42802, 42862, 2, 1); (42873, 42875, 2, 1); (42877, 42877, 1, -35332);
    (42878, 42886, 2, 1); (42891, 42891, 1, 1); (42893, 42893, 1, -42280); (42896, 42898, 2, 1);
    (42902, 42920, 2, 1); (42922, 42922, 1, -42308); (42923, 42923, 1, -42319); (42924, 42924, 1, -42315);
    (42925, 42925, 1, -42305); (42926, 42926, 1, -42308); (42928, 42928, 1, -42258); (42929, 42929, 1, -42282);
    (42930, 42930, 1, -42261); (42931, 42931, 1, 928); (42932, 42946, 2, 1); (42948, 42948, 1, -48);
    (42949, 42949, 1, -42307); (42950, 42950, 1, -35384); (42951, 42953, 2, 1); (42960, 42960, 1, 1);
    (42966, 42968, 2, 1); (42997, 42997, 1, 1); (65313, 65338, 1, 32); (66560, 66599, 1, 40);
    (66736, 66771, 1, 40); (66928, 66964, 2, 39); (66929, 66937, 2, 39); (66941, 66953, 2, 39);
    (66957, 66961, 2, 39); (66965, 66965, 1, 39); (68736, 68786, 1, 64); (71840, 71871, 1, 32);
    (93760, 93791, 1, 32); (125184, 125217, 1, 34)
  ].

(** The ranges of the property Cased. *)
Definition cased_ranges : list (Z * Z) :=
  [
    (65, 90); (97, 122); (170, 170); (181, 181); (186, 186); (192, 214);
    (216, 246); (248, 442); (444, 447); (452, 659); (661, 696); (704, 705);
    (736, 740); (837, 837); (880, 883); (886, 887); (890, 893); (895, 895);
    (902, 902); (904, 906); (908, 908); (910, 929); (931, 1013); (1015, 1153);
    (1162, 1327); (1329, 1366); (1376, 1416); (4256, 4293); (4295, 4295); (4301, 4301);
    (4304, 4346); (4349, 4351); (5024, 5109); (5112, 5117); (7296, 7304); (7312, 7354);
    (7357, 7359); (7424, 7615); (7680, 7957); (7960, 7965); (7968, 8005); (8008, 8013);
    (8016, 8023); (8025, 8025); (8027, 8027); (8029, 8029); (8031, 8061); (8064, 8116);
    (8118, 8124); (8126, 8126); (8130, 8132); (8134, 8140); (8144, 8147); (8150, 8155);
    (8160, 8172); (8178, 8180); (8182, 8188); (8305, 8305); (8319, 8319); (8336, 8348);
    (8450, 8450); (8455, 8455); (8458, 8467); (8469, 8469); (8473, 8477); (8484, 8484);
    (8486, 8486); (8488, 8488); (8490, 8493); (8495, 8500); (8505, 8505); (8508, 8511);
    (8517, 8521); (8526, 8526); (8544, 8575); (8579, 8580); (9398, 9449); (11264, 11492);
    (11499, 11502); (11506, 11507); (11520, 11557); (11559, 11559); (11565, 11565); (42560, 42605);
    (42624, 42653); (42786, 42887); (42891, 42894); (42896, 42954); (42960, 42961); (42963, 42963);
    (42965, 42969); (42997, 42998); (43000, 43002); (43824, 43866); (43868, 43880); (43888, 43967);
    (64256, 64262); (64275, 64279); (65313, 65338); (65345, 65370); (66560, 66639); (66736, 66771);
    (66776, 66811); (66928, 66938); (66940, 66954); (66956, 66962); (66964, 66965); (66967, 66977);
    (66979, 66993); (66995, 67001); (67003, 67004); (67456, 67456); (67459, 67461); (67463, 67504);
    (67506, 67514); (68736, 68786); (68800, 68850); (71840, 71903); (93760, 93823); (119808, 119892);
    (119894, 119964); (119966, 119967); (119970, 119970); (119973, 119974); (119977, 119980); (119982, 119993);
    (119995, 119995); (119997, 120003); (120005, 120069); (120071, 120074); (120077, 120084); (120086, 120092);
    (120094, 120121); (120123, 120126); (120128, 120132); (120134, 120134); (120138, 120144); (120146, 120485);
    (120488, 120512); (120514, 120538); (120540, 120570); (120572, 120596); (120598, 120628); (120630, 120654);
    (120656, 120686); (120688, 120712); (120714, 120744); (120746, 120770); (120772, 120779); (122624, 122633);
    (122635, 122654); (125184, 125251); (127280, 127305); (127312, 127337); (127344, 127369)
  ].

(** The ranges of the property Case_Ignorable. *)
Definition case_ignorable_ranges : list (Z * Z) :=
  [
    (39, 39); (46, 46); (58, 58); (94, 94); (96, 96); (168, 168);
    (173, 173); (175, 175); (180, 180); (183, 184); (688, 879); (884, 885);
    (890, 890); (900, 901); (903, 903); (1155, 1161); (1369, 1369); (1375, 1375);
    (1425, 1469); (1471, 1471); (1473, 1474); (1476, 1477); (1479, 1479); (1524, 1524);
    (1536, 1541); (1552, 1562); (1564, 1564); (1600, 1600); (1611, 1631); (1648, 1648);
    (1750, 1757); (1759, 1768); (1770, 1773); (1807, 1807); (1809, 1809); (1840, 1866);
    (1958, 1968); (2027, 2037); (2042, 2042); (2045, 2045); (2070, 2093); (2137, 2139);
    (2184, 2184); (2192, 2193); (2200, 2207); (2249, 2306); (2362, 2362); (2364, 2364);
    (2369, 2376); (2381, 2381); (2385, 2391); (2402, 2403); (2417, 2417); (2433, 2433);
    (2492, 2492); (2497, 2500); (2509, 2509); (2530, 2531); (2558, 2558); (2561, 2562);
    (2620, 2620); (2625, 2626); (2631, 2632); (2635, 2637); (2641, 2641); (2672, 2673);
    (2677, 2677); (2689, 2690); (2748, 2748); (2753, 2757); (2759, 2760); (2765, 2765);
    (2786, 2787); (2810, 2815); (2817, 2817); (2876, 2876); (2879, 2879); (2881, 2884);
    (2893, 2893); (2901, 2902); (2914, 2915); (2946, 2946); (3008, 3008); (3021, 3021);
    (3072, 3072); (3076, 3076); (3132, 3132); (3134, 3136); (3142, 3144); (3146, 3149);
    (3157, 3158); (3170, 3171); (3201, 3201); (3260, 3260); (3263, 3263); (3270, 3270);
    (3276, 3277); (3298, 3299); (3328, 3329); (3387, 3388); (3393, 3396); (3405, 3405);
    (3426, 3427); (3457, 3457); (3530, 3530); (3538, 3540); (3542, 3542); (3633, 3633);
    (3636, 3642); (3654, 3662); (3761, 3761); (3764, 3772); (3782, 3782); (3784, 3789);
    (3864, 3865); (3893, 3893); (3895, 3895); (3897, 3897); (3953, 3966); (3968, 3972);
    (3974, 3975); (3981, 3991); (3993, 4028); (4038, 4038); (4141, 4144); (4146, 4151);
    (4153, 4154); (4157, 4158); (4184, 4185); (4190, 4192); (4209, 4212); (4226, 4226);
    (4229, 4230); (4237, 4237); (4253, 4253); (4348, 4348); (4957, 4959); (5906, 5908);
    (5938, 5939); (5970, 5971); (6002, 6003); (6068, 6069); (6071, 6077); (6086, 6086);
    (6089, 6099); (6103, 6103); (6109, 6109); (6155, 6159); (6211, 6211); (6277, 6278);
    (6313, 6313); (6432, 6434); (6439, 6440); (6450, 6450); (6457, 6459); (6679, 6680);
    (6683, 6683); (6742, 6742); (6744, 6750); (6752, 6752); (6754, 6754); (6757, 6764);
    (6771, 6780); (6783, 6783); (6823, 6823); (6832, 6862); (6912, 6915); (6964, 6964);
    (6966, 6970); (6972, 6972); (6978, 6978); (7019, 7027); (7040, 7041); (7074, 7077);
    (7080, 7081); (7083, 7085); (7142, 7142); (7144, 7145); (7149, 7149); (7151, 7153);
    (7212, 7219); (7222, 7223); (7288, 7293); (7376, 7378); (7380, 7392); (7394, 7400);
    (7405, 7405); (7412, 7412); (7416, 7417); (7468, 7530); (7544, 7544); (7579, 7679);
    (8125, 8125); (8127, 8129); (8141, 8143); (8157, 8159); (8173, 8175); (8189, 8190);
    (8203, 8207); (8216, 8217); (8228, 8228); (8231, 8231); (8234, 8238); (8288, 8292);
    (8294, 8303); (8305, 8305); (8319, 8319); (8336, 8348); (8400, 8432); (11388, 11389);
    (11503, 11505); (11631, 11631); (11647, 11647); (11744, 11775); (11823, 11823); (12293, 12293);
    (12330, 12333); (12337, 12341); (12347, 12347); (12441, 12446); (12540, 12542); (40981, 40981);
    (42232, 42237); (42508, 42508); (42607, 42610); (42612, 42621); (42623, 42623); (42652, 42655);
    (42736, 42737); (42752, 42785); (42864, 42864); (42888, 42890); (42994, 42996); (43000, 43001);
    (43010, 43010); (43014, 43014); (43019, 43019); (43045, 43046); (43052, 43052); (43204, 43205);
    (43232, 43249); (43263, 43263); (43302, 43309); (43335, 43345); (43392, 43394); (43443, 43443);
    (43446, 43449); (43452, 43453); (43471, 43471); (43493, 43494); (43561, 43566); (43569, 43570);
    (43573, 43574); (43587, 43587); (43596, 43596); (43632, 43632); (43644, 43644); (43696, 43696);
    (43698, 43700); (43703, 43704); (43710, 43711); (43713, 43713); (43741, 43741); (43756, 43757);
    (43763, 43764); (43766, 43766); (43867, 43871); (43881, 43883); (44005, 44005); (44008, 44008);
    (44013, 44013); (64286, 64286); (64434, 64450); (65024, 65039); (65043, 65043); (65056, 65071);
    (65106, 65106); (65109, 65109); (65279, 65279); (65287, 65287); (65294, 65294); (65306, 65306);
    (65342, 65342); (65344, 65344); (65392, 65392); (65438, 65439); (65507, 65507); (65529, 65531);
    (66045, 66045); (66272, 66272); (66422, 66426); (67456, 67461); (67463, 67504); (67506, 67514);
    (68097, 68099); (68101, 68102); (68108, 68111); (68152, 68154); (68159, 68159); (68325, 68326);
    (68900, 68903); (69291, 69292); (69446, 69456); (69506, 69509); (69633, 69633); (69688, 69702);
    (69744, 69744); (69747, 69748); (69759, 69761); (69811, 69814); (69817, 69818); (69821, 69821);
    (69826, 69826); (69837, 69837); (69888, 69890); (69927, 69931); (69933, 69940); (70003, 70003);
    (70016, 70017); (70070, 70078); (70089, 70092); (70095, 70095); (70191, 70193); (70196, 70196);
    (70198, 70199); (70206, 70206); (70367, 70367); (70371, 70378); (70400, 70401); (70459, 70460);
    (70464, 70464); (70502, 70508); (70512, 70516); (70712, 70719); (70722, 70724); (70726, 70726);
    (70750, 70750); (70835, 70840); (70842, 70842); (70847, 70848); (70850, 70851); (71090, 71093);
    (71100, 71101); (71103, 71104); (71132, 71133); (71219, 71226); (71229, 71229); (71231, 71232);
    (71339, 71339); (71341, 71341); (71344, 71349); (71351, 71351); (71453, 71455); (71458, 71461);
    (71463, 71467); (71727, 71735); (71737, 71738); (71995, 71996); (71998, 71998); (72003, 72003);
    (72148, 72151); (72154, 72155); (72160, 72160); (72193, 72202); (72243, 72248); (72251, 72254);
    (72263, 72263); (72273, 72278); (72281, 72283); (72330, 72342); (72344, 72345); (72752, 72758);
    (72760, 72765); (72767, 72767); (72850, 72871); (72874, 72880); (72882, 72883); (72885, 72886);
    (73009, 73014); (73018, 73018); (73020, 73021); (73023, 73029); (73031, 73031); (73104, 73105);
    (73109, 73109); (73111, 73111); (73459, 73460); (78896, 78904); (92912, 92916); (92976, 92982);
    (92992, 92995); (94031, 94031); (94095, 94111); (94176, 94177); (94179, 94180); (110576, 110579);
    (110581, 110587); (110589, 110590); (113821, 113822); (113824, 113827); (118528, 118573); (118576, 118598);
    (119143, 119145); (119155, 119170); (119173, 119179); (119210, 119213); (119362, 119364); (121344, 121398);
    (121403, 121452); (121461, 121461); (121476, 121476); (121499, 121503); (121505, 121519); (122880, 122886);
    (122888, 122904); (122907, 122913); (122915, 122916); (122918, 122922); (123184, 123197); (123566, 123566);
    (123628, 123631); (125136, 125142); (125252, 125259); (127995, 127999); (917505, 917505); (917536, 917631);
    (917760, 917999)
  ].

Definition byte_of (c : ascii) : Z := Z.of_N (N_of_ascii c).

Definition ascii_of_byte (b : Z) : ascii := ascii_of_N (Z.to_N b).

Fixpoint is_ascii (s : string) : bool :=
  match s with
  | EmptyString => true
  | String c r => (byte_of c <? 128) && is_ascii r
  end.

(** The fold of an all-ASCII string. *)
Fixpoint ascii_lower (s : string) : string :=
  match s with
  | EmptyString => EmptyString
  | String c r => String (lower_ascii c) (ascii_lower r)
  end.

Definition is_continuation (b : Z) : bool := (128 <=? b) && (b <? 192).

(** The code points of a UTF-8 string. A byte that begins no well-formed
    sequence (no [str] has one) stands for itself, as [1114112 + byte]. *)
Fixpoint decode (s : string) : list Z :=
  match s with
  | EmptyString => []
  | String a0 r0 =>
      let b0 := byte_of a0 in
      if b0 <? 128 then b0 :: decode r0
      else
        match r0 with
        | String a1 r1 =>
            let b1 := byte_of a1 in
            if (194 <=? b0) && (b0 <? 224) && is_continuation b1
            then ((b0 - 192) * 64 + (b1 - 128)) :: decode r1
            else
              match r1 with
              | String a2 r2 =>
                  let b2 := byte_of a2 in
                  let c3 := (b0 - 224) * 4096 + (b1 - 128) * 64 + (b2 - 128) in
                  if (224 <=? b0) && (b0 <? 240) && is_continuation b1 &&
                     is_continuation b2 && (2048 <=? c3)
                  then c3 :: decode r2
                  else
                    match r2 with
                    | String a3 r3 =>
                        let b3 := byte_of a3 in
                        let c4 := (b0 - 240) * 262144 + (b1 - 128) * 4096 +
                                  (b2 - 128) * 64 + (b3 - 128) in
                        if (240 <=? b0) && (b0 <? 245) && is_continuation b1 &&
                           is_continuation b2 && is_continuation b3 &&
                           (65536 <=? c4) && (c4 <? 1114112)
                        then c4 :: decode r3
                        else (1114112 + b0) :: decode r0
                    | EmptyString => (1114112 + b0) :: decode r0
                    end
              | EmptyString => (1114112 + b0) :: decode r0
              end
        | EmptyString => (1114112 + b0) :: decode r0
        end
  end.

Definition encode_code_point (c : Z) : list Z :=
  if c <? 128 then [c]
  else if c <? 2048 then [192 + c / 64; 128 + c mod 64]
  else if c <? 65536 then [224 + c / 4096; 128 + (c / 64) mod 64; 128 + c mod 64]
  else if c <? 1114112 then
    [240 + c / 262144; 128 + (c / 4096) mod 64; 128 + (c / 64) mod 64; 128 + c mod 64]
  else [c - 1114112].

Fixpoint string_of_bytes (l : list Z) : string :=
  match l with
  | [] => EmptyString
  | b :: r => String (ascii_of_byte b) (string_of_bytes r)
  end.

Definition encode (l : list Z) : string :=
  string_of_bytes (flat_map encode_code_point l).

Definition in_ranges (c : Z) (ranges : list (Z * Z)) : bool :=
  existsb (fun '(first, last) => (first <=? c) && (c <=? last)) ranges.

(** [_PyUnicode_IsCased]. *)
Definition is_cased (c : Z) : bool := in_ranges c cased_ranges.

(** [_PyUnicode_IsCaseIgnorable]. *)
Definition is_case_ignorable (c : Z) : bool := in_ranges c case_ignorable_ranges.

(** [_PyUnicode_ToLowerFull]. *)
Definition to_lower_full (c : Z) : list Z :=
  if c =? 304 then [105; 775]
  else
    match find (fun '(first, last, stride, _) =>
                  (first <=? c) && (c <=? last) && ((c - first) mod stride =? 0))
               lower_table with
    | Some (_, _, _, delta) => [c + delta]
    | None => [c]
    end.

Fixpoint skip_case_ignorable (l : list Z) : list Z :=
  match l with
  | [] => []
  | c :: r => if is_case_ignorable c then skip_case_ignorable r else l
  end.

(** [final_sigma]: the capital sigma follows a cased code point and is
    followed by none, case-ignorable code points apart. [before] holds the
    code points before it, the nearest first. *)
Definition final_sigma (before after : list Z) : bool :=
  match skip_case_ignorable before with
  | [] => false
  | c :: _ =>
      is_cased c &&
      match skip_case_ignorable after with
      | [] => true
      | d :: _ => negb (is_cased d)
      end
  end.

(** [lower_ucs4]. *)
Definition lower_ucs4 (before : list Z) (c : Z) (after : list Z) : list Z :=
  if c =? 931 then [if final_sigma before after then 962 else 963]
  else to_lower_full c.

(** [do_lower]. *)
Fixpoint do_lower (before after : list Z) : list Z :=
  match after with
  | [] => []
  | c :: rest => (lower_ucs4 before c rest ++ do_lower (c :: before) rest)%list
  end.

(** [s.lower()]. *)
Definition lower (s : string) : string :=
  if is_ascii s then ascii_lower s else encode (do_lower [] (decode s)).

(** [s.replace(a, b)] for single characters [a] and [b]. *)
Fixpoint replace (a b : ascii) (s : string) : string :=
  match s with
  | EmptyString => EmptyString
  | String c r => String (if Ascii.eqb c a then b else c) (replace a b r)
  end.

(** [s.title()]: a cased character is upper-cased when the previous
    character is not cased and lower-cased when it is. *)
Fixpoint title_from (previous_is_cased : bool) (s : string) : string :=
  match s with
  | EmptyString => EmptyString
  | String c r =>
      if is_lower c then
        String (if previous_is_cased then c else upper_ascii c) (title_from true r)
      else if is_upper c then
        String (if previous_is_cased then lower_ascii c else c) (title_from true r)
      else String c (title_from false r)
  end.

Definition title (s : string) : string := title_from false s.

(** [sub in s] on strings: [sub] occurs as a contiguous substring of [s]. *)
Fixpoint contains (sub s : string) : bool :=
  if String.prefix sub s then true
  else match s with
       | EmptyString => false
       | String _ r => contains sub r
       end.

(** [x in xs] on a list of strings. *)
Definition mem (x : string) (xs : list string) : bool :=
  existsb (String.eqb x) xs.

(** Truth value of an optional string: [None] and [''] are false. *)
Definition truthy (o : option string) : bool :=
  match o with
  | None => false
  | Some s => negb (String.eqb s "")
  end.

(** [d.get(k)] on an insertion-ordered dictionary. *)
Fixpoint lookup {V : Type} (k : string) (d : list (string * V)) : option V :=
  match d with
  | [] => None
  | (k', v) :: rest => if String.eqb k k' then Some v else lookup k rest
  end.

(** [d.get(k, default)]. *)
Definition get {V : Type} (d : list (string * V)) (k : string) (default : V) : V :=
  match lookup k d with
  | Some v => v
  | None => default
  end.

(** [d[k]]: a missing key raises [KeyError]. *)
Definition item {V : Type} (d : list (string * V)) (k : string) : result V :=
  match lookup k d with
  | Some v => Ret v
  | None => Raise KeyError
  end.

(** Conversion of a Python [int] to [float], as done by [int * float]:
    correctly rounded, [OverflowError] when out of range. *)
Definition float_of_int (n : Z) : result float :=
  match binary_normalize prec emax n 0 false with
  | S754_infinity _ => Raise OverflowError
  | x => Ret (SF2Prim x)
  end.

(** [int(x)] on a float: truncation toward zero. *)
Definition int_of_float (x : float) : result Z :=
  match Prim2SF x with
  | S754_nan => Raise ValueError
  | S754_infinity _ => Raise OverflowError
  | S754_zero _ => Ret 0
  | S754_finite s m e => Ret (cond_Zopp s (Z.shiftl (Zpos m) e))
  end.

(** [n * x] for an [int] [n] and a [float] [x]. *)
Definition int_mul_float (n : Z) (x : float) : result float :=
  f <- float_of_int n ;; Ret (f * x)%float.

(* ================================================================== *)
(** ** Catalog records *)

(** One entry of ['zones']. *)
Record zone_data : Type := {
  multiplier : float;
  areas : list string
}.

(** One entry of ['car_categories'] (its ['multiplier'] is [cat_multiplier]). *)
Record category_data : Type := {
  cat_multiplier : float;
  makes : list string
}.

(** One entry of ['road_network']. *)
Record road_data : Type := {
  direction : string;
  coverage_km : Z;
  estates : list (string * list string);
  boda_pricing : list (string * (Z * Z));
  traffic_multiplier : list (string * float);
  notes : string
}.

(** A value stored under ['labor'], ['parts_range'] or ['time_mins']: a
    two-element list, a single number, or a marker string. *)
Inductive amount : Type :=
| Range (lo hi : Z)
| Single (v : Z)
| Text (s : string).

(** One entry of ['services']; a key the dictionary lacks is [None]. *)
Record service : Type := {
  labor : option amount;
  parts_range : option amount;
  time_mins : option amount;
  flat_fee : option Z;
  boda_range : option (Z * Z);
  pickup_boda : option (Z * Z);
  return_boda : option (Z * Z);
  service_fee : option Z;
  range : option (Z * Z);
  note : option string
}.

(** The dictionary returned by [load_pricing_matrix] (['coverage_policy'],
    which no function reads, is left out). *)
Record pricing_matrix : Type := {
  zones : list (string * zone_data);
  road_network : list (string * road_data);
  car_categories : list (string * category_data);
  services : list (string * service)
}.

(** A diagnostic template; the free-text fields that neither the matcher
    nor the pricing engine reads (['probable_causes'], ['diy_steps'],
    ['warning'], ['kenya_context']) are left out. *)
Record template : Type := {
  id : string;
  keywords : list string;
  diagnosis : string;
  recommended_service : string;
  urgent : bool;
  diy_possible : bool;
  price_service : string;
  confidence : string
}.

(** The part of [load_skill_files]'s result that the engines read. *)
Record knowledge_base : Type := {
  kb_pricing_matrix : pricing_matrix;
  templates : list template
}.

(* ================================================================== *)
(** ** [load_pricing_matrix] *)

Definition zones_table : list (string * zone_data) :=
  [ ("premium",
     {| multiplier := 1.2%float;
        areas := ["Karen"; "Westlands"; "Runda"; "Lavington"; "Kileleshwa"; "Muthaiga"; "Spring Valley"] |});
    ("middle",
     {| multiplier := 1.0%float;
        areas := ["South C"; "South B"; "Kilimani"; "Parklands"; "Langata"; "Ngong Road"; "Donholm"; "Embakasi"; "Kasarani"] |});
    ("budget",
     {| multiplier := 0.85%float;
        areas := ["Kibera"; "Eastlands"; "Githurai"; "Kayole"; "Kawangware"; "Mathare"; "Umoja"; "Dandora"] |}) ].

Definition car_categories_table : list (string * category_data) :=
  [ ("standard",
     {| cat_multiplier := 1.0%float;
        makes := ["Toyota"; "Nissan"; "Honda"; "Mazda"; "Mitsubishi"; "Suzuki"; "Isuzu"; "Daihatsu"; "Datsun"; "Chevrolet (Opel)"; "Ford (Ranger, Everest)"; "Hyundai"; "Kia"; "Peugeot"; "Renault"; "Mahindra"; "Tata"] |});
    ("premium",
     {| cat_multiplier := 1.4%float;
        makes := ["Volkswagen"; "Audi"; "Subaru"; "Volvo"; "Jeep"; "Land Rover (Defender, Discovery Sport)"; "Lexus (RX, NX)"; "Infiniti"; "Acura"; "Mini Cooper"; "Alfa Romeo"; "Saab"] |});
    ("luxury",
     {| cat_multiplier := 1.8%float;
        makes := ["BMW"; "Mercedes-Benz"; "Range Rover"; "Porsche"; "Jaguar"; "Aston Martin"; "Bentley"; "Rolls-Royce"; "Maserati"; "Ferrari"; "Lamborghini"; "McLaren"; "Maybach"; "Lexus (LS, LX)"; "Tesla"; "Cadillac"] |});
    ("exotic",
     {| cat_multiplier := 2.5%float;
        makes := ["Bugatti"; "Koenigsegg"; "Pagani"] |}) ].

Definition mombasa_road : road_data :=
  {| direction := "Southeast";
     coverage_km := 25;
     estates :=
       [ ("0-5km", ["Industrial Area"; "South B"; "South C"; "Imara Daima"]);
         ("5-10km", ["Mlolongo Gateway"; "Syokimau"; "Kitengela Gate"]);
         ("10-15km", ["Athi River (near)"; "Mlolongo Town"]);
         ("15-25km", ["Kitengela"; "Kajiado (outer limit)"]) ];
     boda_pricing :=
       [ ("0-5km", (150, 250));
         ("5-10km", (300, 400));
         ("10-15km", (500, 600));
         ("15-25km", (700, 800)) ];
     traffic_multiplier := [ ("peak", 1.5%float); ("normal", 1.0%float) ];
     notes := "Heavy truck traffic. Peak hours extremely congested." |}.

Definition waiyaki_way : road_data :=
  {| direction := "Northwest";
     coverage_km := 25;
     estates :=
       [ ("0-5km", ["Westlands"; "Parklands"; "Mountain View"; "Spring Valley"]);
         ("5-10km", ["Kangemi"; "Regen"; "Uthiru"]);
         ("10-15km", ["Kinoo"; "Kikuyu"]);
         ("15-25km", ["Limuru Road (outer limit)"]) ];
     boda_pricing :=
       [ ("0-5km", (150, 250));
         ("5-10km", (300, 400));
         ("10-15km", (500, 600));
         ("15-25km", (700, 800)) ];
     traffic_multiplier := [ ("peak", 1.6%float); ("normal", 1.0%float) ];
     notes := "Notorious for traffic jams. Add 30-60 mins during peak hours." |}.

Definition ngong_road : road_data :=
  {| direction := "Southwest";
     coverage_km := 25;
     estates :=
       [ ("0-5km", ["Kilimani"; "Hurlingham"; "Kileleshwa"; "Lavington"]);
         ("5-10km", ["Karen"; "Runda"; "Adams Arcade"; "Junction"]);
         ("10-15km", ["Ngong Town"; "Kibiko"]);
         ("15-25km", ["Rongai"; "Kiserian (outer limit)"]) ];
     boda_pricing :=
       [ ("0-5km", (150, 250));
         ("5-10km", (300, 400));
         ("10-15km", (500, 600));
         ("15-25km", (700, 800)) ];
     traffic_multiplier := [ ("peak", 1.4%float); ("normal", 1.0%float) ];
     notes := "Good road condition. Premium areas along this route." |}.

Definition thika_road : road_data :=
  {| direction := "Northeast";
     coverage_km := 25;
     estates :=
       [ ("0-5km", ["Muthaiga"; "Parklands"; "Eastleigh"; "Pangani"]);
         ("5-10km", ["Kasarani"; "Githurai 44"; "Zimmerman"]);
         ("10-15km", ["Githurai 45"; "Kahawa West"; "Kahawa Sukari"]);
         ("15-25km", ["Ruiru"; "Juja (outer limit)"]) ];
     boda_pricing :=
       [ ("0-5km", (150, 250));
         ("5-10km", (300, 400));
         ("10-15km", (500, 600));
         ("15-25km", (700, 800)) ];
     traffic_multiplier := [ ("peak", 1.3%float); ("normal", 1.0%float) ];
     notes := "Superhighway but still congested at exits. Matatu traffic." |}.

Definition jogoo_road : road_data :=
  {| direction := "East";
     coverage_km := 25;
     estates :=
       [ ("0-5km", ["Makadara"; "Kaloleni"; "Shauri Moyo"]);
         ("5-10km", ["Buruburu"; "Umoja"; "Donholm"]);
         ("10-15km", ["Komarock"; "Kayole"; "Mihang'o"]);
         ("15-25km", ["Ruai"; "Kamulu (outer limit)"]) ];
     boda_pricing :=
       [ ("0-5km", (150, 200));
         ("5-10km", (250, 350));
         ("10-15km", (400, 500));
         ("15-25km", (600, 700)) ];
     traffic_multiplier := [ ("peak", 1.3%float); ("normal", 1.0%float) ];
     notes := "Budget-friendly areas. Lower boda costs due to competition." |}.

Definition langata_road : road_data :=
  {| direction := "South";
     coverage_km := 25;
     estates :=
       [ ("0-5km", ["Kilimani"; "Nairobi West"; "Lang'ata"]);
         ("5-10km", ["Karen"; "Ongata Rongai"]);
         ("10-15km", ["Tuala"; "Kiserian"]);
         ("15-25km", ["Ngong (outer limit)"]) ];
     boda_pricing :=
       [ ("0-5km", (150, 250));
         ("5-10km", (300, 400));
         ("10-15km", (500, 600));
         ("15-25km", (700, 800)) ];
     traffic_multiplier := [ ("peak", 1.3%float); ("normal", 1.0%float) ];
     notes := "Mix of premium (Karen) and budget (Rongai) areas." |}.

Definition outer_ring_road : road_data :=
  {| direction := "Circular";
     coverage_km := 15;
     estates :=
       [ ("0-5km", ["Enterprise Road"; "Mombasa Road Junction"; "Embakasi"]);
         ("5-10km", ["Fedha"; "Pipeline"; "Donholm"]);
         ("10-15km", ["Utawala"; "Mihang'o"; "Ruai Gate"]) ];
     boda_pricing :=
       [ ("0-5km", (150, 250));
         ("5-10km", (300, 400));
         ("10-15km", (500, 600)) ];
     traffic_multiplier := [ ("peak", 1.4%float); ("normal", 1.0%float) ];
     notes := "Connects major roads. Good for cross-town navigation." |}.

Definition eastern_bypass : road_data :=
  {| direction := "North-South (Eastern side)";
     coverage_km := 20;
     estates :=
       [ ("0-5km", ["Embakasi"; "Donholm"; "Buruburu"]);
         ("5-10km", ["Ruai"; "Utawala"; "Pipeline"]);
         ("10-20km", ["Kamulu"; "Joska (outer limit)"]) ];
     boda_pricing :=
       [ ("0-5km", (150, 250));
         ("5-10km", (300, 400));
         ("10-20km", (500, 700)) ];
     traffic_multiplier := [ ("peak", 1.2%float); ("normal", 1.0%float) ];
     notes := "Relatively clear traffic. Good alternative to Thika/Mombasa Roads." |}.

Definition road_network_table : list (string * road_data) :=
  [ ("mombasa_road", mombasa_road);
    ("waiyaki_way", waiyaki_way);
    ("ngong_road", ngong_road);
    ("thika_road", thika_road);
    ("jogoo_road", jogoo_road);
    ("langata_road", langata_road);
    ("outer_ring_road", outer_ring_road);
    ("eastern_bypass", eastern_bypass) ].

Definition svc_battery_replacement : service :=
  {| labor := Some (Range 1000 4000);
     parts_range := Some (Range 6500 28000);
     time_mins := Some (Range 20 60);
     flat_fee := None;
     boda_range := None;
     pickup_boda := None;
     return_boda := None;
     service_fee := None;
     range := None;
     note := Some "Labor varies based on accessibility and connections" |}.

Definition svc_oil_change : service :=
  {| labor := Some (Range 2000 8000);
     parts_range := Some (Range 2000 25000);
     time_mins := Some (Range 45 240);
     flat_fee := None;
     boda_range := None;
     pickup_boda := None;
     return_boda := None;
     service_fee := None;
     range := None;
     note := Some "Full service with worn parts replacement costs more" |}.

Definition svc_brake_pads : service :=
  {| labor := Some (Range 2500 18000);
     parts_range := Some (Range 4000 20000);
     time_mins := Some (Range 60 180);
     flat_fee := None;
     boda_range := None;
     pickup_boda := None;
     return_boda := None;
     service_fee := None;
     range := None;
     note := Some "Premium cars need higher labor cost" |}.

Definition svc_diagnostic_scan : service :=
  {| labor := Some (Range 1500 15000);
     parts_range := Some (Range 0 0);
     time_mins := Some (Range 30 180);
     flat_fee := None;
     boda_range := None;
     pickup_boda := None;
     return_boda := None;
     service_fee := None;
     range := None;
     note := Some "Complex diagnostics (transmission, engine) cost more" |}.

Definition svc_mobile_callout : service :=
  {| labor := None;
     parts_range := None;
     time_mins := None;
     flat_fee := Some 500;
     boda_range := Some (150, 800);
     pickup_boda := None;
     return_boda := None;
     service_fee := None;
     range := None;
     note := Some "Flat 500 service fee + boda charge (150 Westlands, 800 Kahawa) + labor + parts" |}.

Definition svc_pick_and_drop : service :=
  {| labor := None;
     parts_range := None;
     time_mins := None;
     flat_fee := None;
     boda_range := None;
     pickup_boda := Some (200, 800);
     return_boda := Some (200, 800);
     service_fee := Some 500;
     range := None;
     note := Some "Boda both ways + 500 service fee. If garage sends driver, cheaper" |}.

Definition svc_towing : service :=
  {| labor := None;
     parts_range := None;
     time_mins := None;
     flat_fee := None;
     boda_range := None;
     pickup_boda := None;
     return_boda := None;
     service_fee := None;
     range := Some (2500, 25000);
     note := Some "Distance-dependent. Could be more for long distances" |}.

Definition svc_alternator : service :=
  {| labor := Some (Range 4000 8000);
     parts_range := Some (Range 8000 15000);
     time_mins := Some (Range 120 180);
     flat_fee := None;
     boda_range := None;
     pickup_boda := None;
     return_boda := None;
     service_fee := None;
     range := None;
     note := None |}.

Definition svc_starter_motor : service :=
  {| labor := Some (Range 3500 7000);
     parts_range := Some (Range 6000 12000);
     time_mins := Some (Range 90 150);
     flat_fee := None;
     boda_range := None;
     pickup_boda := None;
     return_boda := None;
     service_fee := None;
     range := None;
     note := None |}.

Definition svc_radiator : service :=
  {| labor := Some (Range 5000 10000);
     parts_range := Some (Range 8000 20000);
     time_mins := Some (Range 180 300);
     flat_fee := None;
     boda_range := None;
     pickup_boda := None;
     return_boda := None;
     service_fee := None;
     range := None;
     note := None |}.

Definition svc_transmission : service :=
  {| labor := Some (Text "DIAGNOSIS_REQUIRED");
     parts_range := Some (Text "DIAGNOSIS_REQUIRED");
     time_mins := Some (Text "DIAGNOSIS_REQUIRED");
     flat_fee := None;
     boda_range := None;
     pickup_boda := None;
     return_boda := None;
     service_fee := None;
     range := None;
     note := Some "Too complex to estimate without inspection" |}.

Definition svc_engine_overhaul : service :=
  {| labor := Some (Text "DIAGNOSIS_REQUIRED");
     parts_range := Some (Text "DIAGNOSIS_REQUIRED");
     time_mins := Some (Text "DIAGNOSIS_REQUIRED");
     flat_fee := None;
     boda_range := None;
     pickup_boda := None;
     return_boda := None;
     service_fee := None;
     range := None;
     note := Some "Major work requiring full diagnosis and quote" |}.

Definition svc_specialty_service : service :=
  {| labor := Some (Text "DIAGNOSIS_REQUIRED");
     parts_range := Some (Text "DIAGNOSIS_REQUIRED");
     time_mins := Some (Text "DIAGNOSIS_REQUIRED");
     flat_fee := None;
     boda_range := None;
     pickup_boda := None;
     return_boda := None;
     service_fee := None;
     range := None;
     note := Some "Garage/specialist services need assessment first" |}.

Definition services_table : list (string * service) :=
  [ ("battery_replacement", svc_battery_replacement);
    ("oil_change", svc_oil_change);
    ("brake_pads", svc_brake_pads);
    ("diagnostic_scan", svc_diagnostic_scan);
    ("mobile_callout", svc_mobile_callout);
    ("pick_and_drop", svc_pick_and_drop);
    ("towing", svc_towing);
    ("alternator", svc_alternator);
    ("starter_motor", svc_starter_motor);
    ("radiator", svc_radiator);
    ("transmission", svc_transmission);
    ("engine_overhaul", svc_engine_overhaul);
    ("specialty_service", svc_specialty_service) ].
Definition load_pricing_matrix : pricing_matrix :=
  {| zones := zones_table;
     road_network := road_network_table;
     car_categories := car_categories_table;
     services := services_table |}.

(* ================================================================== *)
(** ** [load_diagnostic_templates] *)

Definition tpl_battery_dead : template :=
  {| id := "battery_dead";
     keywords := ["won't start"; "clicking sound"; "dashboard lights dim"; "headlights weak"; "jump start"];
     diagnosis := "Battery Dead or Weak";
     recommended_service := "mobile_mechanic";
     urgent := true;
     diy_possible := false;
     price_service := "battery_replacement";
     confidence := "HIGH" |}.

Definition tpl_battery_intermittent : template :=
  {| id := "battery_intermittent";
     keywords := ["sometimes won't start"; "starts after few tries"; "morning start problem"];
     diagnosis := "Weak Battery or Bad Connection";
     recommended_service := "mobile_mechanic";
     urgent := false;
     diy_possible := true;
     price_service := "diagnostic_scan";
     confidence := "MEDIUM" |}.

Definition tpl_engine_overheat : template :=
  {| id := "engine_overheat";
     keywords := ["temperature gauge high"; "steam from hood"; "engine hot"; "coolant warning"];
     diagnosis := "Engine Overheating";
     recommended_service := "mobile_mechanic";
     urgent := true;
     diy_possible := false;
     price_service := "radiator";
     confidence := "HIGH" |}.

Definition tpl_brake_noise : template :=
  {| id := "brake_noise";
     keywords := ["squeaking brakes"; "grinding noise"; "brake sound"];
     diagnosis := "Worn Brake Pads";
     recommended_service := "mobile_mechanic";
     urgent := false;
     diy_possible := false;
     price_service := "brake_pads";
     confidence := "HIGH" |}.

Definition tpl_brake_soft : template :=
  {| id := "brake_soft";
     keywords := ["soft brake pedal"; "spongy brakes"; "brake goes to floor"];
     diagnosis := "Brake System Problem (Fluid or Air)";
     recommended_service := "mobile_mechanic";
     urgent := true;
     diy_possible := false;
     price_service := "brake_pads";
     confidence := "MEDIUM" |}.

Definition tpl_alternator_failure : template :=
  {| id := "alternator_failure";
     keywords := ["battery light on"; "lights dimming"; "radio cutting out"; "dashboard flickering"];
     diagnosis := "Alternator Not Charging Battery";
     recommended_service := "mobile_mechanic";
     urgent := false;
     diy_possible := false;
     price_service := "alternator";
     confidence := "HIGH" |}.

Definition tpl_starter_motor : template :=
  {| id := "starter_motor";
     keywords := ["clicking but won't turn over"; "engine not cranking"; "starter click"];
     diagnosis := "Starter Motor Failure";
     recommended_service := "mobile_mechanic";
     urgent := true;
     diy_possible := false;
     price_service := "starter_motor";
     confidence := "MEDIUM" |}.

Definition tpl_transmission_slip : template :=
  {| id := "transmission_slip";
     keywords := ["gears slipping"; "transmission not shifting"; "delayed engagement"; "burning smell"];
     diagnosis := "Transmission Problem";
     recommended_service := "car_specific";
     urgent := false;
     diy_possible := false;
     price_service := "transmission";
     confidence := "LOW" |}.

Definition tpl_oil_leak : template :=
  {| id := "oil_leak";
     keywords := ["oil under car"; "oil dripping"; "oil smell"; "low oil"];
     diagnosis := "Engine Oil Leak";
     recommended_service := "mobile_mechanic";
     urgent := false;
     diy_possible := false;
     price_service := "oil_change";
     confidence := "MEDIUM" |}.

Definition tpl_flat_tire : template :=
  {| id := "flat_tire";
     keywords := ["flat tire"; "tire puncture"; "tire pressure low"; "tire warning light"];
     diagnosis := "Flat or Punctured Tire";
     recommended_service := "mobile_mechanic";
     urgent := true;
     diy_possible := true;
     price_service := "diagnostic_scan";
     confidence := "HIGH" |}.

Definition tpl_engine_misfire : template :=
  {| id := "engine_misfire";
     keywords := ["engine shaking"; "rough idle"; "check engine light"; "loss of power"];
     diagnosis := "Engine Misfire";
     recommended_service := "mobile_mechanic";
     urgent := false;
     diy_possible := false;
     price_service := "diagnostic_scan";
     confidence := "MEDIUM" |}.

Definition tpl_suspension_noise : template :=
  {| id := "suspension_noise";
     keywords := ["clunking noise"; "rattling over bumps"; "suspension noise"];
     diagnosis := "Worn Suspension Components";
     recommended_service := "mobile_mechanic";
     urgent := false;
     diy_possible := false;
     price_service := "diagnostic_scan";
     confidence := "MEDIUM" |}.

Definition tpl_loud_exhaust : template :=
  {| id := "loud_exhaust";
     keywords := ["loud exhaust"; "exhaust noise"; "rumbling sound"];
     diagnosis := "Exhaust System Leak or Damage";
     recommended_service := "mobile_mechanic";
     urgent := false;
     diy_possible := false;
     price_service := "diagnostic_scan";
     confidence := "HIGH" |}.

Definition tpl_ac_not_cooling : template :=
  {| id := "ac_not_cooling";
     keywords := ["ac not cold"; "air conditioning weak"; "ac blowing warm"];
     diagnosis := "Air Conditioning Not Cooling";
     recommended_service := "car_specific";
     urgent := false;
     diy_possible := false;
     price_service := "diagnostic_scan";
     confidence := "MEDIUM" |}.

Definition tpl_steering_heavy : template :=
  {| id := "steering_heavy";
     keywords := ["hard to steer"; "heavy steering"; "steering difficult"];
     diagnosis := "Power Steering Problem";
     recommended_service := "mobile_mechanic";
     urgent := false;
     diy_possible := false;
     price_service := "diagnostic_scan";
     confidence := "MEDIUM" |}.

Definition tpl_poor_fuel_economy : template :=
  {| id := "poor_fuel_economy";
     keywords := ["using too much fuel"; "bad mileage"; "fuel consumption high"];
     diagnosis := "Poor Fuel Economy";
     recommended_service := "mobile_mechanic";
     urgent := false;
     diy_possible := true;
     price_service := "diagnostic_scan";
     confidence := "LOW" |}.

Definition tpl_window_stuck : template :=
  {| id := "window_stuck";
     keywords := ["window won't roll up"; "power window not working"; "window stuck"];
     diagnosis := "Power Window Failure";
     recommended_service := "mobile_mechanic";
     urgent := false;
     diy_possible := false;
     price_service := "diagnostic_scan";
     confidence := "MEDIUM" |}.

Definition tpl_check_engine_light : template :=
  {| id := "check_engine_light";
     keywords := ["check engine light"; "engine warning light"; "malfunction indicator"];
     diagnosis := "Check Engine Light On";
     recommended_service := "mobile_mechanic";
     urgent := false;
     diy_possible := true;
     price_service := "diagnostic_scan";
     confidence := "LOW" |}.

Definition tpl_car_wont_start_fuel : template :=
  {| id := "car_wont_start_fuel";
     keywords := ["won't start"; "cranks but won't start"; "turns over but won't start"; "no fuel"];
     diagnosis := "Fuel System Problem";
     recommended_service := "mobile_mechanic";
     urgent := true;
     diy_possible := true;
     price_service := "diagnostic_scan";
     confidence := "MEDIUM" |}.

Definition tpl_headlights_dim : template :=
  {| id := "headlights_dim";
     keywords := ["dim headlights"; "lights weak"; "lights flickering"];
     diagnosis := "Electrical System Problem";
     recommended_service := "mobile_mechanic";
     urgent := false;
     diy_possible := true;
     price_service := "alternator";
     confidence := "MEDIUM" |}.

Definition tpl_coolant_leak : template :=
  {| id := "coolant_leak";
     keywords := ["coolant leak"; "green fluid under car"; "pink fluid leak"; "radiator leak"];
     diagnosis := "Coolant Leak";
     recommended_service := "mobile_mechanic";
     urgent := true;
     diy_possible := false;
     price_service := "radiator";
     confidence := "HIGH" |}.

Definition tpl_clutch_slipping : template :=
  {| id := "clutch_slipping";
     keywords := ["clutch slipping"; "revs high but car slow"; "burning smell clutch"];
     diagnosis := "Worn Clutch";
     recommended_service := "car_specific";
     urgent := false;
     diy_possible := false;
     price_service := "transmission";
     confidence := "HIGH" |}.

Definition tpl_abs_light : template :=
  {| id := "abs_light";
     keywords := ["abs light on"; "abs warning"; "brake light on"];
     diagnosis := "ABS System Problem";
     recommended_service := "mobile_mechanic";
     urgent := false;
     diy_possible := false;
     price_service := "diagnostic_scan";
     confidence := "MEDIUM" |}.

Definition tpl_airbag_light : template :=
  {| id := "airbag_light";
     keywords := ["airbag light"; "srs light"; "airbag warning"];
     diagnosis := "Airbag System Fault";
     recommended_service := "car_specific";
     urgent := false;
     diy_possible := false;
     price_service := "diagnostic_scan";
     confidence := "LOW" |}.

Definition tpl_loss_of_power : template :=
  {| id := "loss_of_power";
     keywords := ["loss of power"; "car slow"; "no acceleration"; "sluggish"];
     diagnosis := "Engine Performance Problem";
     recommended_service := "mobile_mechanic";
     urgent := false;
     diy_possible := true;
     price_service := "diagnostic_scan";
     confidence := "LOW" |}.

Definition tpl_black_smoke : template :=
  {| id := "black_smoke";
     keywords := ["black smoke"; "dark exhaust"; "soot from exhaust"];
     diagnosis := "Rich Fuel Mixture (Too Much Fuel)";
     recommended_service := "mobile_mechanic";
     urgent := false;
     diy_possible := true;
     price_service := "diagnostic_scan";
     confidence := "MEDIUM" |}.

Definition tpl_white_smoke : template :=
  {| id := "white_smoke";
     keywords := ["white smoke"; "steam from exhaust"; "coolant smell"];
     diagnosis := "Coolant Burning (Head Gasket Failure)";
     recommended_service := "car_specific";
     urgent := true;
     diy_possible := false;
     price_service := "transmission";
     confidence := "HIGH" |}.

Definition tpl_blue_smoke : template :=
  {| id := "blue_smoke";
     keywords := ["blue smoke"; "oil smoke"; "burning oil smell"];
     diagnosis := "Engine Burning Oil";
     recommended_service := "car_specific";
     urgent := false;
     diy_possible := false;
     price_service := "diagnostic_scan";
     confidence := "HIGH" |}.

Definition tpl_hard_to_start : template :=
  {| id := "hard_to_start";
     keywords := ["hard to start"; "takes time to start"; "slow crank"];
     diagnosis := "Starting System Problem";
     recommended_service := "mobile_mechanic";
     urgent := false;
     diy_possible := true;
     price_service := "battery_replacement";
     confidence := "MEDIUM" |}.

Definition tpl_vibration_idle : template :=
  {| id := "vibration_idle";
     keywords := ["shaking at idle"; "rough idle"; "vibration when stopped"];
     diagnosis := "Engine Mount or Idle Problem";
     recommended_service := "mobile_mechanic";
     urgent := false;
     diy_possible := false;
     price_service := "diagnostic_scan";
     confidence := "MEDIUM" |}.

Definition tpl_vibration_speed : template :=
  {| id := "vibration_speed";
     keywords := ["shaking at speed"; "vibration highway"; "wobble at 100km"];
     diagnosis := "Wheel Balance or Alignment Problem";
     recommended_service := "mobile_mechanic";
     urgent := false;
     diy_possible := false;
     price_service := "diagnostic_scan";
     confidence := "HIGH" |}.

Definition tpl_knocking_engine : template :=
  {| id := "knocking_engine";
     keywords := ["knocking sound engine"; "pinging"; "detonation"; "engine knock"];
     diagnosis := "Engine Knock (Pre-Ignition)";
     recommended_service := "mobile_mechanic";
     urgent := false;
     diy_possible := true;
     price_service := "diagnostic_scan";
     confidence := "MEDIUM" |}.

Definition tpl_grinding_noise : template :=
  {| id := "grinding_noise";
     keywords := ["grinding noise"; "metal on metal"; "scraping sound"];
     diagnosis := "Brake Metal-to-Metal Contact";
     recommended_service := "mobile_mechanic";
     urgent := true;
     diy_possible := false;
     price_service := "brake_pads";
     confidence := "HIGH" |}.

Definition tpl_whistling_sound : template :=
  {| id := "whistling_sound";
     keywords := ["whistling sound"; "high pitched noise"; "squealing belt"];
     diagnosis := "Belt Problem";
     recommended_service := "mobile_mechanic";
     urgent := false;
     diy_possible := false;
     price_service := "diagnostic_scan";
     confidence := "HIGH" |}.

Definition tpl_radio_cutting_out : template :=
  {| id := "radio_cutting_out";
     keywords := ["radio cuts out"; "electronics flickering"; "dashboard resets"];
     diagnosis := "Electrical System Problem";
     recommended_service := "mobile_mechanic";
     urgent := false;
     diy_possible := true;
     price_service := "alternator";
     confidence := "MEDIUM" |}.

Definition tpl_power_steering_leak : template :=
  {| id := "power_steering_leak";
     keywords := ["power steering leak"; "red fluid leak"; "steering fluid low"];
     diagnosis := "Power Steering Leak";
     recommended_service := "mobile_mechanic";
     urgent := false;
     diy_possible := false;
     price_service := "diagnostic_scan";
     confidence := "MEDIUM" |}.

Definition tpl_transmission_leak : template :=
  {| id := "transmission_leak";
     keywords := ["transmission leak"; "red fluid under car"; "gearbox leak"];
     diagnosis := "Transmission Fluid Leak";
     recommended_service := "car_specific";
     urgent := false;
     diy_possible := false;
     price_service := "transmission";
     confidence := "HIGH" |}.

Definition tpl_oxygen_sensor : template :=
  {| id := "oxygen_sensor";
     keywords := ["check engine light"; "o2 sensor"; "oxygen sensor"; "emissions"];
     diagnosis := "Oxygen Sensor Failure";
     recommended_service := "mobile_mechanic";
     urgent := false;
     diy_possible := false;
     price_service := "diagnostic_scan";
     confidence := "MEDIUM" |}.

Definition tpl_diesel_hard_start : template :=
  {| id := "diesel_hard_start";
     keywords := ["diesel hard to start"; "glow plugs"; "white smoke diesel"; "diesel cold start"];
     diagnosis := "Glow Plug or Fuel System Issue";
     recommended_service := "car_specific";
     urgent := false;
     diy_possible := false;
     price_service := "diagnostic_scan";
     confidence := "HIGH" |}.

Definition tpl_diesel_smoke : template :=
  {| id := "diesel_smoke";
     keywords := ["black smoke diesel"; "excessive diesel smoke"];
     diagnosis := "Diesel Injection Problem";
     recommended_service := "car_specific";
     urgent := false;
     diy_possible := false;
     price_service := "diagnostic_scan";
     confidence := "MEDIUM" |}.

Definition tpl_hybrid_warning : template :=
  {| id := "hybrid_warning";
     keywords := ["hybrid warning light"; "triangle warning"; "hybrid battery"; "ready light"];
     diagnosis := "Hybrid System Problem";
     recommended_service := "car_specific";
     urgent := false;
     diy_possible := false;
     price_service := "diagnostic_scan";
     confidence := "LOW" |}.

Definition tpl_tpms_light : template :=
  {| id := "tpms_light";
     keywords := ["tire pressure light"; "tpms warning"; "low tire pressure"];
     diagnosis := "Low Tire Pressure or TPMS Sensor";
     recommended_service := "mobile_mechanic";
     urgent := false;
     diy_possible := true;
     price_service := "diagnostic_scan";
     confidence := "HIGH" |}.

Definition tpl_key_fob_not_working : template :=
  {| id := "key_fob_not_working";
     keywords := ["key fob dead"; "remote not working"; "keyless entry failed"];
     diagnosis := "Key Fob Battery Dead or Issue";
     recommended_service := "mobile_mechanic";
     urgent := false;
     diy_possible := true;
     price_service := "diagnostic_scan";
     confidence := "HIGH" |}.

Definition tpl_maf_sensor : template :=
  {| id := "maf_sensor";
     keywords := ["rough idle"; "hesitation"; "poor acceleration"; "black smoke"; "high fuel consumption"];
     diagnosis := "MAF (Mass Air Flow) Sensor Problem";
     recommended_service := "mobile_mechanic";
     urgent := false;
     diy_possible := true;
     price_service := "diagnostic_scan";
     confidence := "MEDIUM" |}.

Definition tpl_timing_belt : template :=
  {| id := "timing_belt";
     keywords := ["timing belt"; "engine wont start after service"; "ticking sound engine"];
     diagnosis := "Timing Belt Issue";
     recommended_service := "car_specific";
     urgent := true;
     diy_possible := false;
     price_service := "transmission";
     confidence := "HIGH" |}.

Definition tpl_wiper_not_working : template :=
  {| id := "wiper_not_working";
     keywords := ["wipers not working"; "windshield wipers dead"; "wiper motor"];
     diagnosis := "Wiper System Failure";
     recommended_service := "mobile_mechanic";
     urgent := false;
     diy_possible := true;
     price_service := "diagnostic_scan";
     confidence := "HIGH" |}.

Definition tpl_fuel_smell : template :=
  {| id := "fuel_smell";
     keywords := ["smell gas"; "fuel smell"; "petrol smell"; "fuel leak"];
     diagnosis := "Fuel System Leak";
     recommended_service := "mobile_mechanic";
     urgent := true;
     diy_possible := false;
     price_service := "diagnostic_scan";
     confidence := "HIGH" |}.

Definition tpl_catalytic_converter : template :=
  {| id := "catalytic_converter";
     keywords := ["rotten egg smell"; "loss of power"; "check engine light"; "rattling under car"];
     diagnosis := "Catalytic Converter Problem";
     recommended_service := "car_specific";
     urgent := false;
     diy_possible := false;
     price_service := "diagnostic_scan";
     confidence := "MEDIUM" |}.

Definition tpl_wheel_bearing : template :=
  {| id := "wheel_bearing";
     keywords := ["humming noise"; "grinding noise wheels"; "rumbling sound"; "noise increases with speed"];
     diagnosis := "Worn Wheel Bearing";
     recommended_service := "mobile_mechanic";
     urgent := false;
     diy_possible := false;
     price_service := "diagnostic_scan";
     confidence := "HIGH" |}.

Definition tpl_heater_not_working : template :=
  {| id := "heater_not_working";
     keywords := ["heater not working"; "no hot air"; "ac only cold"; "heating broken"];
     diagnosis := "Heater Core or Blend Door Problem";
     recommended_service := "car_specific";
     urgent := false;
     diy_possible := false;
     price_service := "diagnostic_scan";
     confidence := "MEDIUM" |}.

Definition load_diagnostic_templates : list template :=
  [ tpl_battery_dead;
    tpl_battery_intermittent;
    tpl_engine_overheat;
    tpl_brake_noise;
    tpl_brake_soft;
    tpl_alternator_failure;
    tpl_starter_motor;
    tpl_transmission_slip;
    tpl_oil_leak;
    tpl_flat_tire;
    tpl_engine_misfire;
    tpl_suspension_noise;
    tpl_loud_exhaust;
    tpl_ac_not_cooling;
    tpl_steering_heavy;
    tpl_poor_fuel_economy;
    tpl_window_stuck;
    tpl_check_engine_light;
    tpl_car_wont_start_fuel;
    tpl_headlights_dim;
    tpl_coolant_leak;
    tpl_clutch_slipping;
    tpl_abs_light;
    tpl_airbag_light;
    tpl_loss_of_power;
    tpl_black_smoke;
    tpl_white_smoke;
    tpl_blue_smoke;
    tpl_hard_to_start;
    tpl_vibration_idle;
    tpl_vibration_speed;
    tpl_knocking_engine;
    tpl_grinding_noise;
    tpl_whistling_sound;
    tpl_radio_cutting_out;
    tpl_power_steering_leak;
    tpl_transmission_leak;
    tpl_oxygen_sensor;
    tpl_diesel_hard_start;
    tpl_diesel_smoke;
    tpl_hybrid_warning;
    tpl_tpms_light;
    tpl_key_fob_not_working;
    tpl_maf_sensor;
    tpl_timing_belt;
    tpl_wiper_not_working;
    tpl_fuel_smell;
    tpl_catalytic_converter;
    tpl_wheel_bearing;
    tpl_heater_not_working ].
Definition load_skill_files : knowledge_base :=
  {| kb_pricing_matrix := load_pricing_matrix;
     templates := load_diagnostic_templates |}.

(* ================================================================== *)
(** ** [query_knowledge_base] *)

(** An element of [template_matches]. *)
Record template_match : Type := {
  tm_template : template;
  score : Z;
  matched_keywords : list string
}.

(** The two dictionaries [query_knowledge_base] returns. *)
Inductive match_outcome : Type :=
| DATA_MISSING (message recommendation confidence_label : string)
| SUCCESS (t : template) (confidence_label : string) (matched : list string).

(** The inner loop over [template['keywords']]: state is
    [(match_score, matched_keywords)]. *)
Fixpoint scan_keywords (user_input_lower : string) (kws : list string)
    (st : Z * list string) : Z * list string :=
  match kws with
  | [] => st
  | keyword :: rest =>
      let '(match_score, matched) := st in
      if contains (lower keyword) user_input_lower
      then scan_keywords user_input_lower rest (match_score + 1, (matched ++ [keyword])%list)
      else scan_keywords user_input_lower rest st
  end.

(** The outer loop: [template_matches] after visiting the templates. *)
Fixpoint scan_templates (user_input_lower : string) (ts : list template)
    (template_matches : list template_match) : list template_match :=
  match ts with
  | [] => template_matches
  | t :: rest =>
      let '(match_score, matched) := scan_keywords user_input_lower (keywords t) (0, []) in
      if 0 <? match_score
      then scan_templates user_input_lower rest
             (template_matches ++
                [{| tm_template := t; score := match_score; matched_keywords := matched |}])%list
      else scan_templates user_input_lower rest template_matches
  end.

(** [list.sort(key=score, reverse=True)]: Python's sort is stable, also
    with [reverse=True], so entries of equal score keep their order.
    [insert_desc] puts [x] before the first entry whose score is not
    larger than its own. *)
Fixpoint insert_desc (x : template_match) (l : list template_match) : list template_match :=
  match l with
  | [] => [x]
  | y :: r => if score y <=? score x then x :: l else y :: insert_desc x r
  end.

Definition sort_desc (l : list template_match) : list template_match :=
  fold_right insert_desc [] l.

Definition query_knowledge_base (user_input : string) (kb : knowledge_base) : match_outcome :=
  let user_input_lower := lower user_input in
  let template_matches := scan_templates user_input_lower (templates kb) [] in
  let template_matches := sort_desc template_matches in
  match template_matches with
  | [] =>
      DATA_MISSING
        "I don't have enough information to diagnose this specific issue."
        "Book a diagnostic scan with our mobile mechanic for proper assessment."
        "N/A"
  | best_match :: _ =>
      SUCCESS (tm_template best_match)
              (confidence (tm_template best_match))
              (matched_keywords best_match)
  end.

(* ================================================================== *)
(** ** [calculate_boda_pricing] *)

(** The dictionary [calculate_boda_pricing] returns. *)
Record boda_info : Type := {
  boda_cost : Z * Z;
  road : string;
  distance_km : string;
  traffic_factor : float;
  boda_note : string
}.

(** The test inside [any(...)]: bidirectional substring containment. *)
Definition estate_matches (location_lower estate : string) : bool :=
  contains location_lower (lower estate) || contains (lower estate) location_lower.

(** The loop over [estates.items()] of one road; the state is
    [(matched_road, matched_distance_range)] and a hit assigns both and
    leaves the loop. *)
Fixpoint search_bands (location_lower road_name : string)
    (bands : list (string * list string))
    (st : option string * option string) : option string * option string :=
  match bands with
  | [] => st
  | (distance_range, estate_list) :: rest =>
      if existsb (estate_matches location_lower) estate_list
      then (Some road_name, Some distance_range)
      else search_bands location_lower road_name rest st
  end.

(** The loop over [road_network.items()], left as soon as [matched_road]
    is true. *)
Fixpoint search_roads (location_lower : string)
    (roads : list (string * road_data))
    (st : option string * option string) : option string * option string :=
  match roads with
  | [] => st
  | (road_name, rd) :: rest =>
      let st' := search_bands location_lower road_name (estates rd) st in
      if truthy (fst st') then st' else search_roads location_lower rest st'
  end.

Definition fallback_boda_info : boda_info :=
  {| boda_cost := (300, 500);
     road := "unknown";
     distance_km := "estimated 10-15km";
     traffic_factor := 1.0%float;
     boda_note := "Location not in coverage map. Using estimated pricing." |}.

(** [adjusted_pricing]: both bounds of [base_pricing] times the traffic
    multiplier, each truncated by [int]. *)
Definition adjusted_pricing (base_pricing : Z * Z) (traffic_mult : float)
    : result (Z * Z) :=
  lo_f <- int_mul_float (fst base_pricing) traffic_mult ;;
  lo <- int_of_float lo_f ;;
  hi_f <- int_mul_float (snd base_pricing) traffic_mult ;;
  hi <- int_of_float hi_f ;;
  Ret (lo, hi).

Definition calculate_boda_pricing (location time_of_day : string)
    (pm : pricing_matrix) : result boda_info :=
  let location_lower := lower location in
  let '(matched_road, matched_distance_range) :=
    search_roads location_lower (road_network pm) (None, None) in
  if negb (truthy matched_road) then Ret fallback_boda_info
  else
    let road_name := match matched_road with Some r => r | None => "" end in
    rd <- item (road_network pm) road_name ;;
    let base_pricing :=
      match matched_distance_range with
      | Some d => get (boda_pricing rd) d (300, 500)
      | None => (300, 500)
      end in
    let traffic_mult := get (traffic_multiplier rd) time_of_day 1.0%float in
    adjusted <- adjusted_pricing base_pricing traffic_mult ;;
    Ret {| boda_cost := adjusted;
           road := title (replace "_" " " road_name);
           distance_km := match matched_distance_range with Some d => d | None => "" end;
           traffic_factor := traffic_mult;
           boda_note := notes rd |}.

(* ================================================================== *)
(** ** [calculate_price_estimate] *)

(** ['location_details'] of a located estimate. *)
Record location_details : Type := {
  ld_road : string;
  ld_distance : string;
  ld_traffic_factor : float;
  ld_time_of_day : string
}.

(** The value stored under ['labor'] of a standard estimate. *)
Inductive labor_cost : Type :=
| LaborRange (lo hi : Z)
| LaborSingle (v : Z).

(** The dictionaries [calculate_price_estimate] returns, one constructor
    per shape; the texts assembled by string formatting (['breakdown'],
    ['example'], the towing ['message'] and the joined ['note']) are left
    out. *)
Inductive estimate : Type :=
| EstDiagnosisRequired (message est_note recommendation : string)
| EstMobileCallout (fee : Z) (boda : Z * Z) (total_range : Z * Z)
    (details : location_details)
| EstMobileCalloutGeneric (fee : Z) (boda : Z * Z)
| EstPickAndDrop (pickup return_leg : Z * Z) (fee : Z) (total_range : Z * Z)
    (details : location_details)
| EstPickAndDropGeneric (pickup return_leg : Z * Z) (fee : Z) (total_range : Z * Z)
| EstTowing (towing_range : Z * Z)
| EstStandard (labor_est : labor_cost) (parts_est : option (Z * Z))
    (total_range : Z * Z) (time_estimate_mins : amount) (est_note : option string).

(** [d[k]] on a service field. *)
Definition field {A : Type} (o : option A) : result A :=
  match o with
  | Some a => Ret a
  | None => Raise KeyError
  end.

(** [not service]: the empty dictionary is false. *)
Definition service_is_empty (s : service) : bool :=
  match labor s, parts_range s, time_mins s, flat_fee s, boda_range s,
        pickup_boda s, return_boda s, service_fee s, range s, note s with
  | None, None, None, None, None, None, None, None, None, None => true
  | _, _, _, _, _, _, _, _, _, _ => false
  end.

(** The loop resolving [zone_mult]. *)
Fixpoint find_zone_mult (zone_lower : string) (zs : list (string * zone_data))
    (zone_mult : float) : float :=
  match zs with
  | [] => zone_mult
  | (_, zone) :: rest =>
      if mem zone_lower (map lower (areas zone)) then multiplier zone
      else find_zone_mult zone_lower rest zone_mult
  end.

(** The loop resolving [car_mult]. *)
Fixpoint find_car_mult (car_lower : string) (cs : list (string * category_data))
    (car_mult : float) : float :=
  match cs with
  | [] => car_mult
  | (_, cat) :: rest =>
      if mem car_lower (map lower (makes cat)) then cat_multiplier cat
      else find_car_mult car_lower rest car_mult
  end.

(** [int(n * zone_mult * car_mult)]. *)
Definition scaled_labor (n : Z) (zone_mult car_mult : float) : result Z :=
  f <- int_mul_float n zone_mult ;; int_of_float (f * car_mult)%float.

(** [int(n * car_mult) if n > 0 else 0]. *)
Definition scaled_parts (n : Z) (car_mult : float) : result Z :=
  if 0 <? n then (f <- int_mul_float n car_mult ;; int_of_float f) else Ret 0.

(** The tail of [calculate_price_estimate] ("Calculate prices" onwards),
    once the two multipliers are resolved. *)
Definition standard_estimate (s : service) (zone_mult car_mult : float)
    : result estimate :=
  l <- field (labor s) ;;
  labor_est <-
    match l with
    | Range lo hi =>
        labor_min <- scaled_labor lo zone_mult car_mult ;;
        labor_max <- scaled_labor hi zone_mult car_mult ;;
        Ret (LaborRange labor_min labor_max)
    | Single v =>
        c <- scaled_labor v zone_mult car_mult ;; Ret (LaborSingle c)
    | Text _ => Raise TypeError
    end ;;
  p <- field (parts_range s) ;;
  parts <-
    match p with
    | Range lo hi =>
        parts_min <- scaled_parts lo car_mult ;;
        parts_max <- scaled_parts hi car_mult ;;
        Ret (parts_min, parts_max)
    | Single _ => Raise TypeError
    | Text "" => Raise IndexError
    | Text _ => Raise TypeError
    end ;;
  let '(parts_min, parts_max) := parts in
  let total :=
    match labor_est with
    | LaborRange labor_min labor_max =>
        (labor_min + parts_min,
         if 0 <? parts_max then labor_max + parts_max else labor_max)
    | LaborSingle c =>
        (c + parts_min, if 0 <? parts_max then c + parts_max else c)
    end in
  time_estimate <- field (time_mins s) ;;
  Ret (EstStandard labor_est
         (if 0 <? parts_max then Some (parts_min, parts_max) else None)
         total time_estimate (note s)).

Definition calculate_price_estimate (service_key zone car_category : string)
    (pm : pricing_matrix) (location : option string) (time_of_day : string)
    : result (option estimate) :=
  match lookup service_key (services pm) with
  | None => Ret None
  | Some s =>
    if service_is_empty s then Ret None
    else
    match labor s with
    | Some (Text "DIAGNOSIS_REQUIRED") =>
        Ret (Some (EstDiagnosisRequired
          "This service requires professional diagnosis before pricing can be determined."
          (match note s with Some n => n | None => "" end)
          "Book a diagnostic scan first (KES 1,500-15,000)"))
    | _ =>
    if String.eqb service_key "mobile_callout" then
      if truthy location then
        let loc := match location with Some l => l | None => "" end in
        boda <- calculate_boda_pricing loc time_of_day pm ;;
        fee <- field (flat_fee s) ;;
        _ <- field (note s) ;;
        Ret (Some (EstMobileCallout fee (boda_cost boda)
                     (fee + fst (boda_cost boda), fee + snd (boda_cost boda))
                     {| ld_road := road boda;
                        ld_distance := distance_km boda;
                        ld_traffic_factor := traffic_factor boda;
                        ld_time_of_day := time_of_day |}))
      else
        fee <- field (flat_fee s) ;;
        b <- field (boda_range s) ;;
        _ <- field (note s) ;;
        Ret (Some (EstMobileCalloutGeneric fee b))
    else if String.eqb service_key "pick_and_drop" then
      if truthy location then
        let loc := match location with Some l => l | None => "" end in
        boda <- calculate_boda_pricing loc time_of_day pm ;;
        let pickup_cost := boda_cost boda in
        let return_cost := boda_cost boda in
        fee <- field (service_fee s) ;;
        let total_min := fst pickup_cost + fst return_cost + fee in
        let total_max := snd pickup_cost + snd return_cost + fee in
        _ <- field (note s) ;;
        Ret (Some (EstPickAndDrop pickup_cost return_cost fee (total_min, total_max)
                     {| ld_road := road boda;
                        ld_distance := distance_km boda;
                        ld_traffic_factor := traffic_factor boda;
                        ld_time_of_day := time_of_day |}))
      else
        pickup <- field (pickup_boda s) ;;
        ret <- field (return_boda s) ;;
        fee <- field (service_fee s) ;;
        let total_min := fst pickup + fst ret + fee in
        let total_max := snd pickup + snd ret + fee in
        _ <- field (note s) ;;
        Ret (Some (EstPickAndDropGeneric pickup ret fee (total_min, total_max)))
    else if String.eqb service_key "towing" then
      r <- field (range s) ;;
      _ <- field (note s) ;;
      Ret (Some (EstTowing r))
    else
      let zone_mult := find_zone_mult (lower zone) (zones pm) 1.0%float in
      let car_mult := find_car_mult (lower car_category) (car_categories pm) 1.0%float in
      e <- standard_estimate s zone_mult car_mult ;;
      Ret (Some e)
    end
  end.

(* ================================================================== *)
(** ** Time of day in [diagnose] *)

(** The fields [datetime.fromisoformat] produces. *)
Record datetime : Type := {
  year : Z; month : Z; day : Z; hour : Z; minute : Z; second : Z
}.

(** The request fields read for the time of day: [data.get('time_of_day')]
    and [data['timestamp']] when the key is present. *)
Record request_data : Type := {
  time_of_day_field : option string;
  timestamp_field : option string
}.

(** "Peak hours: 7-9am, 5-7pm". *)
Definition is_peak_hour (h : Z) : bool :=
  ((7 <=? h) && (h <? 9)) || ((17 <=? h) && (h <? 19)).

(** The value of [time_of_day] that [diagnose] hands to
    [calculate_price_estimate]. [parse] stands for
    [datetime.fromisoformat], with [None] for a raised exception (caught by
    the bare [except] and ignored). *)
Definition effective_time_of_day (parse : string -> option datetime)
    (data : request_data) : string :=
  let time_of_day :=
    match time_of_day_field data with Some t => t | None => "normal" end in
  match timestamp_field data with
  | None => time_of_day
  | Some ts =>
      match parse ts with
      | Some dt => if is_peak_hour (hour dt) then "peak" else time_of_day
      | None => time_of_day
      end
  end.

Definition digit_of (c : ascii) : option Z :=
  let n := nat_of_ascii c in
  if (Nat.leb 48 n && Nat.leb n 57)%bool then Some (Z.of_nat (n - 48)) else None.

(** Reads exactly [count] decimal digits. *)
Fixpoint read_digits (count : nat) (s : string) (acc : Z) : option (Z * string) :=
  match count with
  | O => Some (acc, s)
  | S k =>
      match s with
      | String c r =>
          match digit_of c with
          | Some d => read_digits k r (10 * acc + d)
          | None => None
          end
      | EmptyString => None
      end
  end.

Definition expect (c : ascii) (s : string) : option string :=
  match s with
  | String c' r => if Ascii.eqb c c' then Some r else None
  | EmptyString => None
  end.

Definition is_leap (y : Z) : bool :=
  ((y mod 4 =? 0) && negb (y mod 100 =? 0)) || (y mod 400 =? 0).

Definition days_in_month (y m : Z) : Z :=
  if m =? 2 then (if is_leap y then 29 else 28)
  else if (m =? 4) || (m =? 6) || (m =? 9) || (m =? 11) then 30
  else 31.

Definition checked (dt : datetime) : option datetime :=
  if (1 <=? year dt) && (1 <=? month dt) && (month dt <=? 12)
     && (1 <=? day dt) && (day dt <=? days_in_month (year dt) (month dt))
     && (hour dt <=? 23) && (minute dt <=? 59) && (second dt <=? 59)
  then Some dt else None.

(** [datetime.fromisoformat] on the forms [YYYY-MM-DD], and
    [YYYY-MM-DD] followed by one separator character and [HH], [HH:MM] or
    [HH:MM:SS]. The library function is not part of the repository; every
    other string (fractions of a second, UTC offsets, the further forms of
    later Python versions) counts as unparseable here. *)
Definition fromisoformat (s : string) : option datetime :=
  match read_digits 4 s 0 with
  | None => None
  | Some (y, s) =>
  match expect "-" s with
  | None => None
  | Some s =>
  match read_digits 2 s 0 with
  | None => None
  | Some (m, s) =>
  match expect "-" s with
  | None => None
  | Some s =>
  match read_digits 2 s 0 with
  | None => None
  | Some (d, s) =>
  match s with
  | EmptyString => checked {| year := y; month := m; day := d; hour := 0; minute := 0; second := 0 |}
  | String _ s =>
    match read_digits 2 s 0 with
    | None => None
    | Some (h, s) =>
    match s with
    | EmptyString => checked {| year := y; month := m; day := d; hour := h; minute := 0; second := 0 |}
    | _ =>
      match expect ":" s with
      | None => None
      | Some s =>
      match read_digits 2 s 0 with
      | None => None
      | Some (mi, s) =>
      match s with
      | EmptyString => checked {| year := y; month := m; day := d; hour := h; minute := mi; second := 0 |}
      | _ =>
        match expect ":" s with
        | None => None
        | Some s =>
        match read_digits 2 s 0 with
        | Some (se, EmptyString) =>
            checked {| year := y; month := m; day := d; hour := h; minute := mi; second := se |}
        | _ => None
        end end end end end end end end end end end end end.

(* ================================================================== *)
(** ** Notions used to state the properties *)

(** The score the matcher gives template [t] on [user_input]: the final
    [match_score] of the keyword loop. *)
Definition template_score (user_input : string) (t : template) : Z :=
  fst (scan_keywords (lower user_input) (keywords t) (0, [])).

(** The keywords the matcher reports for template [t] on [user_input]. *)
Definition template_hits (user_input : string) (t : template) : list string :=
  snd (scan_keywords (lower user_input) (keywords t) (0, [])).

(** The keywords of [t] that occur in [user_input], case-insensitively. *)
Definition occurring_keywords (user_input : string) (t : template) : list string :=
  filter (fun k => contains (lower k) (lower user_input)) (keywords t).

(** The entries of a list of matches that carry score [k], in order. *)
Definition with_score (k : Z) (l : list template_match) : list template_match :=
  filter (fun m => score m =? k) l.

(** A list of matches is in descending order of score. *)
Fixpoint descending (l : list template_match) : Prop :=
  match l with
  | [] => True
  | x :: r => (forall y, In y r -> score y <= score x) /\ descending r
  end.

(** The match that one template contributes to [template_matches], if
    any (one iteration of the outer loop). *)
Definition match_of (user_input_lower : string) (t : template) : list template_match :=
  let '(match_score, matched) := scan_keywords user_input_lower (keywords t) (0, []) in
  if 0 <? match_score
  then [{| tm_template := t; score := match_score; matched_keywords := matched |}]
  else [].

(** The road table flattened in enumeration order: roads in table order,
    and the bands of each road in their order. *)
Definition all_bands (roads : list (string * road_data))
    : list (string * string * list string) :=
  flat_map (fun '(road_name, rd) =>
              map (fun '(distance_range, estate_list) =>
                     (road_name, distance_range, estate_list)) (estates rd))
           roads.

(** A band lists an estate in bidirectional containment with the location. *)
Definition band_matches (location_lower : string)
    (x : string * string * list string) : bool :=
  existsb (estate_matches location_lower) (snd x).

(** Greedy first match: the first band, in enumeration order, that lists
    an estate matching the location. *)
Definition first_match (location_lower : string) (roads : list (string * road_data))
    : option (string * string) :=
  match find (band_matches location_lower) (all_bands roads) with
  | Some (road_name, distance_range, _) => Some (road_name, distance_range)
  | None => None
  end.

(** The road name as [calculate_boda_pricing] reports it. *)
Definition display_name (road_name : string) : string :=
  title (replace "_" " " road_name).

(** Band coverage as the specification words it: every estate listed in
    the road table resolves to the road and band it is declared under. *)
Definition band_coverage (pm : pricing_matrix) : Prop :=
  forall road_name rd distance_range estate_list estate time_of_day,
    In (road_name, rd) (road_network pm) ->
    In (distance_range, estate_list) (estates rd) ->
    In estate estate_list ->
    exists info,
      calculate_boda_pricing estate time_of_day pm = Ret info /\
      road info = display_name road_name /\
      distance_km info = distance_range.

(** The listed estates, with the road and band each is declared under. *)
Definition listed_estates (roads : list (string * road_data))
    : list (string * string * string) :=
  flat_map (fun '(road_name, distance_range, estate_list) =>
              map (fun estate => (road_name, distance_range, estate)) estate_list)
           (all_bands roads).

(** The listed estates whose first match is not their own road and band. *)
Definition resolved_elsewhere (roads : list (string * road_data))
    : list (string * string * string * option (string * string)) :=
  flat_map (fun '(road_name, distance_range, estate) =>
              match first_match (lower estate) roads with
              | Some (r, b) =>
                  if String.eqb r road_name && String.eqb b distance_range then []
                  else [(road_name, distance_range, estate, Some (r, b))]
              | None => [(road_name, distance_range, estate, None)]
              end)
           (listed_estates roads).

(** The traffic multipliers a road can yield: its table entries and the
    default [1.0] of [.get(time_of_day, 1.0)]. *)
Definition traffic_candidates (rd : road_data) : list float :=
  1.0%float :: map snd (traffic_multiplier rd).

Definition range_ordered (r : Z * Z) : bool := fst r <=? snd r.

(** A band resolves without an exception, under every traffic multiplier
    of its road, to an ordered range. *)
Definition band_prices_ok (roads : list (string * road_data))
    (x : string * string * list string) : bool :=
  let '(road_name, distance_range, _) := x in
  negb (String.eqb road_name "") &&
  match lookup road_name roads with
  | None => false
  | Some rd =>
      forallb (fun m =>
                 match adjusted_pricing (get (boda_pricing rd) distance_range (300, 500)) m with
                 | Ret r => range_ordered r
                 | Raise _ => false
                 end)
              (traffic_candidates rd)
  end.

(** The ['parts_range'] entry of a standard estimate. *)
Definition estimate_parts (e : estimate) : option (Z * Z) :=
  match e with
  | EstStandard _ parts _ _ _ => parts
  | _ => None
  end.

(** The ['labor'] entry of a standard estimate. *)
Definition estimate_labor (e : estimate) : option labor_cost :=
  match e with
  | EstStandard l _ _ _ _ => Some l
  | _ => None
  end.

(** The ['total_range'] entry of an estimate that has one. *)
Definition estimate_total (e : estimate) : option (Z * Z) :=
  match e with
  | EstMobileCallout _ _ total _ => Some total
  | EstPickAndDrop _ _ _ total _ => Some total
  | EstPickAndDropGeneric _ _ _ total => Some total
  | EstStandard _ _ total _ _ => Some total
  | _ => None
  end.

(** Every price range an estimate carries: labor, parts, boda legs,
    towing range and total. *)
Definition estimate_ranges (e : estimate) : list (Z * Z) :=
  match e with
  | EstDiagnosisRequired _ _ _ => []
  | EstMobileCallout _ boda total _ => [boda; total]
  | EstMobileCalloutGeneric _ boda => [boda]
  | EstPickAndDrop pickup return_leg _ total _ => [pickup; return_leg; total]
  | EstPickAndDropGeneric pickup return_leg _ total => [pickup; return_leg; total]
  | EstTowing r => [r]
  | EstStandard l parts total _ _ =>
      (match l with LaborRange lo hi => [(lo, hi)] | LaborSingle _ => [] end ++
       match parts with Some p => [p] | None => [] end ++
       [total])%list
  end.

(** The multipliers the zone loop can yield: the default and the table's. *)
Definition zone_candidates (pm : pricing_matrix) : list float :=
  1.0%float :: map (fun z => multiplier (snd z)) (zones pm).

(** The multipliers the car-category loop can yield. *)
Definition car_candidates (pm : pricing_matrix) : list float :=
  1.0%float :: map (fun c => cat_multiplier (snd c)) (car_categories pm).

(** A standard computation returns, and with ordered ranges. *)
Definition standard_ok (s : service) (zone_mult car_mult : float) : bool :=
  match standard_estimate s zone_mult car_mult with
  | Ret e => forallb range_ordered (estimate_ranges e)
  | Raise _ => false
  end.

(** The timestamp rule as the specification words it: with a parseable
    timestamp the time of day is peak exactly in the two windows and
    normal otherwise. *)
Definition timestamp_decides (parse : string -> option datetime) : Prop :=
  forall data ts dt,
    timestamp_field data = Some ts -> parse ts = Some dt ->
    effective_time_of_day parse data =
    if is_peak_hour (hour dt) then "peak" else "normal".

(** [data.get('time_of_day', 'normal')]. *)
Definition supplied_time_of_day (data : request_data) : string :=
  match time_of_day_field data with Some t => t | None => "normal" end.

(** The entries of ['services'] that reach the standard computation:
    non-empty, not marked [DIAGNOSIS_REQUIRED], and not one of the three
    keys handled specially. *)
Definition is_standard_entry (x : string * service) : bool :=
  let '(service_key, s) := x in
  negb (service_is_empty s) &&
  match labor s with
  | Some (Text "DIAGNOSIS_REQUIRED") => false
  | _ => true
  end &&
  negb (String.eqb service_key "mobile_callout") &&
  negb (String.eqb service_key "pick_and_drop") &&
  negb (String.eqb service_key "towing").

Definition standard_entries (pm : pricing_matrix) : list (string * service) :=
  filter is_standard_entry (services pm).

(* ================================================================== *)
(** ** Binary64 rounding, on integers and reals

    The notions used to reason about [float] multiplication and [int]
    through their specification [SFmul] and [Prim2SF]. *)

(** The state of a right shift of [M] by [k] bits: quotient, round bit and
    sticky bit. *)
Definition shr_inv (M k : Z) (st : shr_record) : Prop :=
  0 <= shr_m st /\
  exists t, 0 <= t < 2 ^ k /\ (t = 0 <-> shr_s st = false) /\
    2 * M = shr_m st * 2 ^ (k + 1) + (if shr_r st then 2 ^ k else 0) + t.

(** [R] is [M / 2^k] rounded to nearest, ties to even. *)
Definition nearest_even (M k R : Z) : Prop :=
  - 2 ^ k <= 2 * R * 2 ^ k - 2 * M <= 2 ^ k /\
  (Z.abs (2 * R * 2 ^ k - 2 * M) = 2 ^ k -> Z.even R = true).

(** The binary64 value that rounding produces from the rounded integer
    significand [R] at exponent [e]: zero, a float (renormalised when [R]
    carried into a 54th bit), or infinity on overflow. *)
Definition round_result (R e : Z) : spec_float :=
  if R =? 0 then S754_zero false
  else if R =? 2 ^ 53 then
    if e + 1 <=? 971 then S754_finite false (Z.to_pos (2 ^ 52)) (e + 1)
    else S754_infinity false
  else if e <=? 971 then S754_finite false (Z.to_pos R) e
  else S754_infinity false.

(** The target exponent of a positive [m * 2^e]. *)
Definition target_exp (m : positive) (e : Z) : Z :=
  fexp prec emax (Zpos (digits2_pos m) + e).

(** [2^e] as a real number, for any integer [e]. *)
Definition bpow (e : Z) : R := powerRZ 2 e.

(** The real number [m * 2^e]. *)
Definition F2R (m e : Z) : R := (IZR m * bpow e)%R.

(** The real value of a finite float (and [0] for the others). *)
Definition B2R (x : spec_float) : R :=
  match x with
  | S754_finite s m e => F2R (cond_Zopp s (Zpos m)) e
  | _ => 0%R
  end.

(** Zero or a positive finite float. *)
Definition nonneg_finite (x : spec_float) : Prop :=
  match x with
  | S754_zero _ => True
  | S754_finite false _ _ => True
  | _ => False
  end.

(** Zero or a finite float of either sign. *)
Definition is_finite_sf (x : spec_float) : Prop :=
  match x with
  | S754_zero _ | S754_finite _ _ _ => True
  | _ => False
  end.

(** Zero, a positive finite float or plus infinity. *)
Definition nonneg_sf (x : spec_float) : Prop :=
  match x with
  | S754_zero _ | S754_finite false _ _ | S754_infinity false => True
  | _ => False
  end.

(** [x <= y] between nonnegative finite floats, by their real values. *)
Definition fle (x y : float) : Prop :=
  nonneg_finite (Prim2SF x) /\ nonneg_finite (Prim2SF y) /\
  (B2R (Prim2SF x) <= B2R (Prim2SF y))%R.

(* ================================================================== *)
(** ** Further notions: matcher and resolver *)

(** Some keyword of some template occurs in the text, case-insensitively. *)
Definition some_keyword_occurs (text : string) (ts : list template) : Prop :=
  exists t k, In t ts /\ In k (keywords t) /\ contains (lower k) (lower text) = true.

(** The text made of a template's keywords, separated by spaces. *)
Definition keywords_text (t : template) : string :=
  String.concat " " (keywords t).

(** A band of the catalog prices within the advertised bounds: at normal
    time within [150, 800], at peak no lower than at normal time and at
    most 1280. *)
Definition band_bounds_ok (roads : list (string * road_data))
    (x : string * string * list string) : bool :=
  let '(road_name, distance_range, _) := x in
  match lookup road_name roads with
  | None => false
  | Some rd =>
      let base := get (boda_pricing rd) distance_range (300, 500) in
      match adjusted_pricing base (get (traffic_multiplier rd) "normal" 1.0%float),
            adjusted_pricing base (get (traffic_multiplier rd) "peak" 1.0%float) with
      | Ret (nlo, nhi), Ret (plo, phi) =>
          (150 <=? nlo) && (nlo <=? nhi) && (nhi <=? 800) &&
          (nlo <=? plo) && (nhi <=? phi) && (phi <=? 1280)
      | _, _ => false
      end
  end.

(** The traffic table of a road has exactly the keys ['peak'] and
    ['normal'], the latter with multiplier [1.0]. *)
Definition traffic_table_ok (rd : road_data) : bool :=
  match traffic_multiplier rd with
  | [(k1, _); (k2, m2)] =>
      String.eqb k1 "peak" && String.eqb k2 "normal" && PrimFloat.Leibniz.eqb m2 1.0%float
  | _ => false
  end.

(* ================================================================== *)
(** ** Further notions: pricing engine *)

(** The total of an estimate is the sum of the components it shows, an
    absent parts range counting for nothing. *)
Definition components_sum (e : estimate) : bool :=
  match e with
  | EstMobileCallout fee boda total _ =>
      (fst total =? fee + fst boda) && (snd total =? fee + snd boda)
  | EstPickAndDrop pickup return_leg fee total _
  | EstPickAndDropGeneric pickup return_leg fee total =>
      (fst total =? fst pickup + fst return_leg + fee) &&
      (snd total =? snd pickup + snd return_leg + fee)
  | EstStandard labor_est parts_est total _ _ =>
      let '(labor_min, labor_max) :=
        match labor_est with
        | LaborRange lo hi => (lo, hi)
        | LaborSingle v => (v, v)
        end in
      let '(parts_min, parts_max) :=
        match parts_est with Some p => p | None => (0, 0) end in
      (fst total =? labor_min + parts_min) && (snd total =? labor_max + parts_max)
  | _ => true
  end.

(** A standard computation returns an estimate whose total is the sum of
    its components. *)
Definition standard_sums (s : service) (zone_mult car_mult : float) : bool :=
  match standard_estimate s zone_mult car_mult with
  | Ret e => components_sum e
  | Raise _ => false
  end.

(** The zone loop finds, for each area of each zone, that zone's
    multiplier. *)
Definition zone_areas_resolve (pm : pricing_matrix) : bool :=
  forallb (fun x =>
    forallb (fun a =>
      PrimFloat.Leibniz.eqb (find_zone_mult a (zones pm) 1.0%float) (multiplier (snd x)))
      (map lower (areas (snd x))))
    (zones pm).

(** The car loop finds, for each make of each category, that category's
    multiplier. *)
Definition category_makes_resolve (pm : pricing_matrix) : bool :=
  forallb (fun x =>
    forallb (fun a =>
      PrimFloat.Leibniz.eqb (find_car_mult a (car_categories pm) 1.0%float)
                            (cat_multiplier (snd x)))
      (map lower (makes (snd x))))
    (car_categories pm).

(** The base prices of a service all lie in [[0, 2^53)]. *)
Definition base_prices_small (s : service) : bool :=
  match labor s, parts_range s with
  | Some (Range lo hi), Some (Range plo phi) =>
      forallb (fun n => (0 <=? n) && (n <? 2 ^ 53)) [lo; hi; plo; phi]
  | _, _ => false
  end.

(* ================================================================== *)
(** ** [load_business_model] *)

(** One entry of ['services'] of the business model. *)
Record service_info : Type := {
  name : string;
  description : string;
  best_for : list string;
  response_time : string;
  commission : string
}.

Record business_model : Type := {
  bm_services : list (string * service_info)
}.

Definition load_business_model : business_model :=
  {| bm_services :=
       [ ("mobile_mechanic",
          {| name := "Mobile Mechanic";
             description := "Mechanic comes to your location for on-site repairs";
             best_for := ["emergencies"; "minor_repairs"; "diagnostics"; "convenience"];
             response_time := "30-60 minutes";
             commission := "18%" |});
         ("pick_and_drop",
          {| name := "Pick & Drop";
             description := "We collect your car, repair at garage, return when ready";
             best_for := ["major_repairs"; "busy_schedules"; "workshop_equipment_needed"];
             response_time := "Same day pickup";
             commission := "15%" |});
         ("car_specific",
          {| name := "Car-Specific Specialist";
             description := "Brand specialists (BMW, Toyota, Mercedes, etc.)";
             best_for := ["complex_repairs"; "premium_cars"; "specialized_diagnostics"];
             response_time := "2-4 hours";
             commission := "20%" |}) ] |}.

(* ================================================================== *)
(** ** [diagnose] *)

(** The request body: a JSON object whose fields, where present, are
    strings. A field the object lacks is [None]; ['time_of_day'] and
    ['timestamp'] are the [timing] part. *)
Record diagnose_request : Type := {
  problem_description_field : option string;
  car_make_field : option string;
  car_model_field : option string;
  year_field : option string;
  mileage_field : option string;
  location_field : option string;
  timing : request_data
}.

(** The two texts of ['context']['year']. *)
Inductive year_note : Type :=
| OlderCar (car_age : Z)
| MiddleAgedCar (car_age : Z).

(** The three texts of ['context']['mileage']. *)
Inductive mileage_note : Type :=
| HighWear (mileage_int : Z)
| HighMileage (mileage_int : Z)
| MajorServicesDue (mileage_int : Z).

(** The dictionary of a successful diagnosis, one field per entry; the
    free texts of the template (['probable_causes'], ['kenya_context'],
    the ['diy'] steps and tools, ['warning']), the constant ['disclaimer']
    and ['source'], ['booking_url'] and the clock reading ['timestamp'] are
    left out. *)
Record diagnosis_body : Type := {
  details_make : string;
  details_model : string;
  details_year : string;
  details_mileage : string;
  age_years : option Z;
  details_location : string;
  issue : string;
  diagnosis_confidence : string;
  diagnosis_urgent : bool;
  diagnosis_keywords : list string;
  recommended : string;
  service_name : string;
  service_description : string;
  service_response_time : string;
  price_estimate : option estimate;
  year_context : option year_note;
  mileage_context : option mileage_note;
  possible : bool;
  difficulty : string
}.

(** What the handler's [except Exception] catches: an exception of the
    computation, or the read of the local name [datetime] before the
    import inside the function has bound it. *)
Inductive failure : Type :=
| Raised (e : exn)
| UnboundLocalError.

(** The answers of [diagnose]: status 400, the two answers of status 200,
    and status 500. *)
Inductive response : Type :=
| BadRequest (error : string)
| DataMissingResponse (message recommendation confidence_label booking_url : string)
| SuccessResponse (body : diagnosis_body)
| ServerError (e : failure).

(** [data.get(k, default)] on a request field. *)
Definition field_or (default : string) (o : option string) : string :=
  match o with
  | Some s => s
  | None => default
  end.

(** The block "Add year/mileage-specific context" for the year.
    [to_int] stands for the builtin [int] on strings and [int_to_str] for
    the conversion of an [int] to decimal text, which the f-strings and
    the JSON encoder perform and which raises beyond the interpreter's
    digit limit. *)
Definition year_context_of (to_int : string -> result Z)
    (int_to_str : Z -> result string) (year : string) : result (option year_note) :=
  if truthy (Some year) then
    year_int <- to_int year ;;
    let car_age := 2025 - year_int in
    if 10 <? car_age then
      _ <- int_to_str car_age ;; Ret (Some (OlderCar car_age))
    else if 5 <? car_age then
      _ <- int_to_str car_age ;; Ret (Some (MiddleAgedCar car_age))
    else Ret None
  else Ret None.

(** The same block for the mileage. *)
Definition mileage_context_of (to_int : string -> result Z)
    (int_to_str : Z -> result string) (mileage : string)
    : result (option mileage_note) :=
  if truthy (Some mileage) then
    mileage_int <- to_int mileage ;;
    if 200000 <? mileage_int then
      _ <- int_to_str mileage_int ;; Ret (Some (HighWear mileage_int))
    else if 150000 <? mileage_int then
      _ <- int_to_str mileage_int ;; Ret (Some (HighMileage mileage_int))
    else if 100000 <? mileage_int then
      _ <- int_to_str mileage_int ;; Ret (Some (MajorServicesDue mileage_int))
    else Ret None
  else Ret None.

(** ['age_years']: [2025 - int(year) if year else None]. *)
Definition age_years_of (to_int : string -> result Z) (year : string)
    : result (option Z) :=
  if truthy (Some year) then
    year_int <- to_int year ;; Ret (Some (2025 - year_int))
  else Ret None.

(** The body of the handler's [try] from "Extract car details" to the
    construction of the response, up to its last entry. The template keys
    read by subscript that the [template] record leaves out
    (['probable_causes']) are present in each of the catalog's templates,
    so these reads do not raise. *)
Definition build_response (to_int : string -> result Z)
    (int_to_str : Z -> result string)
    (parse : string -> option datetime) (data : diagnose_request)
    (t : template) (matched : list string) : result diagnosis_body :=
  let kb := load_skill_files in
  let car_make := field_or "Toyota" (car_make_field data) in
  let car_model := field_or "" (car_model_field data) in
  let year := field_or "" (year_field data) in
  let mileage := field_or "" (mileage_field data) in
  let time_of_day := effective_time_of_day parse (timing data) in
  let location := field_or "Nairobi" (location_field data) in
  year_context <- year_context_of to_int int_to_str year ;;
  mileage_context <- mileage_context_of to_int int_to_str mileage ;;
  price <- calculate_price_estimate (price_service t) location car_make
             (kb_pricing_matrix kb) (Some location) time_of_day ;;
  age <- age_years_of to_int year ;;
  info <- item (bm_services load_business_model) (recommended_service t) ;;
  Ret {| details_make := car_make;
         details_model := car_model;
         details_year := year;
         details_mileage := mileage;
         age_years := age;
         details_location := location;
         issue := diagnosis t;
         diagnosis_confidence := confidence t;
         diagnosis_urgent := urgent t;
         diagnosis_keywords := matched;
         recommended := recommended_service t;
         service_name := name info;
         service_description := description info;
         service_response_time := response_time info;
         price_estimate := price;
         year_context := year_context;
         mileage_context := mileage_context;
         possible := diy_possible t;
         difficulty := if diy_possible t then "EASY" else "PROFESSIONAL_ONLY" |}.

(** [jsonify(response)] on a diagnosis. The encoder writes each integer in
    decimal. Those taken from the catalog (prices, minutes) have at most
    six digits, fewer than any digit limit the interpreter accepts (640 at
    the least), and are left out; ['age_years'] comes from the request. *)
Definition jsonify (int_to_str : Z -> result string) (body : diagnosis_body)
    : result diagnosis_body :=
  match age_years body with
  | Some age => _ <- int_to_str age ;; Ret body
  | None => Ret body
  end.

(** The handler. The knowledge base is loaded afresh at each call; its
    ['business_model'] entry is [load_business_model]. The name
    [datetime] is local to the handler, because of the import under
    [if 'timestamp' in data]: the last entry of the response,
    [datetime.now()], reads it, bound only when the request has a
    ['timestamp'] key. *)
Definition diagnose (to_int : string -> result Z)
    (int_to_str : Z -> result string)
    (parse : string -> option datetime) (data : diagnose_request) : response :=
  if negb (truthy (problem_description_field data))
  then BadRequest "problem_description is required"
  else
    let kb := load_skill_files in
    match query_knowledge_base (field_or "" (problem_description_field data)) kb with
    | DATA_MISSING message recommendation _ =>
        DataMissingResponse message recommendation "N/A" "/book-now?service=diagnostic"
    | SUCCESS t _ matched =>
        match build_response to_int int_to_str parse data t matched with
        | Raise e => ServerError (Raised e)
        | Ret body =>
            match timestamp_field (timing data) with
            | None => ServerError UnboundLocalError
            | Some _ =>
                match jsonify int_to_str body with
                | Raise e => ServerError (Raised e)
                | Ret answer => SuccessResponse answer
                end
            end
        end
    end.

(** [int] on an optional sign followed by ASCII decimal digits, 4300 at
    most. (The builtin also accepts surrounding white space, underscores
    between digits and non-ASCII digits; these count as malformed here,
    and the digit limit is the interpreter's default.) *)
Fixpoint decimal_value (s : string) (acc : Z) : option Z :=
  match s with
  | EmptyString => Some acc
  | String c r =>
      match digit_of c with
      | Some d => decimal_value r (10 * acc + d)
      | None => None
      end
  end.

Definition unsigned_decimal (s : string) : result Z :=
  match s with
  | EmptyString => Raise ValueError
  | _ =>
      if (4300 <? String.length s)%nat then Raise ValueError
      else
        match decimal_value s 0 with
        | Some n => Ret n
        | None => Raise ValueError
        end
  end.

Definition int_of_decimal (s : string) : result Z :=
  match s with
  | String "-" r => n <- unsigned_decimal r ;; Ret (- n)
  | String "+" r => unsigned_decimal r
  | _ => unsigned_decimal s
  end.

(** [str] on an [int] under the digit limit [max_str_digits]:
    [ValueError] for more digits than that. *)
Definition str_of_int_within (max_str_digits : Z) (n : Z) : result string :=
  if 10 ^ max_str_digits <=? Z.abs n then Raise ValueError
  else Ret (NilZero.string_of_int (Z.to_int n)).

(** The default limit is 4300 digits. *)
Definition str_of_int : Z -> result string := str_of_int_within 4300.

(** The year block returns: the year is absent or empty, or [int] accepts
    it and a car age above 5, which the context sentence shows, converts
    to text. *)
Definition year_returns (to_int : string -> result Z)
    (int_to_str : Z -> result string) (o : option string) : Prop :=
  truthy (Some (field_or "" o)) = true ->
  exists y, to_int (field_or "" o) = Ret y /\
            (5 < 2025 - y -> exists s, int_to_str (2025 - y) = Ret s).

(** The year block raises [e]: [int] rejects a non-empty year, or the car
    age is above 5 and its conversion to text raises. *)
Definition year_raises (to_int : string -> result Z)
    (int_to_str : Z -> result string) (o : option string) (e : exn) : Prop :=
  truthy (Some (field_or "" o)) = true /\
  (to_int (field_or "" o) = Raise e \/
   exists y, to_int (field_or "" o) = Ret y /\ 5 < 2025 - y /\
             int_to_str (2025 - y) = Raise e).

(** The mileage block returns: the mileage is absent or empty, or [int]
    accepts it and a value above 100000, which the context sentence shows,
    converts to text. *)
Definition mileage_returns (to_int : string -> result Z)
    (int_to_str : Z -> result string) (o : option string) : Prop :=
  truthy (Some (field_or "" o)) = true ->
  exists m, to_int (field_or "" o) = Ret m /\
            (100000 < m -> exists s, int_to_str m = Ret s).

(** The mileage block raises [e]. *)
Definition mileage_raises (to_int : string -> result Z)
    (int_to_str : Z -> result string) (o : option string) (e : exn) : Prop :=
  truthy (Some (field_or "" o)) = true /\
  (to_int (field_or "" o) = Raise e \/
   exists m, to_int (field_or "" o) = Ret m /\ 100000 < m /\
             int_to_str m = Raise e).

(** The JSON encoder writes ['age_years']: the year is absent or empty, or
    the age [2025 - int(year)] converts to text. *)
Definition age_written (to_int : string -> result Z)
    (int_to_str : Z -> result string) (o : option string) : Prop :=
  truthy (Some (field_or "" o)) = true ->
  exists y s, to_int (field_or "" o) = Ret y /\ int_to_str (2025 - y) = Ret s.

(** The JSON encoder raises [e] on ['age_years']. *)
Definition age_raises (to_int : string -> result Z)
    (int_to_str : Z -> result string) (o : option string) (e : exn) : Prop :=
  truthy (Some (field_or "" o)) = true /\
  exists y, to_int (field_or "" o) = Ret y /\ int_to_str (2025 - y) = Raise e.

(** The estimates that need neither a location nor a time of day. *)
Definition is_standard_or_diagnosis (e : estimate) : bool :=
  match e with
  | EstStandard _ _ _ _ _ | EstDiagnosisRequired _ _ _ => true
  | _ => false
  end.
(* ================================================================== *)
(** * Properties of the template matcher *)

Section Matcher.

Variable user_input_lower : string.

Lemma scan_keywords_acc (kws : list string) (n : Z) (acc : list string) :
  scan_keywords user_input_lower kws (n, acc) =
  (n + fst (scan_keywords user_input_lower kws (0, [])),
   (acc ++ snd (scan_keywords user_input_lower kws (0, [])))%list).
Proof.
  revert n acc.
  induction kws as [|k kws IH]; intros n acc; simpl.
  - now rewrite Z.add_0_r, app_nil_r.
  - destruct (contains (lower k) user_input_lower).
    + rewrite (IH (n + 1) (acc ++ [k])%list), (IH 1 [k]).
      cbn [fst snd]. f_equal; [lia | now rewrite <- app_assoc].
    + apply IH.
Qed.

Lemma scan_keywords_filter (kws : list string) :
  scan_keywords user_input_lower kws (0, []) =
  (Z.of_nat (List.length (filter (fun k => contains (lower k) user_input_lower) kws)),
   filter (fun k => contains (lower k) user_input_lower) kws).
Proof.
  induction kws as [|k kws IH]; simpl; [reflexivity|].
  destruct (contains (lower k) user_input_lower).
  - rewrite scan_keywords_acc, IH. cbn [fst snd List.length app]. f_equal. lia.
  - exact IH.
Qed.

Lemma scan_keywords_none (kws : list string) (st : Z * list string) :
  (forall k, In k kws -> contains (lower k) user_input_lower = false) ->
  scan_keywords user_input_lower kws st = st.
Proof.
  induction kws as [|k kws IH]; intros H; simpl; [reflexivity|].
  destruct st as [n acc].
  rewrite (H k (or_introl eq_refl)).
  apply IH. intros k' Hk'. apply H. now right.
Qed.

Lemma scan_templates_flat_map (ts : list template) (acc : list template_match) :
  scan_templates user_input_lower ts acc = (acc ++ flat_map (match_of user_input_lower) ts)%list.
Proof.
  revert acc.
  induction ts as [|t ts IH]; intros acc; simpl.
  - now rewrite app_nil_r.
  - unfold match_of at 1.
    destruct (scan_keywords user_input_lower (keywords t) (0, [])) as [n matched].
    destruct (0 <? n); rewrite IH; [now rewrite <- app_assoc | reflexivity].
Qed.

End Matcher.

Lemma insert_desc_In (x y : template_match) (l : list template_match) :
  In y (insert_desc x l) <-> y = x \/ In y l.
Proof.
  induction l as [|z l IH]; simpl.
  - intuition congruence.
  - destruct (score z <=? score x); simpl; [intuition congruence|].
    rewrite IH. intuition congruence.
Qed.

Lemma sort_desc_In (y : template_match) (l : list template_match) :
  In y (sort_desc l) <-> In y l.
Proof.
  induction l as [|x l IH]; simpl; [tauto|].
  rewrite insert_desc_In, IH. intuition congruence.
Qed.

Lemma insert_desc_descending (x : template_match) (l : list template_match) :
  descending l -> descending (insert_desc x l).
Proof.
  induction l as [|z l IH]; simpl; intros H.
  - split; [intros y []|exact I].
  - destruct H as [Hz Hl].
    destruct (score z <=? score x) eqn:E.
    + apply Z.leb_le in E. simpl. repeat split; trivial.
      intros y [->|Hy]; [exact E|]. specialize (Hz y Hy). lia.
    + apply Z.leb_gt in E. simpl. split; [|now apply IH].
      intros y Hy. apply insert_desc_In in Hy as [->|Hy]; [lia|now apply Hz].
Qed.

Lemma sort_desc_descending (l : list template_match) : descending (sort_desc l).
Proof.
  induction l as [|x l IH]; simpl; [exact I|now apply insert_desc_descending].
Qed.

Lemma insert_desc_with_score (k : Z) (x : template_match) (l : list template_match) :
  descending l ->
  with_score k (insert_desc x l) = with_score k (x :: l).
Proof.
  unfold with_score.
  induction l as [|z l IH]; intros H; [reflexivity|].
  destruct H as [Hz Hl]. simpl insert_desc.
  destruct (score z <=? score x) eqn:E; [reflexivity|].
  apply Z.leb_gt in E.
  change (filter ?f (z :: ?r)) with (if f z then z :: filter f r else filter f r).
  rewrite (IH Hl). simpl.
  destruct (score x =? k) eqn:Ex, (score z =? k) eqn:Ez; try reflexivity.
  apply Z.eqb_eq in Ex, Ez. lia.
Qed.

(** Stability: entries of equal score leave the sort in the order they
    entered it. *)
Lemma sort_desc_stable (k : Z) (l : list template_match) :
  with_score k (sort_desc l) = with_score k l.
Proof.
  induction l as [|x l IH]; [reflexivity|].
  simpl sort_desc.
  rewrite insert_desc_with_score by apply sort_desc_descending.
  unfold with_score in *. simpl. now rewrite IH.
Qed.

Lemma insert_desc_head (x : template_match) (l : list template_match) :
  (forall y, In y l -> score y <= score x) ->
  insert_desc x l = x :: l.
Proof.
  destruct l as [|z l]; intros H; [reflexivity|].
  simpl. destruct (score z <=? score x) eqn:E; [reflexivity|].
  apply Z.leb_gt in E. specialize (H z (or_introl eq_refl)). lia.
Qed.

(** The sort brings to the front the first entry of maximal score. *)
Lemma sort_desc_first_max (a b : list template_match) (x : template_match) :
  (forall y, In y a -> score y < score x) ->
  (forall y, In y b -> score y <= score x) ->
  exists rest, sort_desc (a ++ x :: b) = x :: rest.
Proof.
  intros Ha Hb.
  induction a as [|z a IH]; simpl.
  - exists (sort_desc b). apply insert_desc_head.
    intros y Hy. apply Hb. now apply sort_desc_In.
  - destruct IH as [rest IH]; [intros y Hy; apply Ha; now right|].
    rewrite IH. simpl.
    specialize (Ha z (or_introl eq_refl)).
    destruct (score x <=? score z) eqn:E; [apply Z.leb_le in E; lia|].
    eexists. reflexivity.
Qed.

Lemma match_of_scores (text : string) (ts : list template) (m : template_match) :
  In m (flat_map (match_of (lower text)) ts) ->
  exists t, In t ts /\ score m = template_score text t.
Proof.
  intros H. apply in_flat_map in H as (t & Ht & Hm).
  exists t. split; [exact Ht|].
  unfold match_of, template_score in *.
  destruct (scan_keywords (lower text) (keywords t) (0, [])) as [n matched].
  destruct (0 <? n); [|destruct Hm].
  destruct Hm as [<-|[]]. reflexivity.
Qed.

(** The score is the number of keywords that occur in the text, and is
    not capped. *)
Lemma template_score_count (text : string) (t : template) :
  template_score text t = Z.of_nat (List.length (occurring_keywords text t)) /\
  template_hits text t = occurring_keywords text t.
Proof.
  unfold template_score, template_hits, occurring_keywords.
  now rewrite scan_keywords_filter.
Qed.

(** C1. When several templates reach the maximal score, the matcher
    returns the one that comes first in catalog order: if [t] has a positive
    score, every template before it scores strictly less and every template
    after it scores no more, then [t] is the result. The selection rests on
    the sort being stable: entries of equal score keep their catalog
    order. *)
Theorem query_tie_break_first_defined_wins
    (kb : knowledge_base) (text : string)
    (before : list template) (t : template) (after : list template) :
  templates kb = (before ++ t :: after)%list ->
  0 < template_score text t ->
  (forall u, In u before -> template_score text u < template_score text t) ->
  (forall u, In u after -> template_score text u <= template_score text t) ->
  query_knowledge_base text kb = SUCCESS t (confidence t) (template_hits text t)
  /\ (forall k l, with_score k (sort_desc l) = with_score k l).
Proof.
  intros Hkb Hpos Hbefore Hafter.
  split; [|intros k l; apply sort_desc_stable].
  unfold query_knowledge_base.
  rewrite Hkb, scan_templates_flat_map, flat_map_app. simpl.
  assert (Ht : match_of (lower text) t =
               [{| tm_template := t; score := template_score text t;
                   matched_keywords := template_hits text t |}]).
  { unfold match_of, template_score, template_hits in *.
    destruct (scan_keywords (lower text) (keywords t) (0, [])) as [n matched].
    simpl in *. apply Z.ltb_lt in Hpos. now rewrite Hpos. }
  rewrite Ht. simpl.
  destruct (sort_desc_first_max
              (flat_map (match_of (lower text)) before)
              (flat_map (match_of (lower text)) after)
              {| tm_template := t; score := template_score text t;
                 matched_keywords := template_hits text t |}) as [rest Hs].
  - intros y Hy. apply match_of_scores in Hy as (u & Hu & ->). simpl. now apply Hbefore.
  - intros y Hy. apply match_of_scores in Hy as (u & Hu & ->). simpl. now apply Hafter.
  - rewrite Hs. reflexivity.
Qed.

Lemma forallb_In {A : Type} (f : A -> bool) (l : list A) :
  forallb f l = true -> forall x, In x l -> f x = true.
Proof. intros H x Hx. now apply (proj1 (forallb_forall f l) H). Qed.

(** Witness for C1: "check engine light" is a keyword of four templates
    ([engine_misfire], [check_engine_light], [oxygen_sensor],
    [catalytic_converter]), each scoring 1; the first one is returned. *)
Lemma query_tie_break_witness :
  query_knowledge_base "Check engine light is ON" load_skill_files =
    SUCCESS tpl_engine_misfire "MEDIUM" ["check engine light"]
  /\ template_score "Check engine light is ON" tpl_check_engine_light =
     template_score "Check engine light is ON" tpl_engine_misfire.
Proof.
  split; [|reflexivity].
  refine (proj1 (query_tie_break_first_defined_wins load_skill_files
            "Check engine light is ON"
            (firstn 10 load_diagnostic_templates) tpl_engine_misfire
            (skipn 11 load_diagnostic_templates) eq_refl eq_refl _ _)).
  - intros u Hu. apply Z.ltb_lt. revert u Hu.
    apply forallb_In. vm_compute. reflexivity.
  - intros u Hu. apply Z.leb_le. revert u Hu.
    apply forallb_In. vm_compute. reflexivity.
Defined.

(** C5. A text in which no keyword of any template occurs
    (case-insensitively) gets the DATA_MISSING outcome, with its message
    and the recommendation to book a diagnostic scan, and no template. *)
Theorem query_no_keyword_data_missing (kb : knowledge_base) (text : string) :
  (forall t k, In t (templates kb) -> In k (keywords t) ->
               contains (lower k) (lower text) = false) ->
  query_knowledge_base text kb =
    DATA_MISSING
      "I don't have enough information to diagnose this specific issue."
      "Book a diagnostic scan with our mobile mechanic for proper assessment."
      "N/A".
Proof.
  intros H. unfold query_knowledge_base.
  rewrite scan_templates_flat_map. simpl.
  replace (flat_map (match_of (lower text)) (templates kb)) with (@nil template_match);
    [reflexivity|].
  symmetry. induction (templates kb) as [|t ts IH]; [reflexivity|].
  simpl. rewrite IH by (intros t' k Ht'; apply H; now right).
  unfold match_of.
  rewrite scan_keywords_none by (intros k; apply H; now left).
  reflexivity.
Qed.

(** Witness for C5 on the catalog. *)
Lemma query_no_keyword_witness :
  query_knowledge_base "The paint is peeling off the bonnet" load_skill_files =
    DATA_MISSING
      "I don't have enough information to diagnose this specific issue."
      "Book a diagnostic scan with our mobile mechanic for proper assessment."
      "N/A".
Proof.
  apply query_no_keyword_data_missing.
  intros t k Ht Hk.
  apply negb_true_iff.
  revert k Hk. apply forallb_In. revert t Ht. apply forallb_In.
  vm_compute. reflexivity.
Defined.

(* ================================================================== *)
(** * Properties of the road resolver *)

Lemma prefix_refl (s : string) : String.prefix s s = true.
Proof.
  induction s as [|c s IH]; simpl; [reflexivity|].
  destruct (ascii_dec c c) as [_|n]; [exact IH|now elim n].
Qed.

Lemma contains_unfold (sub s : string) :
  contains sub s =
  if String.prefix sub s then true
  else match s with
       | EmptyString => false
       | String _ r => contains sub r
       end.
Proof. destruct s; reflexivity. Qed.

Lemma contains_refl (s : string) : contains s s = true.
Proof. now rewrite contains_unfold, prefix_refl. Qed.

Lemma contains_empty (s : string) : contains "" s = true.
Proof. destruct s; reflexivity. Qed.

Lemma estate_matches_self (estate : string) :
  estate_matches (lower estate) estate = true.
Proof. unfold estate_matches. now rewrite contains_refl. Qed.

Lemma lookup_In {V : Type} (k : string) (d : list (string * V)) (v : V) :
  lookup k d = Some v -> In (k, v) d.
Proof.
  induction d as [|[k' v'] d IH]; simpl; [discriminate|].
  destruct (String.eqb k k') eqn:E.
  - apply String.eqb_eq in E. intros [= ->]. left. now subst.
  - intros H. right. now apply IH.
Qed.

Lemma get_In {V : Type} (d : list (string * V)) (k : string) (default : V) :
  In (get d k default) (default :: map snd d).
Proof.
  unfold get. destruct (lookup k d) as [v|] eqn:E; [|now left].
  right. apply lookup_In in E. now apply (in_map snd) in E.
Qed.

Section FirstMatch.

Variable location_lower : string.

Lemma find_app {A : Type} (f : A -> bool) (a b : list A) :
  find f (a ++ b) = match find f a with Some x => Some x | None => find f b end.
Proof.
  induction a as [|x a IH]; simpl; [reflexivity|]. now destruct (f x).
Qed.

Lemma search_bands_find (road_name : string) (bands : list (string * list string))
    (st : option string * option string) :
  search_bands location_lower road_name bands st =
  match find (band_matches location_lower)
             (map (fun '(distance_range, estate_list) =>
                     (road_name, distance_range, estate_list)) bands) with
  | Some (r, b, _) => (Some r, Some b)
  | None => st
  end.
Proof.
  induction bands as [|[b es] bands IH]; simpl; [reflexivity|].
  unfold band_matches at 1. simpl.
  destruct (existsb (estate_matches location_lower) es); [reflexivity|exact IH].
Qed.

Lemma find_band_road (road_name : string) (bands : list (string * list string))
    (r b : string) (es : list string) :
  find (band_matches location_lower)
       (map (fun '(distance_range, estate_list) =>
               (road_name, distance_range, estate_list)) bands) = Some (r, b, es) ->
  r = road_name.
Proof.
  intros H. apply find_some in H as [H _].
  apply in_map_iff in H as ([b' es'] & [= <- _ _] & _). reflexivity.
Qed.

(** The two nested loops compute the greedy first match, provided no road
    name is the empty string (which [if matched_road] would take for "no
    match yet"). *)
Lemma search_roads_first_match (roads : list (string * road_data)) :
  (forall r rd, In (r, rd) roads -> r <> "") ->
  search_roads location_lower roads (None, None) =
  match first_match location_lower roads with
  | Some (r, b) => (Some r, Some b)
  | None => (None, None)
  end.
Proof.
  unfold first_match.
  induction roads as [|[road_name rd] roads IH]; intros Hne; [reflexivity|].
  simpl. rewrite search_bands_find, find_app.
  destruct (find _ (map _ (estates rd))) as [[[r b] es]|] eqn:E.
  - apply find_band_road in E as ->. simpl.
    destruct (String.eqb road_name "") eqn:E0; [|reflexivity].
    apply String.eqb_eq in E0. now elim (Hne road_name rd (or_introl eq_refl)).
  - simpl. apply IH. intros r rd' H. apply (Hne r rd'). now right.
Qed.

Lemma first_match_In (roads : list (string * road_data)) (r b : string) :
  first_match location_lower roads = Some (r, b) ->
  exists es, In (r, b, es) (all_bands roads) /\ band_matches location_lower (r, b, es) = true.
Proof.
  unfold first_match.
  destruct (find _ _) as [[[r' b'] es]|] eqn:E; [|discriminate].
  intros [= <- <-]. exists es. now apply find_some in E.
Qed.

(** A matching band that no matching band precedes is the first match. *)
Lemma first_match_unpreceded (roads : list (string * road_data))
    (earlier later : list (string * string * list string))
    (r b : string) (es : list string) :
  all_bands roads = (earlier ++ (r, b, es) :: later)%list ->
  (forall x, In x earlier -> band_matches location_lower x = false) ->
  band_matches location_lower (r, b, es) = true ->
  first_match location_lower roads = Some (r, b).
Proof.
  intros Hall Hearlier Hhit. unfold first_match. rewrite Hall, find_app.
  replace (find (band_matches location_lower) earlier) with (@None (string * string * list string)).
  - simpl. now rewrite Hhit.
  - symmetry. clear Hall. induction earlier as [|x e IH]; [reflexivity|].
    simpl. rewrite (Hearlier x (or_introl eq_refl)).
    apply IH. intros y Hy. apply Hearlier. now right.
Qed.

End FirstMatch.

Lemma all_bands_In (roads : list (string * road_data)) (road_name : string)
    (rd : road_data) (b : string) (es : list string) :
  In (road_name, rd) roads -> In (b, es) (estates rd) ->
  In (road_name, b, es) (all_bands roads).
Proof.
  intros Hr Hb. unfold all_bands. apply in_flat_map.
  exists (road_name, rd). split; [exact Hr|].
  apply in_map_iff. exists (b, es). now split.
Qed.

Lemma existsb_In {A : Type} (f : A -> bool) (l : list A) (x : A) :
  In x l -> f x = true -> existsb f l = true.
Proof. intros Hx Hf. apply existsb_exists. now exists x. Qed.

Lemma catalog_road_names_nonempty (r : string) (rd : road_data) :
  In (r, rd) (road_network load_pricing_matrix) -> r <> "".
Proof.
  intros H Hr. subst r.
  apply (in_map fst) in H. simpl in H.
  repeat (destruct H as [H|H]; [discriminate H|]). exact H.
Qed.

Lemma catalog_bands_ok :
  forallb (band_prices_ok (road_network load_pricing_matrix))
          (all_bands (road_network load_pricing_matrix)) = true.
Proof. vm_compute. reflexivity. Qed.

(** On the catalog, the resolver is the greedy first match followed by the
    price adjustment; it raises no exception and its range is ordered. *)
Lemma catalog_boda_pricing (location time_of_day : string) :
  match first_match (lower location) (road_network load_pricing_matrix) with
  | None =>
      calculate_boda_pricing location time_of_day load_pricing_matrix =
      Ret fallback_boda_info
  | Some (r, b) =>
      exists rd adjusted,
        lookup r (road_network load_pricing_matrix) = Some rd /\
        adjusted_pricing (get (boda_pricing rd) b (300, 500))
                         (get (traffic_multiplier rd) time_of_day 1.0%float) = Ret adjusted /\
        range_ordered adjusted = true /\
        calculate_boda_pricing location time_of_day load_pricing_matrix =
        Ret {| boda_cost := adjusted;
               road := display_name r;
               distance_km := b;
               traffic_factor := get (traffic_multiplier rd) time_of_day 1.0%float;
               boda_note := notes rd |}
  end.
Proof.
  unfold calculate_boda_pricing.
  rewrite (search_roads_first_match (lower location) _ catalog_road_names_nonempty).
  destruct (first_match _ _) as [[r b]|] eqn:E; [|reflexivity].
  apply first_match_In in E as (es & Hin & _).
  pose proof (forallb_In _ _ catalog_bands_ok _ Hin) as Hok.
  unfold band_prices_ok in Hok.
  apply andb_true_iff in Hok as [Hne Hok].
  unfold truthy. rewrite Hne. cbn [negb].
  unfold item.
  destruct (lookup r (road_network load_pricing_matrix)) as [rd|]; [|discriminate].
  assert (Hm := forallb_In _ _ Hok _ (get_In (traffic_multiplier rd) time_of_day 1.0%float)).
  cbv beta in Hm.
  destruct (adjusted_pricing _ _) as [adjusted|] eqn:Ea; [|discriminate].
  exists rd, adjusted. cbn [bind]. rewrite Ea. cbn [bind].
  repeat split; trivial.
Qed.

Lemma listed_estate_has_first_match (roads : list (string * road_data))
    (road_name : string) (rd : road_data) (b : string) (es : list string)
    (estate : string) :
  In (road_name, rd) roads -> In (b, es) (estates rd) -> In estate es ->
  exists r' b', first_match (lower estate) roads = Some (r', b').
Proof.
  intros Hr Hb He. unfold first_match.
  destruct (find _ _) as [[[r' b'] es']|] eqn:E; [now exists r', b'|].
  exfalso.
  pose proof (find_none _ _ E _ (all_bands_In roads road_name rd b es Hr Hb)) as Hnone.
  unfold band_matches in Hnone. simpl in Hnone.
  rewrite (existsb_In _ _ estate He (estate_matches_self estate)) in Hnone.
  discriminate.
Qed.

(** C2 (as amended). Every estate listed in the road table resolves,
    without falling back, to the first band in enumeration order that
    lists an estate in bidirectional containment with its name; that band
    is the one it is declared under whenever no earlier band lists such an
    estate. *)
Theorem listed_estate_resolves_to_first_match
    (road_name : string) (rd : road_data) (distance_range : string)
    (estate_list : list string) (estate time_of_day : string) :
  In (road_name, rd) (road_network load_pricing_matrix) ->
  In (distance_range, estate_list) (estates rd) ->
  In estate estate_list ->
  exists r b info,
    first_match (lower estate) (road_network load_pricing_matrix) = Some (r, b) /\
    calculate_boda_pricing estate time_of_day load_pricing_matrix = Ret info /\
    road info = display_name r /\
    distance_km info = b /\
    (forall earlier later,
        all_bands (road_network load_pricing_matrix) =
          (earlier ++ (road_name, distance_range, estate_list) :: later)%list ->
        (forall x, In x earlier -> band_matches (lower estate) x = false) ->
        r = road_name /\ b = distance_range).
Proof.
  intros Hr Hb He.
  destruct (listed_estate_has_first_match _ _ _ _ _ _ Hr Hb He) as (r & b & Hfm).
  pose proof (catalog_boda_pricing estate time_of_day) as Hcat.
  rewrite Hfm in Hcat. destruct Hcat as (rd' & adjusted & _ & _ & _ & Hcalc).
  exists r, b. eexists. split; [exact Hfm|]. split; [exact Hcalc|].
  split; [reflexivity|]. split; [reflexivity|].
  intros earlier later Hall Hearlier.
  assert (Hown : first_match (lower estate) (road_network load_pricing_matrix)
                 = Some (road_name, distance_range)).
  { apply (first_match_unpreceded _ _ earlier later _ _ estate_list Hall Hearlier).
    unfold band_matches. simpl.
    apply (existsb_In _ _ estate He (estate_matches_self estate)). }
  rewrite Hfm in Hown. injection Hown as -> ->. now split.
Qed.

(** Witness for C2: [Kahawa Sukari], declared under [thika_road],
    band [10-15km]. *)
Lemma listed_estate_witness :
  exists r b info,
    first_match (lower "Kahawa Sukari") (road_network load_pricing_matrix) = Some (r, b) /\
    calculate_boda_pricing "Kahawa Sukari" "peak" load_pricing_matrix = Ret info /\
    road info = display_name r /\
    distance_km info = b /\
    (forall earlier later,
        all_bands (road_network load_pricing_matrix) =
          (earlier ++ ("thika_road", "10-15km",
                       ["Githurai 45"; "Kahawa West"; "Kahawa Sukari"]) :: later)%list ->
        (forall x, In x earlier -> band_matches (lower "Kahawa Sukari") x = false) ->
        r = "thika_road" /\ b = "10-15km").
Proof.
  apply (listed_estate_resolves_to_first_match "thika_road" thika_road "10-15km"
           ["Githurai 45"; "Kahawa West"; "Kahawa Sukari"] "Kahawa Sukari" "peak").
  - simpl. tauto.
  - simpl. tauto.
  - simpl. tauto.
Defined.

(** Counterexample to C2 as stated: [Parklands] is declared under
    [thika_road], band [0-5km], and resolves to Waiyaki Way, where it is
    listed first; [Kitengela] is declared under band [15-25km] of
    [mombasa_road] and resolves to band [5-10km], whose estate
    [Kitengela Gate] contains its name. *)
Lemma band_coverage_counterexample :
  In ("thika_road", thika_road) (road_network load_pricing_matrix) /\
  In ("0-5km", ["Muthaiga"; "Parklands"; "Eastleigh"; "Pangani"]) (estates thika_road) /\
  (exists info,
     calculate_boda_pricing "Parklands" "normal" load_pricing_matrix = Ret info /\
     road info = "Waiyaki Way" /\
     road info <> display_name "thika_road") /\
  In ("15-25km", ["Kitengela"; "Kajiado (outer limit)"]) (estates mombasa_road) /\
  (exists info,
     calculate_boda_pricing "Kitengela" "normal" load_pricing_matrix = Ret info /\
     distance_km info = "5-10km") /\
  ~ band_coverage load_pricing_matrix.
Proof.
  split; [simpl; tauto|]. split; [simpl; tauto|].
  split; [eexists; split; [vm_compute; reflexivity|split; [reflexivity|discriminate]]|].
  split; [simpl; tauto|].
  split; [eexists; split; [vm_compute; reflexivity|reflexivity]|].
  intros H.
  destruct (H "thika_road" thika_road "0-5km"
              ["Muthaiga"; "Parklands"; "Eastleigh"; "Pangani"] "Parklands" "normal")
    as (info & Hcalc & Hroad & _); try (simpl; tauto).
  vm_compute in Hcalc. injection Hcalc as <-. discriminate Hroad.
Qed.

(** The listed estates that resolve to another road or band than the one
    they are declared under: 17 of the 81. *)
Lemma catalog_resolved_elsewhere :
  resolved_elsewhere (road_network load_pricing_matrix) =
  [ ("mombasa_road", "15-25km", "Kitengela", Some ("mombasa_road", "5-10km"));
    ("thika_road", "0-5km", "Parklands", Some ("waiyaki_way", "0-5km"));
    ("langata_road", "0-5km", "Kilimani", Some ("ngong_road", "0-5km"));
    ("langata_road", "5-10km", "Karen", Some ("ngong_road", "5-10km"));
    ("langata_road", "5-10km", "Ongata Rongai", Some ("ngong_road", "15-25km"));
    ("langata_road", "10-15km", "Kiserian", Some ("ngong_road", "15-25km"));
    ("outer_ring_road", "0-5km", "Mombasa Road Junction", Some ("ngong_road", "5-10km"));
    ("outer_ring_road", "5-10km", "Donholm", Some ("jogoo_road", "5-10km"));
    ("outer_ring_road", "10-15km", "Mihang'o", Some ("jogoo_road", "10-15km"));
    ("outer_ring_road", "10-15km", "Ruai Gate", Some ("jogoo_road", "15-25km"));
    ("eastern_bypass", "0-5km", "Embakasi", Some ("outer_ring_road", "0-5km"));
    ("eastern_bypass", "0-5km", "Donholm", Some ("jogoo_road", "5-10km"));
    ("eastern_bypass", "0-5km", "Buruburu", Some ("jogoo_road", "5-10km"));
    ("eastern_bypass", "5-10km", "Ruai", Some ("jogoo_road", "15-25km"));
    ("eastern_bypass", "5-10km", "Utawala", Some ("outer_ring_road", "10-15km"));
    ("eastern_bypass", "5-10km", "Pipeline", Some ("outer_ring_road", "5-10km"));
    ("eastern_bypass", "10-20km", "Kamulu", Some ("jogoo_road", "15-25km")) ].
Proof. vm_compute. reflexivity. Qed.

(** C10. The empty location never reaches the fallback: the empty string
    is a substring of every estate name, so the first estate enumerated,
    [Industrial Area] in band [0-5km] of [mombasa_road], matches; the
    result is Mombasa Road with base range [150, 250] scaled by that
    road's traffic multiplier for the time of day ([225, 375] at peak). *)
Theorem empty_location_resolves_to_first_estate (time_of_day : string) :
  (forall estate, estate_matches (lower "") estate = true) /\
  first_match (lower "") (road_network load_pricing_matrix) =
    Some ("mombasa_road", "0-5km") /\
  hd_error (all_bands (road_network load_pricing_matrix)) =
    Some ("mombasa_road", "0-5km",
          ["Industrial Area"; "South B"; "South C"; "Imara Daima"]) /\
  get (boda_pricing mombasa_road) "0-5km" (300, 500) = (150, 250) /\
  adjusted_pricing (150, 250)
    (get (traffic_multiplier mombasa_road) time_of_day 1.0%float) =
    Ret (if String.eqb time_of_day "peak" then (225, 375) else (150, 250)) /\
  calculate_boda_pricing "" time_of_day load_pricing_matrix =
    Ret {| boda_cost := if String.eqb time_of_day "peak" then (225, 375) else (150, 250);
           road := "Mombasa Road";
           distance_km := "0-5km";
           traffic_factor := get (traffic_multiplier mombasa_road) time_of_day 1.0%float;
           boda_note := notes mombasa_road |} /\
  calculate_boda_pricing "" time_of_day load_pricing_matrix <> Ret fallback_boda_info.
Proof.
  assert (Hadj : adjusted_pricing (150, 250)
            (get (traffic_multiplier mombasa_road) time_of_day 1.0%float) =
          Ret (if String.eqb time_of_day "peak" then (225, 375) else (150, 250))).
  { unfold get. cbn [traffic_multiplier mombasa_road lookup].
    destruct (String.eqb time_of_day "peak");
      [|destruct (String.eqb time_of_day "normal")]; vm_compute; reflexivity. }
  assert (Hcalc : calculate_boda_pricing "" time_of_day load_pricing_matrix =
    Ret {| boda_cost := if String.eqb time_of_day "peak" then (225, 375) else (150, 250);
           road := "Mombasa Road";
           distance_km := "0-5km";
           traffic_factor := get (traffic_multiplier mombasa_road) time_of_day 1.0%float;
           boda_note := notes mombasa_road |}).
  { pose proof (catalog_boda_pricing "" time_of_day) as H.
    assert (Hfm : first_match (lower "") (road_network load_pricing_matrix) =
                  Some ("mombasa_road", "0-5km")) by (vm_compute; reflexivity).
    rewrite Hfm in H. destruct H as (rd & adjusted & Hrd & Ha & _ & ->).
    assert (Hl : lookup "mombasa_road" (road_network load_pricing_matrix) = Some mombasa_road)
      by reflexivity.
    rewrite Hl in Hrd. injection Hrd as <-.
    change (get (boda_pricing mombasa_road) "0-5km" (300, 500)) with (150, 250) in Ha.
    rewrite Hadj in Ha. injection Ha as <-. reflexivity. }
  split; [intros estate; unfold estate_matches; cbn [lower]; now rewrite contains_empty|].
  split; [vm_compute; reflexivity|].
  split; [reflexivity|].
  split; [reflexivity|].
  split; [exact Hadj|].
  split; [exact Hcalc|].
  rewrite Hcalc. intros H. discriminate H.
Qed.

(* ================================================================== *)
(** * Properties of the pricing engine *)

(** A located mobile callout is the flat fee plus the resolver's range. *)
Lemma mobile_callout_located (zone car : string) (c : ascii) (rest time_of_day : string) :
  calculate_price_estimate "mobile_callout" zone car load_pricing_matrix
    (Some (String c rest)) time_of_day =
  (boda <- calculate_boda_pricing (String c rest) time_of_day load_pricing_matrix ;;
   Ret (Some (EstMobileCallout 500 (boda_cost boda)
                (500 + fst (boda_cost boda), 500 + snd (boda_cost boda))
                {| ld_road := road boda;
                   ld_distance := distance_km boda;
                   ld_traffic_factor := traffic_factor boda;
                   ld_time_of_day := time_of_day |}))).
Proof. reflexivity. Qed.

(** A located pick and drop is the service fee plus twice the resolver's
    range (one lookup, used for both legs). *)
Lemma pick_and_drop_located (zone car : string) (c : ascii) (rest time_of_day : string) :
  calculate_price_estimate "pick_and_drop" zone car load_pricing_matrix
    (Some (String c rest)) time_of_day =
  (boda <- calculate_boda_pricing (String c rest) time_of_day load_pricing_matrix ;;
   Ret (Some (EstPickAndDrop (boda_cost boda) (boda_cost boda) 500
                (fst (boda_cost boda) + fst (boda_cost boda) + 500,
                 snd (boda_cost boda) + snd (boda_cost boda) + 500)
                {| ld_road := road boda;
                   ld_distance := distance_km boda;
                   ld_traffic_factor := traffic_factor boda;
                   ld_time_of_day := time_of_day |}))).
Proof. reflexivity. Qed.

(** C4. A mobile callout to Kahawa Sukari at peak time: base boda range
    [500, 600] on Thika Road, traffic factor 1.3, adjusted boda
    [650, 780], total [1150, 1280]. For every location and time of day the
    total is the unscaled flat fee of 500 plus the adjusted boda range:
    the traffic multiplier touches the boda component only. *)
Theorem mobile_callout_kahawa_sukari_peak (zone car : string) :
  calculate_price_estimate "mobile_callout" zone car load_pricing_matrix
    (Some "Kahawa Sukari") "peak" =
    Ret (Some (EstMobileCallout 500 (650, 780) (1150, 1280)
                 {| ld_road := "Thika Road";
                    ld_distance := "10-15km";
                    ld_traffic_factor := 1.3%float;
                    ld_time_of_day := "peak" |})) /\
  first_match (lower "Kahawa Sukari") (road_network load_pricing_matrix) =
    Some ("thika_road", "10-15km") /\
  get (boda_pricing thika_road) "10-15km" (300, 500) = (500, 600) /\
  get (traffic_multiplier thika_road) "peak" 1.0%float = 1.3%float /\
  adjusted_pricing (500, 600) 1.3%float = Ret (650, 780) /\
  flat_fee svc_mobile_callout = Some 500 /\
  (forall (c : ascii) (rest time_of_day : string),
     calculate_price_estimate "mobile_callout" zone car load_pricing_matrix
       (Some (String c rest)) time_of_day =
     (boda <- calculate_boda_pricing (String c rest) time_of_day load_pricing_matrix ;;
      Ret (Some (EstMobileCallout 500 (boda_cost boda)
                   (500 + fst (boda_cost boda), 500 + snd (boda_cost boda))
                   {| ld_road := road boda;
                      ld_distance := distance_km boda;
                      ld_traffic_factor := traffic_factor boda;
                      ld_time_of_day := time_of_day |})))).
Proof.
  split; [vm_compute; reflexivity|].
  split; [vm_compute; reflexivity|].
  split; [reflexivity|].
  split; [reflexivity|].
  split; [vm_compute; reflexivity|].
  split; [reflexivity|].
  intros c rest time_of_day. apply mobile_callout_located.
Qed.

(** What a returned standard estimate is made of. *)
Lemma standard_estimate_inv (s : service) (zone_mult car_mult : float) (e : estimate) :
  standard_estimate s zone_mult car_mult = Ret e ->
  exists labor_est plo phi parts_min parts_max total time_estimate,
    parts_range s = Some (Range plo phi) /\
    time_mins s = Some time_estimate /\
    scaled_parts plo car_mult = Ret parts_min /\
    scaled_parts phi car_mult = Ret parts_max /\
    match labor s, labor_est with
    | Some (Range lo hi), LaborRange labor_min labor_max =>
        scaled_labor lo zone_mult car_mult = Ret labor_min /\
        scaled_labor hi zone_mult car_mult = Ret labor_max /\
        total = (labor_min + parts_min,
                 if 0 <? parts_max then labor_max + parts_max else labor_max)
    | Some (Single v), LaborSingle c =>
        scaled_labor v zone_mult car_mult = Ret c /\
        total = (c + parts_min, if 0 <? parts_max then c + parts_max else c)
    | _, _ => False
    end /\
    e = EstStandard labor_est
          (if 0 <? parts_max then Some (parts_min, parts_max) else None)
          total time_estimate (note s).
Proof.
  unfold standard_estimate.
  destruct (labor s) as [[lo hi|v|t]|]; cbn [field bind]; try discriminate.
  - destruct (scaled_labor lo zone_mult car_mult) as [labor_min|] eqn:E1; cbn [bind]; [|discriminate].
    destruct (scaled_labor hi zone_mult car_mult) as [labor_max|] eqn:E2; cbn [bind]; [|discriminate].
    destruct (parts_range s) as [[plo phi|?|[|? ?]]|]; cbn [field bind]; try discriminate.
    destruct (scaled_parts plo car_mult) as [parts_min|] eqn:E3; cbn [bind]; [|discriminate].
    destruct (scaled_parts phi car_mult) as [parts_max|] eqn:E4; cbn [bind]; [|discriminate].
    destruct (time_mins s) as [time_estimate|] eqn:Et; cbn [field bind]; [|discriminate].
    intros [= <-].
    exists (LaborRange labor_min labor_max), plo, phi, parts_min, parts_max.
    eexists. exists time_estimate. repeat split; assumption.
  - destruct (scaled_labor v zone_mult car_mult) as [c|] eqn:E5; cbn [bind]; [|discriminate].
    destruct (parts_range s) as [[plo phi|?|[|? ?]]|]; cbn [field bind]; try discriminate.
    destruct (scaled_parts plo car_mult) as [parts_min|] eqn:E6; cbn [bind]; [|discriminate].
    destruct (scaled_parts phi car_mult) as [parts_max|] eqn:E7; cbn [bind]; [|discriminate].
    destruct (time_mins s) as [time_estimate|] eqn:Et; cbn [field bind]; [|discriminate].
    intros [= <-].
    exists (LaborSingle c), plo, phi, parts_min, parts_max.
    eexists. exists time_estimate. repeat split; assumption.
Qed.

(** C3. Battery replacement in Westlands for a Toyota: zone multiplier
    1.2, car multiplier 1.0, labor [1200, 4800], parts [6500, 28000],
    total [7700, 32800]. The zone multiplier scales labor only and the car
    multiplier scales labor and parts: for a BMW (1.8) the same request
    gives labor [2160, 8640] and parts [11700, 50400], and in Kibera (0.85)
    the BMW keeps these parts with labor [1530, 6120]. In general each
    parts bound of a standard estimate is [int] of the base bound times the
    car multiplier (0 for a base bound that is not positive), so two
    estimates of one service under one car multiplier carry the same parts
    range whatever the zone multipliers are. *)
Theorem battery_replacement_westlands_toyota
    (location : option string) (time_of_day : string) :
  find_zone_mult (lower "Westlands") (zones load_pricing_matrix) 1.0%float = 1.2%float /\
  find_car_mult (lower "Toyota") (car_categories load_pricing_matrix) 1.0%float = 1.0%float /\
  calculate_price_estimate "battery_replacement" "Westlands" "Toyota"
    load_pricing_matrix location time_of_day =
    Ret (Some (EstStandard (LaborRange 1200 4800) (Some (6500, 28000)) (7700, 32800)
                 (Range 20 60)
                 (Some "Labor varies based on accessibility and connections"))) /\
  scaled_labor 1000 1.2%float 1.0%float = Ret 1200 /\
  scaled_labor 4000 1.2%float 1.0%float = Ret 4800 /\
  scaled_parts 6500 1.0%float = Ret 6500 /\
  scaled_parts 28000 1.0%float = Ret 28000 /\
  (forall s zone_mult zone_mult' car_mult e e',
     standard_estimate s zone_mult car_mult = Ret e ->
     standard_estimate s zone_mult' car_mult = Ret e' ->
     estimate_parts e = estimate_parts e') /\
  find_car_mult (lower "BMW") (car_categories load_pricing_matrix) 1.0%float = 1.8%float /\
  find_zone_mult (lower "Kibera") (zones load_pricing_matrix) 1.0%float = 0.85%float /\
  calculate_price_estimate "battery_replacement" "Westlands" "BMW"
    load_pricing_matrix location time_of_day =
    Ret (Some (EstStandard (LaborRange 2160 8640) (Some (11700, 50400)) (13860, 59040)
                 (Range 20 60)
                 (Some "Labor varies based on accessibility and connections"))) /\
  calculate_price_estimate "battery_replacement" "Kibera" "BMW"
    load_pricing_matrix location time_of_day =
    Ret (Some (EstStandard (LaborRange 1530 6120) (Some (11700, 50400)) (13230, 56520)
                 (Range 20 60)
                 (Some "Labor varies based on accessibility and connections"))) /\
  (forall s zone_mult car_mult e,
     standard_estimate s zone_mult car_mult = Ret e ->
     exists plo phi parts_min parts_max,
       parts_range s = Some (Range plo phi) /\
       (0 < plo -> exists f, float_of_int plo = Ret f /\
                             int_of_float (f * car_mult)%float = Ret parts_min) /\
       (plo <= 0 -> parts_min = 0) /\
       (0 < phi -> exists f, float_of_int phi = Ret f /\
                             int_of_float (f * car_mult)%float = Ret parts_max) /\
       (phi <= 0 -> parts_max = 0) /\
       estimate_parts e = if 0 <? parts_max then Some (parts_min, parts_max) else None).
Proof.
  split; [vm_compute; reflexivity|].
  split; [vm_compute; reflexivity|].
  split; [vm_compute; reflexivity|].
  split; [vm_compute; reflexivity|].
  split; [vm_compute; reflexivity|].
  split; [vm_compute; reflexivity|].
  split; [vm_compute; reflexivity|].
  split.
  { intros s zone_mult zone_mult' car_mult e e' He He'.
    apply standard_estimate_inv in He
      as (l & plo & phi & pmin & pmax & tot & tm & Hp & _ & Hmin & Hmax & _ & ->).
    apply standard_estimate_inv in He'
      as (l' & plo' & phi' & pmin' & pmax' & tot' & tm' & Hp' & _ & Hmin' & Hmax' & _ & ->).
    rewrite Hp in Hp'. injection Hp' as <- <-.
    rewrite Hmin in Hmin'. injection Hmin' as <-.
    rewrite Hmax in Hmax'. injection Hmax' as <-.
    reflexivity. }
  split; [vm_compute; reflexivity|].
  split; [vm_compute; reflexivity|].
  split; [vm_compute; reflexivity|].
  split; [vm_compute; reflexivity|].
  intros s zone_mult car_mult e He.
  apply standard_estimate_inv in He
    as (l & plo & phi & pmin & pmax & tot & tm & Hp & _ & Hmin & Hmax & _ & ->).
  exists plo, phi, pmin, pmax. split; [exact Hp|].
  assert (Hscaled : forall n r, scaled_parts n car_mult = Ret r ->
            (0 < n -> exists f, float_of_int n = Ret f /\
                                int_of_float (f * car_mult)%float = Ret r) /\
            (n <= 0 -> r = 0)).
  { intros n r. unfold scaled_parts, int_mul_float.
    destruct (0 <? n) eqn:En.
    - apply Z.ltb_lt in En.
      destruct (float_of_int n) as [f|]; cbn [bind]; [|discriminate].
      intros H. split; [intros _; now exists f|lia].
    - apply Z.ltb_ge in En. intros [= <-]. split; [lia|reflexivity]. }
  destruct (Hscaled _ _ Hmin) as [H1 H2]. destruct (Hscaled _ _ Hmax) as [H3 H4].
  repeat split; trivial.
Qed.

(** C6. A transmission estimate is the diagnosis-required outcome with its
    fixed advisory message, whatever the zone, car make, location and time
    of day; it carries no price. *)
Theorem transmission_requires_diagnosis
    (zone car : string) (location : option string) (time_of_day : string) :
  calculate_price_estimate "transmission" zone car load_pricing_matrix
    location time_of_day =
  Ret (Some (EstDiagnosisRequired
    "This service requires professional diagnosis before pricing can be determined."
    "Too complex to estimate without inspection"
    "Book a diagnostic scan first (KES 1,500-15,000)")) /\
  estimate_ranges
    (EstDiagnosisRequired
      "This service requires professional diagnosis before pricing can be determined."
      "Too complex to estimate without inspection"
      "Book a diagnostic scan first (KES 1,500-15,000)") = [].
Proof. split; reflexivity. Qed.

Lemma find_zone_mult_In (zone_lower : string) (zs : list (string * zone_data))
    (default : float) :
  In (find_zone_mult zone_lower zs default)
     (default :: map (fun z => multiplier (snd z)) zs).
Proof.
  induction zs as [|[name z] zs IH]; simpl; [now left|].
  destruct (mem zone_lower (map lower (areas z))); [right; now left|].
  destruct IH as [IH|IH]; [now left|right; now right].
Qed.

Lemma find_car_mult_In (car_lower : string) (cs : list (string * category_data))
    (default : float) :
  In (find_car_mult car_lower cs default)
     (default :: map (fun c => cat_multiplier (snd c)) cs).
Proof.
  induction cs as [|[name c] cs IH]; simpl; [now left|].
  destruct (mem car_lower (map lower (makes c))); [right; now left|].
  destruct IH as [IH|IH]; [now left|right; now right].
Qed.

Lemma ranges_ordered_In (l : list (Z * Z)) (lo hi : Z) :
  forallb range_ordered l = true -> In (lo, hi) l -> lo <= hi.
Proof.
  intros H Hin. apply (forallb_In _ _ H) in Hin.
  unfold range_ordered in Hin. simpl in Hin. now apply Z.leb_le.
Qed.

(** The catalog's standard services are the seven with numeric labor and
    parts. *)
Lemma catalog_standard_entries :
  map fst (standard_entries load_pricing_matrix) =
  ["battery_replacement"; "oil_change"; "brake_pads"; "diagnostic_scan";
   "alternator"; "starter_motor"; "radiator"].
Proof. reflexivity. Qed.

Lemma catalog_standard_ok :
  forallb (fun x =>
    forallb (fun zone_mult =>
      forallb (fun car_mult => standard_ok (snd x) zone_mult car_mult)
              (car_candidates load_pricing_matrix))
            (zone_candidates load_pricing_matrix))
    (standard_entries load_pricing_matrix) = true.
Proof. vm_compute. reflexivity. Qed.

Lemma standard_path (service_key : string) (s : service) (zone car : string)
    (location : option string) (time_of_day : string) :
  In (service_key, s) (standard_entries load_pricing_matrix) ->
  calculate_price_estimate service_key zone car load_pricing_matrix location time_of_day =
  (e <- standard_estimate s
          (find_zone_mult (lower zone) (zones load_pricing_matrix) 1.0%float)
          (find_car_mult (lower car) (car_categories load_pricing_matrix) 1.0%float) ;;
   Ret (Some e)).
Proof.
  intros H. cbv in H.
  repeat (destruct H as [H|H]; [injection H as <- <-; reflexivity|]).
  destruct H.
Qed.

Lemma catalog_standard_ordered (service_key : string) (s : service) (zone car : string)
    (location : option string) (time_of_day : string) :
  In (service_key, s) (standard_entries load_pricing_matrix) ->
  exists e,
    calculate_price_estimate service_key zone car load_pricing_matrix location time_of_day =
      Ret (Some e) /\
    forallb range_ordered (estimate_ranges e) = true.
Proof.
  intros H. rewrite (standard_path _ _ _ _ _ _ H).
  pose proof (forallb_In _ _ catalog_standard_ok _ H) as H1. cbv beta in H1.
  pose proof (forallb_In _ _ H1 _
                (find_zone_mult_In (lower zone) (zones load_pricing_matrix) 1.0%float)) as H2.
  cbv beta in H2.
  pose proof (forallb_In _ _ H2 _
                (find_car_mult_In (lower car) (car_categories load_pricing_matrix) 1.0%float)) as H3.
  cbv beta in H3. unfold standard_ok in H3. cbn [snd] in H3.
  destruct (standard_estimate s _ _) as [e|]; [|discriminate].
  exists e. split; [reflexivity|exact H3].
Qed.

Lemma catalog_located_ordered (location time_of_day : string) :
  exists info,
    calculate_boda_pricing location time_of_day load_pricing_matrix = Ret info /\
    fst (boda_cost info) <= snd (boda_cost info).
Proof.
  pose proof (catalog_boda_pricing location time_of_day) as H.
  destruct (first_match _ _) as [[r b]|].
  - destruct H as (rd & adjusted & _ & _ & Hord & ->).
    eexists. split; [reflexivity|]. simpl. now apply Z.leb_le.
  - rewrite H. eexists. split; [reflexivity|]. simpl. lia.
Qed.

Lemma ordered_result (r : option estimate) :
  match r with
  | Some e => forallb range_ordered (estimate_ranges e) = true
  | None => True
  end ->
  forall e lo hi, r = Some e -> In (lo, hi) (estimate_ranges e) -> lo <= hi.
Proof.
  intros H e lo hi ->. now apply ranges_ordered_In.
Qed.

(** Closes a goal [forallb range_ordered [...] = true] on explicit ranges. *)
Ltac ranges_ordered :=
  cbn [estimate_ranges forallb app];
  repeat (apply andb_true_iff; split); try reflexivity;
  unfold range_ordered; cbn [fst snd]; apply Z.leb_le; lia.

(** C9. On the catalog every call of the pricing engine returns (it
    raises no exception), and in every estimate it returns each price
    range (labor, parts, boda legs, towing range, total) has its lower
    bound at most its upper bound, whatever the service key, zone string,
    car make, location and time of day. *)
Theorem catalog_estimate_ranges_ordered
    (service_key zone car : string) (location : option string) (time_of_day : string) :
  exists r,
    calculate_price_estimate service_key zone car load_pricing_matrix
      location time_of_day = Ret r /\
    forall e lo hi, r = Some e -> In (lo, hi) (estimate_ranges e) -> lo <= hi.
Proof.
  destruct (lookup service_key (services load_pricing_matrix)) as [s|] eqn:E.
  2:{ exists None. split; [|discriminate].
      unfold calculate_price_estimate. now rewrite E. }
  apply lookup_In in E.
  destruct (is_standard_entry (service_key, s)) eqn:Estd.
  - assert (Hin : In (service_key, s) (standard_entries load_pricing_matrix))
      by (apply filter_In; now split).
    destruct (catalog_standard_ordered _ _ zone car location time_of_day Hin)
      as (e & -> & Hord).
    eexists. split; [reflexivity|]. now apply ordered_result.
  - cbv in E.
    repeat (destruct E as [E|E];
            [injection E as <- <-; try discriminate Estd|]); try destruct E.
    + (* mobile_callout *)
      destruct location as [[|c rest]|].
      * eexists. split; [reflexivity|]. apply ordered_result. reflexivity.
      * rewrite mobile_callout_located.
        destruct (catalog_located_ordered (String c rest) time_of_day) as (info & -> & Hord).
        destruct info as [[blo bhi] ? ? ? ?]. cbn [boda_cost fst snd] in Hord.
        cbn [bind boda_cost fst snd]. eexists. split; [reflexivity|].
        apply ordered_result. ranges_ordered.
      * eexists. split; [reflexivity|]. apply ordered_result. reflexivity.
    + (* pick_and_drop *)
      destruct location as [[|c rest]|].
      * eexists. split; [reflexivity|]. apply ordered_result. reflexivity.
      * rewrite pick_and_drop_located.
        destruct (catalog_located_ordered (String c rest) time_of_day) as (info & -> & Hord).
        destruct info as [[blo bhi] ? ? ? ?]. cbn [boda_cost fst snd] in Hord.
        cbn [bind boda_cost fst snd]. eexists. split; [reflexivity|].
        apply ordered_result. ranges_ordered.
      * eexists. split; [reflexivity|]. apply ordered_result. reflexivity.
    + (* towing *)
      eexists. split; [reflexivity|]. apply ordered_result. reflexivity.
    + (* transmission *)
      eexists. split; [reflexivity|]. apply ordered_result. reflexivity.
    + (* engine_overhaul *)
      eexists. split; [reflexivity|]. apply ordered_result. reflexivity.
    + (* specialty_service *)
      eexists. split; [reflexivity|]. apply ordered_result. reflexivity.
Qed.

(** The premises of C9 hold of the catalog: every base range is ordered
    and every multiplier is positive. *)
Lemma catalog_base_ranges_ordered :
  forallb (fun x =>
             forallb (fun p => range_ordered (snd p)) (boda_pricing (snd x)) &&
             forallb (fun m => (0 <? snd m)%float) (traffic_multiplier (snd x)))
          (road_network load_pricing_matrix) = true /\
  forallb (fun z => (0 <? multiplier (snd z))%float) (zones load_pricing_matrix) = true /\
  forallb (fun c => (0 <? cat_multiplier (snd c))%float)
          (car_categories load_pricing_matrix) = true /\
  forallb (fun x =>
             match labor (snd x), parts_range (snd x) with
             | Some (Range l0 l1), Some (Range p0 p1) =>
                 (0 <=? l0) && (l0 <=? l1) && (0 <=? p0) && (p0 <=? p1)
             | _, _ => false
             end)
          (standard_entries load_pricing_matrix) = true.
Proof. repeat split; vm_compute; reflexivity. Qed.

(* ================================================================== *)
(** * Time of day in [diagnose] *)

Lemma is_peak_hour_spec (h : Z) :
  is_peak_hour h = true <-> (7 <= h < 9 \/ 17 <= h < 19).
Proof. unfold is_peak_hour. lia. Qed.

(** C7 (as amended). With a timestamp that parses, the time of day
    becomes peak when the hour lies in [7,9) or [17,19); in every other
    case (hour outside the windows, unparseable timestamp, no timestamp)
    it is the value supplied in the request, or normal when none was
    supplied. So it is peak exactly in the two windows when the request
    supplies no time of day. *)
Theorem effective_time_of_day_rule
    (parse : string -> option datetime) (data : request_data) :
  (forall ts dt,
     timestamp_field data = Some ts -> parse ts = Some dt ->
     (7 <= hour dt < 9 \/ 17 <= hour dt < 19) ->
     effective_time_of_day parse data = "peak") /\
  (forall ts dt,
     timestamp_field data = Some ts -> parse ts = Some dt ->
     ~ (7 <= hour dt < 9 \/ 17 <= hour dt < 19) ->
     effective_time_of_day parse data = supplied_time_of_day data) /\
  (forall ts,
     timestamp_field data = Some ts -> parse ts = None ->
     effective_time_of_day parse data = supplied_time_of_day data) /\
  (timestamp_field data = None ->
   effective_time_of_day parse data = supplied_time_of_day data) /\
  (time_of_day_field data = None -> supplied_time_of_day data = "normal") /\
  (forall ts dt,
     time_of_day_field data = None ->
     timestamp_field data = Some ts -> parse ts = Some dt ->
     effective_time_of_day parse data =
     if is_peak_hour (hour dt) then "peak" else "normal").
Proof.
  unfold effective_time_of_day, supplied_time_of_day.
  repeat split.
  - intros ts dt -> -> H. apply is_peak_hour_spec in H. now rewrite H.
  - intros ts dt -> -> H.
    destruct (is_peak_hour (hour dt)) eqn:E; [|reflexivity].
    apply is_peak_hour_spec in E. contradiction.
  - intros ts -> ->. reflexivity.
  - intros ->. reflexivity.
  - intros ->. reflexivity.
  - intros ts dt -> -> ->. reflexivity.
Qed.

(** Counterexample to C7 as stated: a request that supplies
    [time_of_day = "peak"] with a timestamp at 12:30 keeps peak, although
    the hour lies in neither window. *)
Lemma timestamp_decides_counterexample :
  fromisoformat "2025-11-05T12:30:00" =
    Some {| year := 2025; month := 11; day := 5; hour := 12; minute := 30; second := 0 |} /\
  is_peak_hour 12 = false /\
  effective_time_of_day fromisoformat
    {| time_of_day_field := Some "peak";
       timestamp_field := Some "2025-11-05T12:30:00" |} = "peak" /\
  ~ timestamp_decides fromisoformat.
Proof.
  repeat split.
  intros H.
  specialize (H {| time_of_day_field := Some "peak";
                   timestamp_field := Some "2025-11-05T12:30:00" |}
                "2025-11-05T12:30:00" _ eq_refl eq_refl).
  discriminate H.
Qed.

(* ================================================================== *)
(** * Binary64 arithmetic: multiplication and truncation are monotone *)

(** [digits2_pos p] is the bit length of [p]. *)
Lemma digits2_pos_bounds (p : positive) :
  2 ^ (Zpos (digits2_pos p) - 1) <= Zpos p < 2 ^ Zpos (digits2_pos p).
Proof.
  induction p as [p IH|p IH|]; cbn [digits2_pos].
  - rewrite Pos2Z.inj_succ.
    replace (Z.succ (Z.pos (digits2_pos p)) - 1) with (Z.succ (Z.pos (digits2_pos p) - 1)) by lia.
    rewrite !Z.pow_succ_r by lia. lia.
  - rewrite Pos2Z.inj_succ.
    replace (Z.succ (Z.pos (digits2_pos p)) - 1) with (Z.succ (Z.pos (digits2_pos p) - 1)) by lia.
    rewrite !Z.pow_succ_r by lia. lia.
  - simpl. lia.
Qed.

Lemma pow2_pos (k : Z) : 0 <= k -> 0 < 2 ^ k.
Proof. intros. apply Z.pow_pos_nonneg; lia. Qed.

Lemma digits2_pos_le (p : positive) (k : Z) :
  Zpos p < 2 ^ k -> Zpos (digits2_pos p) <= k.
Proof.
  intros H. destruct (digits2_pos_bounds p) as [Hlo _].
  destruct (Z.le_gt_cases (Zpos (digits2_pos p)) k) as [|Hgt]; [assumption|].
  assert (0 <= k).
  { destruct (Z.le_gt_cases 0 k); [assumption|]. rewrite Z.pow_neg_r in H by lia. lia. }
  assert (2 ^ k <= 2 ^ (Zpos (digits2_pos p) - 1)) by (apply Z.pow_le_mono_r; lia).
  lia.
Qed.

Lemma digits2_pos_ge (p : positive) (k : Z) :
  2 ^ (k - 1) <= Zpos p -> k <= Zpos (digits2_pos p).
Proof.
  intros H. destruct (digits2_pos_bounds p) as [_ Hhi].
  destruct (Z.le_gt_cases k (Zpos (digits2_pos p))) as [|Hgt]; [assumption|].
  assert (2 ^ Zpos (digits2_pos p) <= 2 ^ (k - 1)) by (apply Z.pow_le_mono_r; lia).
  lia.
Qed.

(** One more shifted bit keeps the quotient, round bit and sticky bit in
    step with the shifted number. *)
Lemma shr_1_inv (M k : Z) (st : shr_record) :
  0 <= k -> shr_inv M k st -> shr_inv M (k + 1) (shr_1 st).
Proof.
  intros Hk [Hm (t & Ht & Hs & HM)].
  destruct st as [m r s]. cbn [shr_m shr_r shr_s] in *.
  pose proof (pow2_pos k Hk) as HP.
  unfold shr_inv.
  replace (k + 1 + 1) with (Z.succ (Z.succ k)) by lia.
  replace (k + 1) with (Z.succ k) in * by lia.
  rewrite !Z.pow_succ_r in * by lia.
  set (P := 2 ^ k) in *.
  assert (Hs' : (if r then P else 0) + t = 0 <-> (r || s)%bool = false).
  { destruct r, s; simpl; split; intros H0; try congruence; try lia;
      try (apply Hs; lia). }
  destruct m as [|[p|p|]|p]; try lia; unfold shr_1; cbn [shr_m shr_r shr_s].
  all: split; [lia|].
  all: exists ((if r then P else 0) + t).
  all: split; [destruct r; lia|].
  all: split; [exact Hs'|].
  all: destruct r; lia.
Qed.

(** So does a shift by [p] bits. *)
Lemma iter_pos_shr_inv (M : Z) (p : positive) :
  forall k st, 0 <= k -> shr_inv M k st ->
  shr_inv M (k + Zpos p) (SpecFloat.iter_pos shr_1 p st).
Proof.
  induction p as [p IH|p IH|]; intros k st Hk Hst; cbn [SpecFloat.iter_pos].
  - replace (k + Z.pos p~1) with (k + 1 + Zpos p + Zpos p) by lia.
    apply IH; [lia|]. apply IH; [lia|]. now apply shr_1_inv.
  - replace (k + Z.pos p~0) with (k + Zpos p + Zpos p) by lia.
    apply IH; [lia|]. now apply IH.
  - now apply shr_1_inv.
Qed.

(** [round_nearest_even] on a shifted state is within half a unit of
    [M / 2^k], and even on a tie. *)
Lemma round_nearest_even_spec (M k : Z) (st : shr_record) :
  0 <= k -> shr_inv M k st ->
  0 <= round_nearest_even (shr_m st) (loc_of_shr_record st) /\
  nearest_even M k (round_nearest_even (shr_m st) (loc_of_shr_record st)).
Proof.
  intros Hk [Hm (t & Ht & Hs & HM)].
  destruct st as [m r s]. cbn [shr_m shr_r shr_s] in *.
  pose proof (pow2_pos k Hk) as HP.
  replace (k + 1) with (Z.succ k) in * by lia.
  rewrite Z.pow_succ_r in * by lia.
  unfold nearest_even.
  set (P := 2 ^ k) in *.
  destruct r, s; cbn [loc_of_shr_record round_nearest_even].
  - assert (t <> 0) by (intros Ht0; apply Hs in Ht0; discriminate).
    split; [lia|]. split; [nia|]. intros Habs. exfalso. nia.
  - assert (t = 0) by now apply Hs. subst t.
    destruct (Z.even m) eqn:Ev.
    + split; [lia|]. split; [nia|]. intros _. exact Ev.
    + split; [lia|]. split; [nia|]. intros _.
      rewrite Z.even_add, Ev. reflexivity.
  - assert (t <> 0) by (intros Ht0; apply Hs in Ht0; discriminate).
    split; [lia|]. split; [nia|]. intros Habs. exfalso. nia.
  - assert (t = 0) by now apply Hs. subst t.
    split; [lia|]. split; [nia|]. intros Habs. exfalso. nia.
Qed.

(** Rounding to nearest-even is monotone, across different shift amounts. *)
Lemma nearest_even_mono (M1 k1 R1 M2 k2 R2 : Z) :
  0 <= k1 -> 0 <= k2 ->
  nearest_even M1 k1 R1 -> nearest_even M2 k2 R2 ->
  M1 * 2 ^ k2 <= M2 * 2 ^ k1 ->
  R1 <= R2.
Proof.
  intros Hk1 Hk2 [[Hlo1 Hhi1] He1] [[Hlo2 Hhi2] He2] Hle.
  pose proof (pow2_pos k1 Hk1) as HP1.
  pose proof (pow2_pos k2 Hk2) as HP2.
  set (P1 := 2 ^ k1) in *. set (P2 := 2 ^ k2) in *.
  destruct (Z.le_gt_cases R1 R2) as [|Hgt]; [assumption|exfalso].
  assert (H1 : (2 * R1 - 1) * P1 <= 2 * M1) by lia.
  assert (H2 : 2 * M2 <= (2 * R2 + 1) * P2) by lia.
  assert (H3 : (2 * R1 - 1) * (P1 * P2) <= (2 * R2 + 1) * (P1 * P2)) by nia.
  assert (H4 : 0 < P1 * P2) by nia.
  assert (H5 : R1 = R2 + 1) by nia.
  subst R1.
  assert (H6 : 2 * M1 * P2 = 2 * M2 * P1) by nia.
  assert (T1 : 2 * (R2 + 1) * P1 - 2 * M1 = P1) by nia.
  assert (T2 : 2 * R2 * P2 - 2 * M2 = - P2) by nia.
  assert (E1 : Z.even (R2 + 1) = true) by (apply He1; lia).
  assert (E2 : Z.even R2 = true) by (apply He2; lia).
  rewrite Z.even_add, E2 in E1. discriminate.
Qed.

Ltac unfold_fexp :=
  unfold target_exp, fexp, SpecFloat.emin, prec, emax in *.

(** The first shift of [binary_round_aux] brings the exponent to the
    target. *)
Lemma shr_fexp_first (M : positive) (E : Z) :
  E <= target_exp M E ->
  exists st,
    shr_fexp prec emax (Zpos M) E loc_Exact = (st, target_exp M E) /\
    shr_inv (Zpos M) (target_exp M E - E) st.
Proof.
  intros HE. unfold shr_fexp, shr. cbn [Zdigits2 shr_record_of_loc].
  fold (target_exp M E).
  assert (Hinit : shr_inv (Zpos M) 0 {| shr_m := Zpos M; shr_r := false; shr_s := false |}).
  { split; [cbn; lia|]. exists 0. cbn [shr_m shr_r shr_s]. repeat split; lia. }
  destruct (target_exp M E - E) as [|p|p] eqn:Ek; try lia.
  - eexists. split; [f_equal; lia|exact Hinit].
  - eexists. split; [f_equal; lia|].
    apply (iter_pos_shr_inv (Zpos M) p 0 _ (Z.le_refl 0) Hinit).
Qed.

(** The second shift only renormalises a significand that carried to
    [2^53]. *)
Lemma shr_fexp_second (R e : Z) :
  0 <= R <= 2 ^ 53 -> -1074 <= e ->
  exists st,
    shr_fexp prec emax R e loc_Exact =
      (st, if R =? 2 ^ 53 then e + 1 else e) /\
    shr_m st = if R =? 2 ^ 53 then 2 ^ 52 else R.
Proof.
  intros HR He. unfold shr_fexp, shr. cbn [shr_record_of_loc].
  destruct (R =? 2 ^ 53) eqn:ER.
  - apply Z.eqb_eq in ER. subst R. cbn [Zdigits2 Z.pow Z.pow_pos Pos.iter Z.mul Pos.mul digits2_pos Pos.succ].
    replace (fexp prec emax (54 + e) - e) with 1 by (unfold_fexp; lia).
    eexists. split; reflexivity.
  - apply Z.eqb_neq in ER.
    destruct R as [|q|q]; try lia.
    + cbn [Zdigits2].
      destruct (fexp prec emax (0 + e) - e) as [|p|p] eqn:En;
        try (unfold_fexp; lia); eexists; split; reflexivity.
    + cbn [Zdigits2].
      assert (Hd : Zpos (digits2_pos q) <= 53) by (apply digits2_pos_le; lia).
      destruct (fexp prec emax (Zpos (digits2_pos q) + e) - e) as [|p|p] eqn:En;
        try (unfold_fexp; lia); eexists; split; reflexivity.
Qed.

(** Rounding a positive [M * 2^E] whose exponent does not exceed the
    target: the significand is [M / 2^(target - E)] rounded to nearest
    even. *)
Lemma binary_round_aux_spec (M : positive) (E : Z) :
  E <= target_exp M E ->
  exists R,
    0 <= R <= 2 ^ 53 /\
    nearest_even (Zpos M) (target_exp M E - E) R /\
    (-1074 < target_exp M E -> 2 ^ 52 <= R) /\
    binary_round_aux prec emax false (Zpos M) E loc_Exact =
      round_result R (target_exp M E).
Proof.
  intros HE.
  destruct (shr_fexp_first M E HE) as (st & Hst & Hinv).
  assert (Hk : 0 <= target_exp M E - E) by lia.
  destruct (round_nearest_even_spec _ _ _ Hk Hinv) as [HR0 Hne].
  set (R := round_nearest_even (shr_m st) (loc_of_shr_record st)) in *.
  set (e := target_exp M E) in *.
  pose proof (digits2_pos_bounds M) as [Hlo Hhi].
  set (d := Zpos (digits2_pos M)) in *.
  assert (He : -1074 <= e /\ d + E - 53 <= e) by (subst e; unfold_fexp; lia).
  pose proof (pow2_pos (e - E) Hk) as HP.
  assert (HRhi : R <= 2 ^ 53).
  { assert (Hd : 2 ^ d <= 2 ^ (e - E + 53)) by (apply Z.pow_le_mono_r; lia).
    rewrite Z.pow_add_r in Hd by lia.
    destruct Hne as [[Hl Hh] _]. set (P := 2 ^ (e - E)) in *. nia. }
  assert (HRlo : -1074 < e -> 2 ^ 52 <= R).
  { intros Hne1. assert (Hed : e = d + E - 53) by (subst e; unfold_fexp; lia).
    assert (Hd : 2 ^ (d - 1) = 2 ^ (e - E) * 2 ^ 52).
    { rewrite <- Z.pow_add_r by lia. f_equal. lia. }
    destruct Hne as [[Hl Hh] _]. set (P := 2 ^ (e - E)) in *. nia. }
  exists R. split; [lia|]. split; [exact Hne|]. split; [exact HRlo|].
  unfold binary_round_aux. rewrite Hst. fold R.
  destruct (shr_fexp_second R e (conj HR0 HRhi) (proj1 He)) as (st2 & Hst2 & Hm2).
  rewrite Hst2, Hm2. unfold round_result.
  destruct (R =? 0) eqn:E0.
  - apply Z.eqb_eq in E0. rewrite E0. reflexivity.
  - apply Z.eqb_neq in E0.
    destruct (R =? 2 ^ 53) eqn:E53.
    + reflexivity.
    + destruct R as [|q|q]; try lia. reflexivity.
Qed.

(** Powers of two over the reals. *)
Lemma bpow_add (a b : Z) : bpow (a + b) = (bpow a * bpow b)%R.
Proof. unfold bpow. apply powerRZ_add. lra. Qed.

Lemma bpow_pos (a : Z) : (0 < bpow a)%R.
Proof. unfold bpow. apply powerRZ_lt. lra. Qed.

Lemma bpow_IZR (k : Z) : 0 <= k -> IZR (2 ^ k) = bpow k.
Proof.
  intros Hk. unfold bpow. destruct k as [|p|p]; try lia.
  - simpl. reflexivity.
  - change (2 ^ Zpos p) with (Z.pow_pos 2 p). apply Zpower_pos_powerRZ.
Qed.

Lemma bpow_ge_1 (k : Z) : 0 <= k -> (1 <= bpow k)%R.
Proof.
  intros Hk. rewrite <- bpow_IZR by assumption.
  apply IZR_le. pose proof (pow2_pos k Hk). lia.
Qed.

Lemma bpow_le (a b : Z) : a <= b -> (bpow a <= bpow b)%R.
Proof.
  intros H. replace b with (a + (b - a)) by lia. rewrite bpow_add.
  pose proof (bpow_pos a). pose proof (bpow_ge_1 (b - a) ltac:(lia)). nra.
Qed.

Lemma bpow_lt_inv (a b : Z) : (bpow a < bpow b)%R -> a < b.
Proof.
  intros H. destruct (Z.lt_ge_cases a b) as [|Hge]; [assumption|].
  pose proof (bpow_le b a Hge). lra.
Qed.

Lemma bpow_succ (a : Z) : bpow (a + 1) = (2 * bpow a)%R.
Proof. rewrite bpow_add. unfold bpow at 2. simpl. lra. Qed.

(** The magnitude of a positive significand. *)
Lemma F2R_digits_bounds (m : positive) (e : Z) :
  (bpow (Zpos (digits2_pos m) - 1 + e) <= F2R (Zpos m) e < bpow (Zpos (digits2_pos m) + e))%R.
Proof.
  destruct (digits2_pos_bounds m) as [Hlo Hhi].
  assert (Hd : 0 <= Zpos (digits2_pos m) - 1) by lia.
  apply IZR_le in Hlo. apply IZR_lt in Hhi.
  rewrite bpow_IZR in Hlo, Hhi by lia.
  unfold F2R. rewrite !bpow_add. pose proof (bpow_pos e). nra.
Qed.

Lemma target_exp_mono (M1 M2 : positive) (E1 E2 : Z) :
  (F2R (Zpos M1) E1 <= F2R (Zpos M2) E2)%R ->
  target_exp M1 E1 <= target_exp M2 E2.
Proof.
  intros H.
  pose proof (F2R_digits_bounds M1 E1) as [H1 _].
  pose proof (F2R_digits_bounds M2 E2) as [_ H2].
  assert (Hlt : (bpow (Zpos (digits2_pos M1) - 1 + E1) < bpow (Zpos (digits2_pos M2) + E2))%R) by lra.
  apply bpow_lt_inv in Hlt. unfold_fexp. lia.
Qed.

(** A rounded result overflows or is a nonnegative finite float of value
    [R * 2^e]. *)
Lemma round_result_cases (R e : Z) :
  0 <= R <= 2 ^ 53 ->
  round_result R e = S754_infinity false \/
  (nonneg_finite (round_result R e) /\
   B2R (round_result R e) = F2R R e /\
   (R < 2 ^ 53 -> R = 0 \/ e <= 971) /\ (R = 2 ^ 53 -> e + 1 <= 971)).
Proof.
  intros HR. unfold round_result.
  destruct (R =? 0) eqn:E0.
  - apply Z.eqb_eq in E0. subst R. right. cbn. unfold F2R.
    repeat split; try lra; try lia; now left.
  - apply Z.eqb_neq in E0.
    destruct (R =? 2 ^ 53) eqn:E53.
    + apply Z.eqb_eq in E53. subst R.
      destruct (e + 1 <=? 971) eqn:Ee; [|now left].
      apply Z.leb_le in Ee. right. cbn [nonneg_finite B2R cond_Zopp].
      repeat split; try lia.
      unfold F2R. rewrite bpow_succ.
      change (Z.pos (Z.to_pos (2 ^ 52))) with (2 ^ 52).
      change (2 ^ 53) with (2 * 2 ^ 52). rewrite mult_IZR. lra.
    + apply Z.eqb_neq in E53.
      destruct (e <=? 971) eqn:Ee; [|now left].
      apply Z.leb_le in Ee. right. cbn [nonneg_finite B2R cond_Zopp].
      rewrite Z2Pos.id by lia. repeat split; try lia.
Qed.

Lemma round_result_finite_inv (R e : Z) :
  0 <= R <= 2 ^ 53 -> nonneg_finite (round_result R e) ->
  B2R (round_result R e) = F2R R e /\
  (R < 2 ^ 53 -> R = 0 \/ e <= 971) /\ (R = 2 ^ 53 -> e + 1 <= 971).
Proof.
  intros HR Hfin. destruct (round_result_cases R e HR) as [Hinf|[_ H]]; [|exact H].
  rewrite Hinf in Hfin. destruct Hfin.
Qed.

Lemma round_result_finite (R e : Z) :
  0 <= R <= 2 ^ 53 -> (R = 0 \/ (R < 2 ^ 53 /\ e <= 971) \/ e + 1 <= 971) ->
  nonneg_finite (round_result R e).
Proof.
  intros HR He. unfold round_result.
  destruct (R =? 0) eqn:E0; [exact I|]. apply Z.eqb_neq in E0.
  destruct (R =? 2 ^ 53) eqn:E53.
  - destruct (e + 1 <=? 971) eqn:Ee; [exact I|]. apply Z.leb_gt in Ee. lia.
  - destruct (e <=? 971) eqn:Ee; [exact I|]. apply Z.leb_gt in Ee. lia.
Qed.

(** Rounding is monotone: a smaller exact product rounds to a smaller
    float, and does not overflow when the larger one does not. *)
Lemma binary_round_aux_mono (M1 M2 : positive) (E1 E2 : Z) :
  E1 <= target_exp M1 E1 -> E2 <= target_exp M2 E2 ->
  (F2R (Zpos M1) E1 <= F2R (Zpos M2) E2)%R ->
  nonneg_finite (binary_round_aux prec emax false (Zpos M2) E2 loc_Exact) ->
  nonneg_finite (binary_round_aux prec emax false (Zpos M1) E1 loc_Exact) /\
  (B2R (binary_round_aux prec emax false (Zpos M1) E1 loc_Exact) <=
   B2R (binary_round_aux prec emax false (Zpos M2) E2 loc_Exact))%R.
Proof.
  intros HE1 HE2 Hle.
  destruct (binary_round_aux_spec M1 E1 HE1) as (R1 & HR1 & Hne1 & Hlo1 & ->).
  destruct (binary_round_aux_spec M2 E2 HE2) as (R2 & HR2 & Hne2 & Hlo2 & ->).
  pose proof (target_exp_mono M1 M2 E1 E2 Hle) as Hexp.
  set (e1 := target_exp M1 E1) in *. set (e2 := target_exp M2 E2) in *.
  intros Hfin2.
  destruct (round_result_finite_inv R2 e2 HR2 Hfin2) as (Hv2 & Hs2 & Hc2).
  assert (He1 : -1074 <= e1) by (subst e1; unfold_fexp; lia).
  destruct (Z.eq_dec e1 e2) as [Heq|Hneq].
  - (* same target exponent: the significands are ordered *)
    assert (HR : R1 <= R2).
    { apply (nearest_even_mono (Zpos M1) (e1 - E1) R1 (Zpos M2) (e2 - E2) R2);
        try lia; try assumption.
      apply le_IZR.
      assert (H1 : IZR (Zpos M1 * 2 ^ (e2 - E2)) = (F2R (Zpos M1) E1 * bpow (e2 - E2 - E1))%R).
      { rewrite mult_IZR, bpow_IZR by lia. unfold F2R.
        replace (e2 - E2) with (E1 + (e2 - E2 - E1)) at 1 by lia.
        rewrite bpow_add. ring. }
      assert (H2 : IZR (Zpos M2 * 2 ^ (e1 - E1)) = (F2R (Zpos M2) E2 * bpow (e2 - E2 - E1))%R).
      { rewrite mult_IZR, bpow_IZR by lia. unfold F2R.
        replace (e1 - E1) with (E2 + (e2 - E2 - E1)) at 1 by lia.
        rewrite bpow_add. ring. }
      rewrite H1, H2. pose proof (bpow_pos (e2 - E2 - E1)). nra. }
    assert (Hfin1 : nonneg_finite (round_result R1 e1)).
    { apply round_result_finite; [exact HR1|].
      destruct (Z.eq_dec R2 (2 ^ 53)) as [H53|H53]; [specialize (Hc2 H53); lia|].
      destruct Hs2 as [H0|H0]; lia. }
    split; [exact Hfin1|].
    destruct (round_result_finite_inv R1 e1 HR1 Hfin1) as (Hv1 & _ & _).
    rewrite Hv1, Hv2, Heq. unfold F2R.
    pose proof (bpow_pos e2). apply IZR_le in HR. nra.
  - (* strictly smaller target exponent *)
    assert (Hlt : e1 + 1 <= e2) by lia.
    assert (H52 : 2 ^ 52 <= R2) by (apply Hlo2; lia).
    assert (He2 : e2 <= 971).
    { destruct (Z.eq_dec R2 (2 ^ 53)) as [H53|H53]; [specialize (Hc2 H53); lia|].
      destruct Hs2 as [H0|H0]; lia. }
    assert (Hfin1 : nonneg_finite (round_result R1 e1))
      by (apply round_result_finite; [exact HR1|right; right; lia]).
    split; [exact Hfin1|].
    destruct (round_result_finite_inv R1 e1 HR1 Hfin1) as (Hv1 & _ & _).
    rewrite Hv1, Hv2. unfold F2R.
    assert (HA : (IZR R1 * bpow e1 <= IZR (2 ^ 53) * bpow e1)%R).
    { pose proof (bpow_pos e1). assert (IZR R1 <= IZR (2 ^ 53))%R by (apply IZR_le; lia). nra. }
    assert (HB : (IZR (2 ^ 53) * bpow e1 = IZR (2 ^ 52) * bpow (e1 + 1))%R).
    { rewrite bpow_succ. change (2 ^ 53) with (2 * 2 ^ 52). rewrite mult_IZR. lra. }
    assert (HC : (IZR (2 ^ 52) * bpow (e1 + 1) <= IZR R2 * bpow e2)%R).
    { pose proof (bpow_le (e1 + 1) e2 Hlt). pose proof (bpow_pos (e1 + 1)).
      assert (IZR (2 ^ 52) <= IZR R2)%R by (apply IZR_le; lia).
      assert (0 < IZR (2 ^ 52))%R by (apply IZR_lt; lia). nra. }
    lra.
Qed.

Lemma nonneg_finite_is_finite (x : spec_float) : nonneg_finite x -> is_finite_sf x.
Proof. destruct x as [| | |[|]]; simpl; tauto. Qed.

Lemma nonneg_is_finite (x : spec_float) :
  nonneg_sf x -> is_finite_sf x -> nonneg_finite x.
Proof. destruct x as [|[|]| |[|]]; simpl; tauto. Qed.

Lemma B2R_nonneg (x : spec_float) : nonneg_finite x -> (0 <= B2R x)%R.
Proof.
  destruct x as [| | |[|] m e]; simpl; try lra; try tauto.
  intros _. unfold F2R. pose proof (bpow_pos e).
  assert (0 < IZR (Zpos m))%R by (apply IZR_lt; lia). nra.
Qed.

Lemma B2R_pos (m : positive) (e : Z) : (0 < B2R (S754_finite false m e))%R.
Proof.
  simpl. unfold F2R. pose proof (bpow_pos e).
  assert (0 < IZR (Zpos m))%R by (apply IZR_lt; lia). nra.
Qed.

(** What validity says of a finite binary64 float. *)
Lemma bounded_inv (m : positive) (e : Z) :
  SpecFloat.bounded prec emax m e = true ->
  -1074 <= e <= 971 /\ Zpos (digits2_pos m) <= 53 /\
  (-1074 < e -> Zpos (digits2_pos m) = 53).
Proof.
  unfold SpecFloat.bounded, canonical_mantissa. intros H.
  apply andb_true_iff in H as [H1 H2].
  apply Z.eqb_eq in H1. apply Z.leb_le in H2. unfold_fexp. lia.
Qed.

Lemma product_digits (mx my : positive) :
  Zpos (digits2_pos mx) + Zpos (digits2_pos my) - 1 <= Zpos (digits2_pos (mx * my)).
Proof.
  apply digits2_pos_ge.
  destruct (digits2_pos_bounds mx) as [Hx _]. destruct (digits2_pos_bounds my) as [Hy _].
  replace (Zpos (digits2_pos mx) + Zpos (digits2_pos my) - 1 - 1)
    with ((Zpos (digits2_pos mx) - 1) + (Zpos (digits2_pos my) - 1)) by lia.
  rewrite Z.pow_add_r by lia. rewrite Pos2Z.inj_mul.
  pose proof (pow2_pos (Zpos (digits2_pos mx) - 1) ltac:(lia)).
  pose proof (pow2_pos (Zpos (digits2_pos my) - 1) ltac:(lia)).
  nia.
Qed.

(** The exact product of two valid floats has its exponent at or below the
    target exponent, so rounding only ever shifts right. *)
Lemma product_exponent (mx my : positive) (ex ey : Z) :
  SpecFloat.bounded prec emax mx ex = true -> SpecFloat.bounded prec emax my ey = true ->
  ex + ey <= target_exp (mx * my) (ex + ey).
Proof.
  intros Hx Hy.
  apply bounded_inv in Hx as (Hex & Hdx & Hnx).
  apply bounded_inv in Hy as (Hey & Hdy & Hny).
  pose proof (product_digits mx my) as Hd.
  assert (0 < Zpos (digits2_pos mx)) by lia.
  assert (0 < Zpos (digits2_pos my)) by lia.
  unfold_fexp.
  destruct (Z.eq_dec ex (-1074)) as [Hx0|Hx0];
    destruct (Z.eq_dec ey (-1074)) as [Hy0|Hy0]; try lia;
    try specialize (Hnx ltac:(lia)); try specialize (Hny ltac:(lia)); lia.
Qed.

Lemma F2R_mul (mx my : positive) (ex ey : Z) :
  F2R (Zpos (mx * my)) (ex + ey) = (F2R (Zpos mx) ex * F2R (Zpos my) ey)%R.
Proof. unfold F2R. rewrite Pos2Z.inj_mul, mult_IZR, bpow_add. ring. Qed.

Lemma SFmul_is_finite (X Y : spec_float) :
  is_finite_sf (SFmul prec emax X Y) -> is_finite_sf X /\ is_finite_sf Y.
Proof.
  destruct X as [sx|sx| |sx mx ex], Y as [sy|sy| |sy my ey]; simpl; tauto.
Qed.

Lemma binary_round_aux_nonneg (M E : Z) :
  is_finite_sf (binary_round_aux prec emax false M E loc_Exact) ->
  nonneg_finite (binary_round_aux prec emax false M E loc_Exact).
Proof.
  unfold binary_round_aux.
  destruct (shr_fexp prec emax M E loc_Exact) as [st e].
  destruct (shr_fexp prec emax _ e loc_Exact) as [st2 e2].
  destruct (shr_m st2) as [|p|p]; simpl; try tauto.
  destruct (e2 <=? 971); simpl; tauto.
Qed.

Lemma SFmul_nonneg_finite (X Y : spec_float) :
  nonneg_finite X -> nonneg_finite Y -> is_finite_sf (SFmul prec emax X Y) ->
  nonneg_finite (SFmul prec emax X Y).
Proof.
  destruct X as [sx|sx| |[|] mx ex], Y as [sy|sy| |[|] my ey]; simpl; try tauto.
  intros _ _. apply binary_round_aux_nonneg.
Qed.

(** Multiplication of nonnegative finite binary64 floats is monotone in
    both arguments. *)
Lemma SFmul_mono (X X' Y Y' : spec_float) :
  valid_binary X = true -> valid_binary X' = true ->
  valid_binary Y = true -> valid_binary Y' = true ->
  nonneg_finite X -> nonneg_finite X' -> nonneg_finite Y -> nonneg_finite Y' ->
  (B2R X <= B2R X')%R -> (B2R Y <= B2R Y')%R ->
  nonneg_finite (SFmul prec emax X' Y') ->
  nonneg_finite (SFmul prec emax X Y) /\
  (B2R (SFmul prec emax X Y) <= B2R (SFmul prec emax X' Y'))%R.
Proof.
  intros VX VX' VY VY' NX NX' NY NY' HX HY Hfin.
  pose proof (B2R_nonneg _ Hfin) as Hpos.
  destruct X as [sx|sx| |[|] mx ex]; try (destruct NX; fail).
  { destruct Y as [sy|sy| |[|] my ey]; try (destruct NY; fail); simpl; split; trivial. }
  destruct Y as [sy|sy| |[|] my ey]; try (destruct NY; fail).
  { simpl; split; trivial. }
  pose proof (B2R_pos mx ex) as PX. pose proof (B2R_pos my ey) as PY.
  destruct X' as [sx'|sx'| |[|] mx' ex']; try (destruct NX'; fail);
    [cbn [B2R cond_Zopp] in HX, PX; lra|].
  destruct Y' as [sy'|sy'| |[|] my' ey']; try (destruct NY'; fail);
    [cbn [B2R cond_Zopp] in HY, PY; lra|].
  cbn [SFmul xorb] in *. cbn [valid_binary] in VX, VX', VY, VY'.
  apply binary_round_aux_mono; trivial.
  - now apply product_exponent.
  - now apply product_exponent.
  - rewrite !F2R_mul. cbn [B2R cond_Zopp] in HX, HY, PX, PY. nra.
Qed.

(** What the comparison [<=?] tells of nonnegative floats. *)
Lemma SFleb_zero_nonneg (X : spec_float) :
  SFleb (S754_zero false) X = true -> nonneg_sf X.
Proof. destruct X as [s|[|]| |[|] m e]; simpl; trivial; discriminate. Qed.

Lemma SFleb_nonneg (X Y : spec_float) :
  nonneg_sf X -> SFleb X Y = true -> nonneg_sf Y.
Proof.
  destruct X as [sx|[|]| |[|] mx ex], Y as [sy|[|]| |[|] my ey];
    simpl; trivial; try discriminate; tauto.
Qed.

Lemma SFleb_finite (X Y : spec_float) :
  nonneg_sf X -> SFleb X Y = true -> nonneg_finite Y -> nonneg_finite X.
Proof.
  destruct X as [sx|[|]| |[|] mx ex], Y as [sy|[|]| |[|] my ey];
    simpl; trivial; try discriminate; tauto.
Qed.

Lemma SFleb_value (X Y : spec_float) :
  valid_binary X = true -> valid_binary Y = true ->
  nonneg_finite X -> nonneg_finite Y ->
  SFleb X Y = true -> (B2R X <= B2R Y)%R.
Proof.
  intros VX VY NX NY.
  destruct X as [sx|sx| |[|] mx ex]; try (destruct NX; fail).
  { intros _. now apply B2R_nonneg. }
  destruct Y as [sy|sy| |[|] my ey]; try (destruct NY; fail).
  { simpl. discriminate. }
  unfold SFleb, SFcompare. cbn [valid_binary] in VX, VY.
  apply bounded_inv in VX as (Hex & Hdx & Hnx).
  apply bounded_inv in VY as (Hey & Hdy & Hny).
  cbn [B2R cond_Zopp].
  destruct (Z.compare_spec ex ey) as [Heq|Hlt|Hgt]; [| |discriminate].
  - subst ey. rewrite Pos.compare_cont_spec. cbn [Pos.switch_Eq].
    intros H. assert (Hm : (mx <= my)%positive).
    { unfold Pos.le. destruct (mx ?= my)%positive; try discriminate; congruence. }
    unfold F2R. pose proof (bpow_pos ex).
    assert (IZR (Zpos mx) <= IZR (Zpos my))%R by (apply IZR_le; lia). nra.
  - intros _.
    pose proof (F2R_digits_bounds mx ex) as [_ H1].
    pose proof (F2R_digits_bounds my ey) as [H2 _].
    specialize (Hny ltac:(lia)).
    pose proof (bpow_le (Zpos (digits2_pos mx) + ex) (Zpos (digits2_pos my) - 1 + ey) ltac:(lia)).
    lra.
Qed.

(** [0 <= x <= y] on floats, read on their real values. *)
Lemma leb_fle (x y : float) :
  (0 <=? x)%float = true -> (x <=? y)%float = true ->
  nonneg_sf (Prim2SF y) /\ (nonneg_finite (Prim2SF y) -> fle x y).
Proof.
  rewrite !leb_spec. intros H0 Hxy.
  assert (Nx : nonneg_sf (Prim2SF x)) by (apply SFleb_zero_nonneg; exact H0).
  split; [exact (SFleb_nonneg _ _ Nx Hxy)|].
  intros Ny. pose proof (SFleb_finite _ _ Nx Hxy Ny) as Nx'.
  repeat split; trivial.
  apply SFleb_value; trivial; apply Prim2SF_valid.
Qed.

(** Float multiplication is monotone on nonnegative finite floats. *)
Lemma mul_fle (x x' y y' : float) :
  fle x x' -> fle y y' -> is_finite_sf (Prim2SF (x' * y')) ->
  fle (x * y) (x' * y').
Proof.
  intros (Nx & Nx' & Hx) (Ny & Ny' & Hy). unfold fle. rewrite !mul_spec. intros Hfin.
  assert (Hfin' : nonneg_finite (SF64mul (Prim2SF x') (Prim2SF y')))
    by (apply SFmul_nonneg_finite; trivial).
  destruct (SFmul_mono (Prim2SF x) (Prim2SF x') (Prim2SF y) (Prim2SF y'))
    as [H1 H2]; trivial; try apply Prim2SF_valid.
  now repeat split.
Qed.

Lemma mul_is_finite (x y : float) :
  is_finite_sf (Prim2SF (x * y)) ->
  is_finite_sf (Prim2SF x) /\ is_finite_sf (Prim2SF y).
Proof. rewrite mul_spec. apply SFmul_is_finite. Qed.

Lemma int_of_float_is_finite (x : float) (n : Z) :
  int_of_float x = Ret n -> is_finite_sf (Prim2SF x).
Proof. unfold int_of_float. destruct (Prim2SF x); simpl; trivial; discriminate. Qed.

(** [Z.shiftl m e] is the integer part of [m * 2^e]. *)
Lemma shiftl_floor (m : positive) (e : Z) :
  0 <= Z.shiftl (Zpos m) e /\
  (IZR (Z.shiftl (Zpos m) e) <= F2R (Zpos m) e < IZR (Z.shiftl (Zpos m) e) + 1)%R.
Proof.
  destruct (Z.le_gt_cases 0 e) as [He|He].
  - rewrite Z.shiftl_mul_pow2 by assumption.
    pose proof (pow2_pos e He). split; [lia|].
    rewrite mult_IZR, bpow_IZR by assumption. unfold F2R. lra.
  - assert (Hs : Z.shiftl (Zpos m) e = Zpos m / 2 ^ (- e)).
    { replace e with (- (- e)) at 1 by lia.
      rewrite Z.shiftl_opp_r. apply Z.shiftr_div_pow2. lia. }
    rewrite Hs.
    pose proof (pow2_pos (- e) ltac:(lia)) as HP.
    pose proof (Z.div_mod (Zpos m) (2 ^ (- e)) ltac:(lia)) as Hdm.
    pose proof (Z.mod_pos_bound (Zpos m) (2 ^ (- e)) HP) as Hmod.
    set (q := Zpos m / 2 ^ (- e)) in *. set (r := Zpos m mod 2 ^ (- e)) in *.
    assert (0 <= q) by (subst q; apply Z.div_pos; lia).
    split; [assumption|].
    unfold F2R. rewrite Hdm, plus_IZR, mult_IZR, bpow_IZR by lia.
    assert (Hone : (bpow (- e) * bpow e = 1)%R).
    { rewrite <- bpow_add. replace (- e + e) with 0 by lia. reflexivity. }
    pose proof (bpow_pos e) as Hb. pose proof (bpow_pos (- e)) as Hb'.
    assert (Hr0 : (0 <= IZR r)%R) by (apply IZR_le; lia).
    assert (Hr1 : (IZR r < bpow (- e))%R) by (rewrite <- bpow_IZR by lia; apply IZR_lt; lia).
    replace ((bpow (- e) * IZR q + IZR r) * bpow e)%R
      with (IZR q * (bpow (- e) * bpow e) + IZR r * bpow e)%R by ring.
    rewrite Hone.
    assert (IZR r * bpow e < 1)%R.
    { rewrite <- Hone. apply Rmult_lt_compat_r; assumption. }
    assert (0 <= IZR r * bpow e)%R by (apply Rmult_le_pos; lra). lra.
Qed.

(** Truncation of nonnegative finite floats is monotone. *)
Lemma int_of_float_mono (x y : float) (n n' : Z) :
  fle x y -> int_of_float x = Ret n -> int_of_float y = Ret n' -> 0 <= n <= n'.
Proof.
  intros (Nx & Ny & Hle). unfold int_of_float.
  destruct (Prim2SF x) as [sx|sx| |[|] mx ex]; try (destruct Nx; fail);
    destruct (Prim2SF y) as [sy|sy| |[|] my ey]; try (destruct Ny; fail);
    intros [= <-] [= <-]; cbn [cond_Zopp B2R] in *.
  - lia.
  - pose proof (shiftl_floor my ey). lia.
  - pose proof (B2R_pos mx ex) as H. cbn [B2R cond_Zopp] in H. lra.
  - destruct (shiftl_floor mx ex) as [H0 [H1 H2]].
    destruct (shiftl_floor my ey) as [H0' [H1' H2']].
    split; [assumption|].
    apply Z.lt_succ_r. apply lt_IZR. rewrite succ_IZR. lra.
Qed.

Lemma digits2_pos_exact (p : positive) (k : Z) :
  2 ^ (k - 1) <= Zpos p < 2 ^ k -> Zpos (digits2_pos p) = k.
Proof.
  intros [Hlo Hhi].
  pose proof (digits2_pos_le p k Hhi). pose proof (digits2_pos_ge p k Hlo). lia.
Qed.

(** A rounded result is a valid binary64 float. *)
Lemma round_result_valid (R e : Z) :
  0 <= R <= 2 ^ 53 -> -1074 <= e -> (-1074 < e -> 2 ^ 52 <= R) ->
  valid_binary (round_result R e) = true.
Proof.
  intros HR He Hlo. unfold round_result.
  destruct (R =? 0) eqn:E0; [reflexivity|]. apply Z.eqb_neq in E0.
  destruct (R =? 2 ^ 53) eqn:E53.
  - destruct (e + 1 <=? 971) eqn:Ee; [|reflexivity].
    cbn [valid_binary]. unfold SpecFloat.bounded, canonical_mantissa.
    change (Zpos (digits2_pos (Z.to_pos (2 ^ 52)))) with 53.
    apply andb_true_iff. split; [apply Z.eqb_eq; unfold_fexp; lia|exact Ee].
  - apply Z.eqb_neq in E53.
    destruct (e <=? 971) eqn:Ee; [|reflexivity].
    cbn [valid_binary]. unfold SpecFloat.bounded, canonical_mantissa.
    apply andb_true_iff. split; [|exact Ee]. apply Z.eqb_eq.
    destruct (Z.eq_dec e (-1074)) as [He0|He0].
    + assert (Zpos (digits2_pos (Z.to_pos R)) <= 53)
        by (apply digits2_pos_le; rewrite Z2Pos.id by lia; lia).
      unfold_fexp. lia.
    + assert (Zpos (digits2_pos (Z.to_pos R)) = 53).
      { apply digits2_pos_exact. rewrite Z2Pos.id by lia.
        specialize (Hlo ltac:(lia)). change (2 ^ (53 - 1)) with (2 ^ 52). lia. }
      unfold_fexp. lia.
Qed.

Lemma digits2_pos_shift (m d : positive) :
  Zpos (digits2_pos (Pos.iter xO m d)) = Zpos (digits2_pos m) + Zpos d.
Proof.
  induction d as [|d IH] using Pos.peano_ind.
  - cbn [Pos.iter digits2_pos]. lia.
  - rewrite Pos.iter_succ. cbn [digits2_pos]. lia.
Qed.

(** Conversion of a positive integer rounds to a valid nonnegative float
    or overflows. *)
Lemma binary_round_positive (m : positive) (e : Z) :
  valid_binary (binary_round prec emax false m e) = true /\
  (binary_round prec emax false m e = S754_infinity false \/
   nonneg_finite (binary_round prec emax false m e)).
Proof.
  unfold binary_round, shl_align. fold (target_exp m e).
  assert (Hpre : exists mz ez,
             match target_exp m e - e with
             | Z.neg d => (Pos.iter xO m d, target_exp m e)
             | _ => (m, e)
             end = (mz, ez) /\ ez <= target_exp mz ez).
  { destruct (target_exp m e - e) as [|d|d] eqn:Ed.
    - exists m, e. split; [reflexivity|lia].
    - exists m, e. split; [reflexivity|lia].
    - exists (Pos.iter xO m d), (target_exp m e). split; [reflexivity|].
      unfold target_exp at 2. rewrite digits2_pos_shift.
      replace (Z.pos (digits2_pos m) + Z.pos d + target_exp m e)
        with (Z.pos (digits2_pos m) + e) by lia.
      fold (target_exp m e). lia. }
  destruct Hpre as (mz & ez & -> & Hez).
  destruct (binary_round_aux_spec mz ez Hez) as (R & HR & _ & Hlo & ->).
  assert (He : -1074 <= target_exp mz ez) by (unfold_fexp; lia).
  split; [now apply round_result_valid|].
  destruct (round_result_cases R (target_exp mz ez) HR) as [Hinf|[Hfin _]];
    [now left|now right].
Qed.

(** A nonnegative [int] converts to a nonnegative finite float. *)
Lemma float_of_int_nonneg (n : Z) (f : float) :
  0 <= n -> float_of_int n = Ret f -> nonneg_finite (Prim2SF f).
Proof.
  intros Hn. unfold float_of_int, binary_normalize.
  destruct n as [|m|m]; try lia.
  - intros [= <-]. vm_compute. exact I.
  - destruct (binary_round_positive m 0) as [Hv [Hinf|Hfin]].
    + rewrite Hinf. discriminate.
    + intros H.
      assert (Hf : f = SF2Prim (binary_round prec emax false m 0)).
      { destruct (binary_round prec emax false m 0);
          try (destruct Hfin; fail); injection H as <-; reflexivity. }
      rewrite Hf, Prim2SF_SF2Prim by exact Hv. exact Hfin.
Qed.

Lemma fle_refl (x : float) : nonneg_finite (Prim2SF x) -> fle x x.
Proof. intros H. unfold fle. repeat split; trivial. lra. Qed.

Lemma int_of_float_total (x : float) :
  is_finite_sf (Prim2SF x) -> exists n, int_of_float x = Ret n.
Proof.
  unfold int_of_float. destruct (Prim2SF x); simpl; try tauto; intros _; eexists; reflexivity.
Qed.

(** [int(n * zone_mult * car_mult)] is monotone in both multipliers, and
    returns whenever it returns under the larger ones. *)
Lemma scaled_labor_mono (n : Z) (zone_mult zone_mult' car_mult car_mult' : float)
    (a' : Z) :
  0 <= n ->
  (0 <=? zone_mult)%float = true -> (zone_mult <=? zone_mult')%float = true ->
  (0 <=? car_mult)%float = true -> (car_mult <=? car_mult')%float = true ->
  scaled_labor n zone_mult' car_mult' = Ret a' ->
  exists a, scaled_labor n zone_mult car_mult = Ret a /\ 0 <= a <= a'.
Proof.
  intros Hn Hz0 Hz Hc0 Hc. unfold scaled_labor, int_mul_float.
  destruct (float_of_int n) as [f|] eqn:Ef; cbn [bind]; [|discriminate].
  intros Ha'.
  pose proof (float_of_int_nonneg n f Hn Ef) as Nf.
  pose proof (int_of_float_is_finite _ _ Ha') as Hfin.
  destruct (mul_is_finite _ _ Hfin) as [Hfin1 Hfinc].
  destruct (mul_is_finite _ _ Hfin1) as [_ Hfinz].
  destruct (leb_fle _ _ Hz0 Hz) as [Nz' Hfz].
  destruct (leb_fle _ _ Hc0 Hc) as [Nc' Hfc].
  specialize (Hfz (nonneg_is_finite _ Nz' Hfinz)).
  specialize (Hfc (nonneg_is_finite _ Nc' Hfinc)).
  pose proof (mul_fle f f zone_mult zone_mult' (fle_refl f Nf) Hfz Hfin1) as H1.
  pose proof (mul_fle _ _ car_mult car_mult' H1 Hfc Hfin) as H2.
  destruct (int_of_float_total (f * zone_mult * car_mult))
    as [a Ha]; [apply nonneg_finite_is_finite; apply H2|].
  exists a. split; [exact Ha|].
  exact (int_of_float_mono _ _ a a' H2 Ha Ha').
Qed.

(** [int(n * car_mult) if n > 0 else 0] is monotone in the multiplier, and
    returns whenever it returns under the larger one. *)
Lemma scaled_parts_mono (n : Z) (car_mult car_mult' : float) (b' : Z) :
  (0 <=? car_mult)%float = true -> (car_mult <=? car_mult')%float = true ->
  scaled_parts n car_mult' = Ret b' ->
  exists b, scaled_parts n car_mult = Ret b /\ 0 <= b <= b'.
Proof.
  intros Hc0 Hc. unfold scaled_parts, int_mul_float.
  destruct (0 <? n) eqn:En; [|intros [= <-]; exists 0; split; [reflexivity|lia]].
  apply Z.ltb_lt in En.
  destruct (float_of_int n) as [f|] eqn:Ef; cbn [bind]; [|discriminate].
  intros Hb'.
  pose proof (float_of_int_nonneg n f ltac:(lia) Ef) as Nf.
  pose proof (int_of_float_is_finite _ _ Hb') as Hfin.
  destruct (mul_is_finite _ _ Hfin) as [_ Hfinc].
  destruct (leb_fle _ _ Hc0 Hc) as [Nc' Hfc].
  specialize (Hfc (nonneg_is_finite _ Nc' Hfinc)).
  pose proof (mul_fle f f car_mult car_mult' (fle_refl f Nf) Hfc Hfin) as H1.
  destruct (int_of_float_total (f * car_mult))
    as [b Hb]; [apply nonneg_finite_is_finite; apply H1|].
  exists b. split; [exact Hb|].
  exact (int_of_float_mono _ _ b b' H1 Hb Hb').
Qed.

(* ================================================================== *)
(** * Multiplier monotonicity of the standard estimate *)

Lemma leb_refl_nonneg (x : float) :
  (0 <=? x)%float = true -> (x <=? x)%float = true.
Proof.
  rewrite !leb_spec. intros H. apply SFleb_zero_nonneg in H.
  destruct (Prim2SF x) as [s|[|]| |[|] m e]; try (destruct H; fail); try reflexivity.
  unfold SFleb, SFcompare. rewrite Z.compare_refl, Pos.compare_cont_refl. reflexivity.
Qed.

(** For any service with nonnegative labor bounds, lowering both
    multipliers at once: the estimate is still returned and neither bound
    of its total rises. *)
Lemma standard_total_monotone_joint
    (s : service) (l0 l1 : Z)
    (zone_mult zone_mult' car_mult car_mult' : float) (e' : estimate) :
  labor s = Some (Range l0 l1) -> 0 <= l0 -> 0 <= l1 ->
  (0 <=? zone_mult)%float = true -> (zone_mult <=? zone_mult')%float = true ->
  (0 <=? car_mult)%float = true -> (car_mult <=? car_mult')%float = true ->
  standard_estimate s zone_mult' car_mult' = Ret e' ->
  exists e lo hi lo' hi',
    standard_estimate s zone_mult car_mult = Ret e /\
    estimate_total e = Some (lo, hi) /\
    estimate_total e' = Some (lo', hi') /\
    lo <= lo' /\ hi <= hi'.
Proof.
  intros Hl Hl0 Hl1 Hz0 Hz Hc0 Hc He'.
  apply standard_estimate_inv in He'
    as (lab' & plo & phi & pmin' & pmax' & tot' & tm & Hp & Ht & Hmin' & Hmax' & Hlab' & ->).
  rewrite Hl in Hlab'.
  destruct lab' as [lmin' lmax'|]; [|destruct Hlab'].
  destruct Hlab' as (Ha' & Hb' & ->).
  destruct (scaled_labor_mono _ _ _ _ _ _ Hl0 Hz0 Hz Hc0 Hc Ha') as (lmin & Ha & H1).
  destruct (scaled_labor_mono _ _ _ _ _ _ Hl1 Hz0 Hz Hc0 Hc Hb') as (lmax & Hb & H2).
  destruct (scaled_parts_mono _ _ _ _ Hc0 Hc Hmin') as (pmin & Hmin & H3).
  destruct (scaled_parts_mono _ _ _ _ Hc0 Hc Hmax') as (pmax & Hmax & H4).
  unfold standard_estimate.
  rewrite Hl, Hp, Ht. cbn [field bind]. rewrite Ha, Hb. cbn [bind].
  rewrite Hmin, Hmax. cbn [bind estimate_total].
  do 5 eexists. split; [reflexivity|]. split; [reflexivity|]. split; [reflexivity|].
  split; [lia|].
  destruct (0 <? pmax) eqn:E1, (0 <? pmax') eqn:E2;
    try apply Z.ltb_lt in E1; try apply Z.ltb_ge in E1;
    try apply Z.ltb_lt in E2; try apply Z.ltb_ge in E2; lia.
Qed.

(** C8. For every standard service of the catalog and all nonnegative
    multipliers: raising the zone multiplier with the car multiplier held
    fixed, or raising the car multiplier with the zone multiplier held
    fixed, never lowers either bound of the returned total range. The
    multiplications are binary64 multiplications and each bound is
    truncated by [int]; whenever the estimate under the raised multiplier
    is returned, so is the estimate under the original ones. *)
Theorem standard_total_monotone
    (service_key : string) (s : service)
    (zone_mult zone_mult' car_mult car_mult' : float) (e' : estimate) :
  In (service_key, s) (standard_entries load_pricing_matrix) ->
  (0 <=? zone_mult)%float = true -> (0 <=? car_mult)%float = true ->
  ((zone_mult <=? zone_mult')%float = true /\ car_mult' = car_mult) \/
  ((car_mult <=? car_mult')%float = true /\ zone_mult' = zone_mult) ->
  standard_estimate s zone_mult' car_mult' = Ret e' ->
  exists e lo hi lo' hi',
    standard_estimate s zone_mult car_mult = Ret e /\
    estimate_total e = Some (lo, hi) /\
    estimate_total e' = Some (lo', hi') /\
    lo <= lo' /\ hi <= hi'.
Proof.
  intros Hin Hz0 Hc0 Hcases He'.
  destruct catalog_base_ranges_ordered as (_ & _ & _ & Hcat).
  pose proof (forallb_In _ _ Hcat _ Hin) as H. cbn [snd] in H.
  destruct (labor s) as [[l0 l1|?|?]|] eqn:El; try discriminate.
  destruct (parts_range s) as [[p0 p1|?|?]|]; try discriminate.
  apply andb_true_iff in H as [H _]. apply andb_true_iff in H as [H _].
  apply andb_true_iff in H as [H0 H1].
  apply Z.leb_le in H0, H1.
  destruct Hcases as [[Hz ->]|[Hc ->]].
  - apply (standard_total_monotone_joint s l0 l1 zone_mult zone_mult' car_mult car_mult);
      trivial; [lia|now apply leb_refl_nonneg].
  - apply (standard_total_monotone_joint s l0 l1 zone_mult zone_mult car_mult car_mult');
      trivial; [lia|now apply leb_refl_nonneg].
Qed.

(** Witness for C8: battery replacement for a premium make (car
    multiplier 1.4), zone multiplier raised from 1.0 to 1.2: the total
    goes from [10500, 44800] to [10780, 45920]. *)
Lemma standard_total_monotone_witness :
  exists e lo hi lo' hi',
    standard_estimate svc_battery_replacement 1.0%float 1.4%float = Ret e /\
    estimate_total e = Some (lo, hi) /\
    estimate_total
      (EstStandard (LaborRange 1680 6720) (Some (9100, 39200)) (10780, 45920)
         (Range 20 60) (Some "Labor varies based on accessibility and connections"))
      = Some (lo', hi') /\
    lo <= lo' /\ hi <= hi'.
Proof.
  apply (standard_total_monotone "battery_replacement" svc_battery_replacement
           1.0%float 1.2%float 1.4%float 1.4%float).
  - simpl. tauto.
  - reflexivity.
  - reflexivity.
  - left. split; reflexivity.
  - vm_compute. reflexivity.
Defined.

(* ================================================================== *)
(** * Further properties of the template matcher *)

Lemma prefix_spec (a s : string) :
  String.prefix a s = true <-> exists q, s = a ++ q.
Proof.
  revert s. induction a as [|c a IH]; intros s.
  - split; [intros _; now exists s|destruct s; reflexivity].
  - destruct s as [|d s]; simpl.
    + split; [discriminate|intros [q Hq]; discriminate].
    + destruct (ascii_dec c d) as [->|Hne].
      * rewrite IH. split; intros [q Hq]; exists q; [now subst|now injection Hq].
      * split; [discriminate|]. intros [q Hq]. injection Hq as Hc _. now elim Hne.
Qed.

(** [contains] is the substring relation. *)
Lemma contains_spec (sub s : string) :
  contains sub s = true <-> exists p q, s = p ++ sub ++ q.
Proof.
  induction s as [|c s IH]; rewrite contains_unfold.
  - destruct (String.prefix sub "") eqn:E.
    + split; [intros _|reflexivity]. apply prefix_spec in E as [q Hq]. now exists "", q.
    + split; [discriminate|]. intros (p & q & H).
      destruct p; [|discriminate].
      assert (String.prefix sub "" = true) by (apply prefix_spec; now exists q).
      congruence.
  - destruct (String.prefix sub (String c s)) eqn:E.
    + split; [intros _|reflexivity]. apply prefix_spec in E as [q Hq]. now exists "", q.
    + rewrite IH. split.
      * intros (p & q & ->). now exists (String c p), q.
      * intros (p & q & H). destruct p as [|d p].
        -- assert (String.prefix sub (String c s) = true) by (apply prefix_spec; now exists q).
           congruence.
        -- injection H as _ ->. now exists p, q.
Qed.

Lemma append_assoc (a b c : string) : (a ++ b) ++ c = a ++ b ++ c.
Proof. induction a as [|x a IH]; simpl; [reflexivity|now rewrite IH]. Qed.

Lemma contains_extend (sub s a b : string) :
  contains sub s = true -> contains sub (a ++ s ++ b) = true.
Proof.
  intros H. apply contains_spec in H as (p & q & ->). apply contains_spec.
  exists (a ++ p), (q ++ b). now rewrite !append_assoc.
Qed.

Lemma is_ascii_append (a b : string) :
  is_ascii (a ++ b) = is_ascii a && is_ascii b.
Proof.
  induction a as [|c a IH]; [reflexivity|].
  cbn [append is_ascii]. rewrite IH. now rewrite andb_assoc.
Qed.

Lemma ascii_lower_append (a b : string) :
  ascii_lower (a ++ b) = ascii_lower a ++ ascii_lower b.
Proof. induction a as [|c a IH]; simpl; [reflexivity|now rewrite IH]. Qed.

(** On ASCII strings [lower] goes through concatenation. (In general it
    does not: a capital sigma is lower-cased by what follows it.) *)
Lemma lower_append_ascii (a b : string) :
  is_ascii (a ++ b) = true -> lower (a ++ b) = lower a ++ lower b.
Proof.
  intros H. unfold lower. rewrite H.
  rewrite is_ascii_append in H. apply andb_true_iff in H as [-> ->].
  apply ascii_lower_append.
Qed.

Lemma decode_nonempty (s : string) : s <> "" -> decode s <> [].
Proof.
  destruct s as [|a0 r0]; [congruence|]. intros _. cbn [decode].
  repeat match goal with
         | |- (if ?b then _ else _) <> _ => destruct b
         | |- match ?r with EmptyString => _ | String _ _ => _ end <> _ => destruct r
         | |- (let _ := _ in _) <> _ => cbv zeta
         end; discriminate.
Qed.

Lemma encode_code_point_nonempty (c : Z) : encode_code_point c <> [].
Proof.
  unfold encode_code_point.
  repeat match goal with |- (if ?b then _ else _) <> _ => destruct b end; discriminate.
Qed.

Lemma lower_ucs4_nonempty (before : list Z) (c : Z) (after : list Z) :
  lower_ucs4 before c after <> [].
Proof.
  unfold lower_ucs4, to_lower_full.
  destruct (c =? 931); [discriminate|].
  destruct (c =? 304); [discriminate|].
  destruct (find _ _) as [[[[? ?] ?] ?]|]; discriminate.
Qed.

Lemma contains_in_empty (sub : string) : contains sub "" = true <-> sub = "".
Proof. destruct sub; simpl; split; trivial; discriminate. Qed.

Lemma lower_empty (s : string) : lower s = "" <-> s = "".
Proof.
  split; [|intros ->; reflexivity].
  unfold lower. destruct (is_ascii s).
  - destruct s; [reflexivity|discriminate].
  - intros H. destruct s as [|a r]; [reflexivity|exfalso].
    pose proof (decode_nonempty (String a r) ltac:(discriminate)) as Hd.
    destruct (decode (String a r)) as [|c l]; [congruence|].
    cbn [do_lower] in H. unfold encode in H.
    pose proof (lower_ucs4_nonempty [] c l) as Hl.
    destruct (lower_ucs4 [] c l) as [|d m]; [congruence|].
    cbn [app flat_map] in H.
    pose proof (encode_code_point_nonempty d) as He.
    destruct (encode_code_point d); [congruence|discriminate].
Qed.

(** [lower] outside ASCII: the Kelvin sign folds to [k], the dotted
    capital I to [i] and a combining dot, and a capital sigma to the
    final or the medial small sigma by its position. *)
Lemma lower_outside_ascii :
  lower (encode [8490]) = "k" /\
  lower (encode [304]) = encode [105; 775] /\
  lower (encode [913; 931]) = encode [945; 962] /\
  lower (encode [913; 931; 913]) = encode [945; 963; 945].
Proof. repeat split; vm_compute; reflexivity. Qed.

(** So [lower] does not go through concatenation in general. *)
Lemma lower_append_outside_ascii :
  lower (encode [913; 931] ++ encode [913]) <>
  lower (encode [913; 931]) ++ lower (encode [913]).
Proof. vm_compute. discriminate. Qed.

(** A description spelt with the Kelvin sign for [K] matches the keyword
    ["spongy brakes"], and a location spelt with it resolves as Karen. *)
Lemma kelvin_sign_matches :
  query_knowledge_base ("SPONGY BRA" ++ encode [8490] ++ "ES") load_skill_files =
    SUCCESS tpl_brake_soft (confidence tpl_brake_soft) ["spongy brakes"] /\
  calculate_boda_pricing (encode [8490] ++ "AREN") "normal" load_pricing_matrix =
  calculate_boda_pricing "Karen" "normal" load_pricing_matrix.
Proof. split; vm_compute; reflexivity. Qed.

Lemma template_score_nonneg (text : string) (t : template) : 0 <= template_score text t.
Proof. destruct (template_score_count text t) as [-> _]. lia. Qed.

Lemma match_of_cases (text : string) (t : template) :
  (template_score text t = 0 /\ match_of (lower text) t = [] /\
   forall k, In k (keywords t) -> contains (lower k) (lower text) = false) \/
  (0 < template_score text t /\
   match_of (lower text) t =
     [{| tm_template := t; score := template_score text t;
         matched_keywords := occurring_keywords text t |}]).
Proof.
  destruct (template_score_count text t) as [Hs Hh].
  unfold match_of. unfold template_score, template_hits in Hs, Hh.
  destruct (scan_keywords (lower text) (keywords t) (0, [])) as [n matched] eqn:E.
  cbn [fst snd] in Hs, Hh. subst matched.
  destruct (0 <? n) eqn:En.
  - right. apply Z.ltb_lt in En. unfold template_score. rewrite E. cbn [fst].
    split; [exact En|reflexivity].
  - left. apply Z.ltb_ge in En. unfold template_score. rewrite E. cbn [fst].
    assert (Hn : n = 0) by lia. split; [exact Hn|]. split; [reflexivity|].
    intros k Hk. unfold occurring_keywords in Hs.
    destruct (contains (lower k) (lower text)) eqn:Ec; [|reflexivity].
    assert (Hin : In k (filter (fun k => contains (lower k) (lower text)) (keywords t)))
      by (apply filter_In; now split).
    destruct (filter _ (keywords t)); [destruct Hin|simpl in Hs; lia].
Qed.

(** Every nonempty list of matches has a first entry of maximal score. *)
Lemma first_maximum_exists (ms : list template_match) :
  ms <> [] ->
  exists a x b, ms = (a ++ x :: b)%list /\
    (forall y, In y a -> score y < score x) /\
    (forall y, In y b -> score y <= score x).
Proof.
  induction ms as [|m ms IH]; [congruence|intros _].
  destruct ms as [|m' ms].
  - exists [], m, []. repeat split; intros y [].
  - destruct IH as (a & x & b & Hms & Ha & Hb); [discriminate|].
    destruct (Z.le_gt_cases (score x) (score m)) as [Hle|Hgt].
    + exists [], m, (m' :: ms). split; [reflexivity|]. split; [intros y []|].
      intros y Hy. rewrite Hms in Hy. apply in_app_or in Hy as [Hy|[<-|Hy]].
      * specialize (Ha y Hy). lia.
      * exact Hle.
      * specialize (Hb y Hy). lia.
    + exists (m :: a), x, b. split; [simpl; now rewrite Hms|]. split; [|exact Hb].
      intros y [<-|Hy]; [lia|now apply Ha].
Qed.

(** A split of the matches comes from a split of the templates. *)
Lemma flat_map_match_of_split (text : string) (ts : list template)
    (a b : list template_match) (x : template_match) :
  flat_map (match_of (lower text)) ts = (a ++ x :: b)%list ->
  exists before t after,
    ts = (before ++ t :: after)%list /\
    flat_map (match_of (lower text)) before = a /\
    match_of (lower text) t = [x] /\
    flat_map (match_of (lower text)) after = b.
Proof.
  revert a. induction ts as [|u ts IH]; intros a H.
  - destruct a; discriminate.
  - simpl in H.
    destruct (match_of_cases text u) as [(_ & Hu & _)|(_ & Hu)]; rewrite Hu in H.
    + destruct (IH a H) as (before & t & after & -> & H1 & H2 & H3).
      exists (u :: before), t, after. simpl. rewrite Hu, H1. now repeat split.
    + simpl in H. destruct a as [|y a].
      * injection H as <- <-. exists [], u, ts. now repeat split.
      * injection H as <- H.
        destruct (IH a H) as (before & t & after & -> & H1 & H2 & H3).
        exists (u :: before), t, after. simpl. rewrite Hu, H1. now repeat split.
Qed.

Lemma flat_map_match_of_score (text : string) (ts : list template)
    (u : template) (bound : Z) :
  0 < bound -> In u ts ->
  (forall y, In y (flat_map (match_of (lower text)) ts) -> score y < bound) ->
  template_score text u < bound.
Proof.
  intros Hb Hu H.
  destruct (match_of_cases text u) as [(H0 & _ & _)|(_ & Hm)]; [lia|].
  apply (H {| tm_template := u; score := template_score text u;
              matched_keywords := occurring_keywords text u |}).
  apply in_flat_map. exists u. split; [exact Hu|]. rewrite Hm. now left.
Qed.

(** The outcome of a query, in full. *)
Lemma query_outcome (kb : knowledge_base) (text : string) :
  (query_knowledge_base text kb =
     DATA_MISSING
       "I don't have enough information to diagnose this specific issue."
       "Book a diagnostic scan with our mobile mechanic for proper assessment."
       "N/A" /\
   forall t k, In t (templates kb) -> In k (keywords t) ->
               contains (lower k) (lower text) = false) \/
  (exists before t after,
     templates kb = (before ++ t :: after)%list /\
     0 < template_score text t /\
     (forall u, In u before -> template_score text u < template_score text t) /\
     (forall u, In u after -> template_score text u <= template_score text t) /\
     query_knowledge_base text kb =
       SUCCESS t (confidence t) (occurring_keywords text t)).
Proof.
  unfold query_knowledge_base. rewrite scan_templates_flat_map. cbn [app].
  destruct (flat_map (match_of (lower text)) (templates kb)) as [|m ms] eqn:E.
  - left. split; [reflexivity|]. intros t k Ht Hk.
    destruct (match_of_cases text t) as [(_ & _ & H)|(_ & Hm)]; [now apply H|].
    assert (Hin : In {| tm_template := t; score := template_score text t;
                        matched_keywords := occurring_keywords text t |}
                     (flat_map (match_of (lower text)) (templates kb))).
    { apply in_flat_map. exists t. split; [exact Ht|]. rewrite Hm. now left. }
    rewrite E in Hin. destruct Hin.
  - right.
    destruct (first_maximum_exists (m :: ms)) as (a & x & b & Hms & Ha & Hb); [discriminate|].
    rewrite Hms in E.
    destruct (flat_map_match_of_split text _ a b x E)
      as (before & t & after & Hts & H1 & H2 & H3).
    destruct (match_of_cases text t) as [(_ & Hm & _)|(Hpos & Hm)];
      rewrite Hm in H2; [discriminate|].
    injection H2 as <-. cbn [score] in Ha, Hb.
    exists before, t, after. split; [exact Hts|]. split; [exact Hpos|].
    split.
    { intros u Hu. apply (flat_map_match_of_score text before u _ Hpos Hu).
      rewrite H1. exact Ha. }
    split.
    { intros u Hu.
      destruct (match_of_cases text u) as [(H0 & _ & _)|(_ & Hmu)]; [lia|].
      apply (Hb {| tm_template := u; score := template_score text u;
                   matched_keywords := occurring_keywords text u |}).
      rewrite <- H3. apply in_flat_map. exists u. split; [exact Hu|].
      rewrite Hmu. now left. }
    rewrite Hms.
    destruct (sort_desc_first_max a b
                {| tm_template := t; score := template_score text t;
                   matched_keywords := occurring_keywords text t |} Ha Hb) as [rest ->].
    reflexivity.
Qed.

(** X1. Whenever the matcher returns a template, that template is the
    first one of maximal score in catalog order, its score is positive,
    the reported confidence is its own and the reported keywords are
    exactly its keywords that occur in the text, in catalog order. *)
Theorem query_success_is_first_maximum
    (kb : knowledge_base) (text : string) (t : template) (c : string)
    (kws : list string) :
  query_knowledge_base text kb = SUCCESS t c kws ->
  exists before after,
    templates kb = (before ++ t :: after)%list /\
    0 < template_score text t /\
    (forall u, In u before -> template_score text u < template_score text t) /\
    (forall u, In u after -> template_score text u <= template_score text t) /\
    c = confidence t /\
    kws = occurring_keywords text t /\
    template_score text t = Z.of_nat (List.length kws).
Proof.
  intros H.
  destruct (query_outcome kb text) as [[Hq _]|(before & t' & after & Hts & Hpos & Hb & Ha & Hq)];
    rewrite Hq in H; [discriminate|].
  injection H as <- <- <-.
  exists before, after. repeat split; trivial.
  now destruct (template_score_count text t') as [-> _].
Qed.

(** Witness for X1. *)
Lemma query_success_witness :
  exists before after,
    templates load_skill_files = (before ++ tpl_battery_dead :: after)%list /\
    0 < template_score "My car won't start, makes clicking sound" tpl_battery_dead /\
    (forall u, In u before ->
       template_score "My car won't start, makes clicking sound" u <
       template_score "My car won't start, makes clicking sound" tpl_battery_dead) /\
    (forall u, In u after ->
       template_score "My car won't start, makes clicking sound" u <=
       template_score "My car won't start, makes clicking sound" tpl_battery_dead) /\
    "HIGH" = confidence tpl_battery_dead /\
    ["won't start"; "clicking sound"] =
      occurring_keywords "My car won't start, makes clicking sound" tpl_battery_dead /\
    template_score "My car won't start, makes clicking sound" tpl_battery_dead =
      Z.of_nat (List.length ["won't start"; "clicking sound"]).
Proof.
  apply (query_success_is_first_maximum load_skill_files
           "My car won't start, makes clicking sound" tpl_battery_dead "HIGH"
           ["won't start"; "clicking sound"]).
  vm_compute. reflexivity.
Defined.

(** X2. The matcher answers DATA_MISSING exactly when no keyword of any
    template occurs in the text; as soon as one keyword occurs it returns
    a template. *)
Theorem query_data_missing_iff (kb : knowledge_base) (text : string) :
  (exists m r c, query_knowledge_base text kb = DATA_MISSING m r c) <->
  ~ some_keyword_occurs text (templates kb).
Proof.
  split.
  - intros (m & r & c & H) (t & k & Ht & Hk & Hc).
    destruct (query_outcome kb text) as [[_ Hno]|(before & t' & after & _ & _ & _ & _ & Hq)].
    + rewrite (Hno t k Ht Hk) in Hc. discriminate.
    + rewrite Hq in H. discriminate.
  - intros Hno.
    destruct (query_outcome kb text) as [[Hq _]|(before & t & after & Hts & Hpos & _ & _ & _)].
    + do 3 eexists. exact Hq.
    + exfalso. apply Hno.
      destruct (match_of_cases text t) as [(H0 & _)|_]; [lia|].
      destruct (template_score_count text t) as [Hs _]. rewrite Hs in Hpos.
      unfold occurring_keywords in Hpos.
      destruct (filter _ (keywords t)) as [|k ks] eqn:Ef; [simpl in Hpos; lia|].
      assert (Hk : In k (filter (fun k => contains (lower k) (lower text)) (keywords t)))
        by (rewrite Ef; now left).
      apply filter_In in Hk as [Hk Hc].
      exists t, k. rewrite Hts. split; [apply in_elt|]. now split.
Qed.

(** X3. On an empty description the matcher answers DATA_MISSING, as long
    as no template has the empty string among its keywords (an empty
    keyword would occur in every text). *)
Theorem query_empty_text (kb : knowledge_base) :
  (forall t, In t (templates kb) -> ~ In "" (keywords t)) ->
  query_knowledge_base "" kb =
    DATA_MISSING
      "I don't have enough information to diagnose this specific issue."
      "Book a diagnostic scan with our mobile mechanic for proper assessment."
      "N/A".
Proof.
  intros H.
  destruct (query_outcome kb "") as [[Hq _]|(before & t & after & Hts & Hpos & _ & _ & _)];
    [exact Hq|exfalso].
  destruct (match_of_cases "" t) as [(H0 & _)|_]; [lia|].
  destruct (template_score_count "" t) as [Hs _]. rewrite Hs in Hpos.
  unfold occurring_keywords in Hpos.
  destruct (filter _ (keywords t)) as [|k ks] eqn:Ef; [simpl in Hpos; lia|].
  assert (Hk : In k (filter (fun k => contains (lower k) (lower "")) (keywords t)))
    by (rewrite Ef; now left).
  apply filter_In in Hk as [Hk Hc]. cbn [lower] in Hc.
  apply (proj1 (contains_in_empty _)) in Hc. apply (proj1 (lower_empty _)) in Hc. subst k.
  apply (H t); [rewrite Hts; apply in_elt|exact Hk].
Qed.

(** Witness for X3: the catalog has no empty keyword. *)
Lemma query_empty_text_witness :
  query_knowledge_base "" load_skill_files =
    DATA_MISSING
      "I don't have enough information to diagnose this specific issue."
      "Book a diagnostic scan with our mobile mechanic for proper assessment."
      "N/A".
Proof.
  apply query_empty_text.
  intros t Ht Hin.
  assert (H : forallb (fun t => negb (mem "" (keywords t))) (templates load_skill_files) = true)
    by (vm_compute; reflexivity).
  apply (forallb_In _ _ H) in Ht. apply negb_true_iff in Ht.
  unfold mem in Ht.
  rewrite (existsb_In _ _ "" Hin (String.eqb_refl "")) in Ht. discriminate.
Defined.

Lemma filter_length_le {A : Type} (f g : A -> bool) (l : list A) :
  (forall x, f x = true -> g x = true) ->
  (List.length (filter f l) <= List.length (filter g l))%nat.
Proof.
  intros H. induction l as [|x l IH]; simpl; [lia|].
  destruct (f x) eqn:Ef.
  - rewrite (H x Ef). simpl. lia.
  - destruct (g x); simpl; lia.
Qed.

(** X4. Adding ASCII text before or after an ASCII description never
    lowers the score of any template, so a description that matched still
    matches (possibly another template). (Outside ASCII the lower-casing
    of a letter can depend on what follows it.) *)
Theorem query_extension_keeps_match
    (kb : knowledge_base) (text before after : string) :
  is_ascii (before ++ text ++ after) = true ->
  (forall u, template_score text u <= template_score (before ++ text ++ after) u) /\
  ((exists t c kws, query_knowledge_base text kb = SUCCESS t c kws) ->
   exists t c kws,
     query_knowledge_base (before ++ text ++ after) kb = SUCCESS t c kws).
Proof.
  intros Hascii.
  assert (Hkw : forall k, contains (lower k) (lower text) = true ->
                          contains (lower k) (lower (before ++ text ++ after)) = true).
  { intros k Hk. rewrite (lower_append_ascii _ _ Hascii).
    rewrite is_ascii_append in Hascii. apply andb_true_iff in Hascii as [_ Hascii].
    rewrite (lower_append_ascii _ _ Hascii). now apply contains_extend. }
  split.
  - intros u.
    destruct (template_score_count text u) as [-> _].
    destruct (template_score_count (before ++ text ++ after) u) as [-> _].
    apply inj_le. unfold occurring_keywords. apply filter_length_le. exact Hkw.
  - intros (t & c & kws & Hq).
    destruct (query_outcome kb text) as [[Hq' _]|(b & t' & a & Hts & Hpos & _ & _ & _)];
      [rewrite Hq' in Hq; discriminate|].
    destruct (query_outcome kb (before ++ text ++ after))
      as [[_ Hno]|(b2 & t2 & a2 & _ & _ & _ & _ & Hq2)];
      [exfalso|do 3 eexists; exact Hq2].
    destruct (match_of_cases text t') as [(H0 & _)|_]; [lia|].
    destruct (template_score_count text t') as [Hs _]. rewrite Hs in Hpos.
    unfold occurring_keywords in Hpos.
    destruct (filter _ (keywords t')) as [|k ks] eqn:Ef; [simpl in Hpos; lia|].
    assert (Hk : In k (filter (fun k => contains (lower k) (lower text)) (keywords t')))
      by (rewrite Ef; now left).
    apply filter_In in Hk as [Hk Hc].
    specialize (Hkw k Hc).
    rewrite (Hno t' k) in Hkw; [discriminate| |exact Hk].
    rewrite Hts. apply in_elt.
Qed.

(** Witness for X4: a matching description inside a longer sentence. *)
Lemma query_extension_witness :
  (forall u, template_score "spongy brakes" u <=
             template_score ("Since Monday my " ++ "spongy brakes" ++ " downhill") u) /\
  ((exists t c kws,
      query_knowledge_base "spongy brakes" load_skill_files = SUCCESS t c kws) ->
   exists t c kws,
     query_knowledge_base ("Since Monday my " ++ "spongy brakes" ++ " downhill")
       load_skill_files = SUCCESS t c kws).
Proof.
  apply query_extension_keeps_match. reflexivity.
Defined.

(** X5. No template of the catalog is dead: each one is returned for the
    text made of its own keywords. *)
Theorem every_template_reachable (t : template) :
  In t load_diagnostic_templates ->
  query_knowledge_base (keywords_text t) load_skill_files =
    SUCCESS t (confidence t) (keywords t).
Proof.
  intros H.
  cbv [load_diagnostic_templates In] in H.
  repeat (destruct H as [<-|H]; [vm_compute; reflexivity|]).
  destruct H.
Qed.

(** Witness for X5. *)
Lemma every_template_reachable_witness :
  query_knowledge_base (keywords_text tpl_car_wont_start_fuel) load_skill_files =
    SUCCESS tpl_car_wont_start_fuel (confidence tpl_car_wont_start_fuel)
            (keywords tpl_car_wont_start_fuel).
Proof.
  apply every_template_reachable. simpl. tauto.
Defined.

(* ================================================================== *)
(** * Further properties of the road resolver *)

Lemma search_roads_unmatched (location_lower : string) (roads : list (string * road_data)) :
  (forall x, In x (all_bands roads) -> band_matches location_lower x = false) ->
  search_roads location_lower roads (None, None) = (None, None).
Proof.
  induction roads as [|[road_name rd] roads IH]; intros H; [reflexivity|].
  simpl. rewrite search_bands_find.
  assert (Hnone : find (band_matches location_lower)
                    (map (fun '(distance_range, estate_list) =>
                            (road_name, distance_range, estate_list)) (estates rd)) = None).
  { destruct (find _ _) as [x|] eqn:E; [|reflexivity].
    apply find_some in E as [Hin Hhit].
    rewrite H in Hhit; [discriminate|].
    unfold all_bands. simpl. apply in_or_app. now left. }
  rewrite Hnone. simpl. apply IH.
  intros x Hx. apply H. unfold all_bands. simpl. apply in_or_app. now right.
Qed.

(** X6. A location that is in bidirectional containment with no estate of
    any band gets the fallback context: range [300, 500], road "unknown",
    traffic factor 1.0, whatever the time of day and the road table. *)
Theorem unmatched_location_falls_back
    (pm : pricing_matrix) (location time_of_day : string) :
  (forall x, In x (all_bands (road_network pm)) ->
             band_matches (lower location) x = false) ->
  calculate_boda_pricing location time_of_day pm =
    Ret {| boda_cost := (300, 500);
           road := "unknown";
           distance_km := "estimated 10-15km";
           traffic_factor := 1.0%float;
           boda_note := "Location not in coverage map. Using estimated pricing." |}.
Proof.
  intros H. unfold calculate_boda_pricing.
  rewrite (search_roads_unmatched _ _ H). reflexivity.
Qed.

(** Witness for X6. *)
Lemma unmatched_location_witness :
  calculate_boda_pricing "Timbuktu" "peak" load_pricing_matrix =
    Ret {| boda_cost := (300, 500);
           road := "unknown";
           distance_km := "estimated 10-15km";
           traffic_factor := 1.0%float;
           boda_note := "Location not in coverage map. Using estimated pricing." |}.
Proof.
  apply unmatched_location_falls_back.
  intros x Hx. apply negb_true_iff. revert x Hx. apply forallb_In.
  vm_compute. reflexivity.
Defined.

Lemma catalog_traffic_tables (r : string) (rd : road_data) :
  In (r, rd) (road_network load_pricing_matrix) -> traffic_table_ok rd = true.
Proof.
  intros H.
  assert (Hall : forallb (fun x => traffic_table_ok (snd x))
                         (road_network load_pricing_matrix) = true)
    by (vm_compute; reflexivity).
  exact (forallb_In _ _ Hall _ H).
Qed.

Lemma traffic_not_peak (rd : road_data) (time_of_day : string) :
  traffic_table_ok rd = true -> time_of_day <> "peak" ->
  get (traffic_multiplier rd) time_of_day 1.0%float =
  get (traffic_multiplier rd) "normal" 1.0%float.
Proof.
  unfold traffic_table_ok. intros H Hne.
  destruct (traffic_multiplier rd) as [|[k1 m1] [|[k2 m2] [|? ?]]]; try discriminate.
  apply andb_true_iff in H as [H H3]. apply andb_true_iff in H as [H1 H2].
  apply String.eqb_eq in H1, H2. apply (proj1 (FloatAxioms.Leibniz.eqb_spec _ _)) in H3. subst.
  unfold get. cbn [lookup].
  destruct (String.eqb time_of_day "peak") eqn:E1;
    [apply String.eqb_eq in E1; contradiction|].
  destruct (String.eqb time_of_day "normal"); reflexivity.
Qed.

(** X7. Only the exact string ["peak"] selects the peak traffic
    multiplier: under every other time of day (["PEAK"], ["rush"], the
    empty string) a location is priced exactly as at ["normal"]. *)
Theorem only_peak_changes_boda_pricing (location time_of_day : string) :
  time_of_day <> "peak" ->
  calculate_boda_pricing location time_of_day load_pricing_matrix =
  calculate_boda_pricing location "normal" load_pricing_matrix.
Proof.
  intros Hne.
  pose proof (catalog_boda_pricing location time_of_day) as H1.
  pose proof (catalog_boda_pricing location "normal") as H2.
  destruct (first_match _ _) as [[r b]|]; [|now rewrite H1, H2].
  destruct H1 as (rd & adj & Hrd & Hadj & _ & ->).
  destruct H2 as (rd' & adj' & Hrd' & Hadj' & _ & ->).
  rewrite Hrd in Hrd'. injection Hrd' as <-.
  apply lookup_In in Hrd.
  rewrite (traffic_not_peak rd time_of_day (catalog_traffic_tables r rd Hrd) Hne) in *.
  rewrite Hadj in Hadj'. injection Hadj' as <-. reflexivity.
Qed.

(** Witness for X7: upper-case ["PEAK"] is priced as normal. *)
Lemma only_peak_witness :
  calculate_boda_pricing "Westlands" "PEAK" load_pricing_matrix =
  calculate_boda_pricing "Westlands" "normal" load_pricing_matrix.
Proof.
  apply only_peak_changes_boda_pricing. discriminate.
Defined.

Lemma catalog_band_bounds :
  forallb (band_bounds_ok (road_network load_pricing_matrix))
          (all_bands (road_network load_pricing_matrix)) = true.
Proof. vm_compute. reflexivity. Qed.

(** X8. For every location the resolver returns at both times of day, on
    the same road and band; the normal range lies within [150, 800]; the
    peak range is bound by bound at least the normal one and never exceeds
    1280. *)
Theorem boda_pricing_bounds (location : string) :
  exists normal peak,
    calculate_boda_pricing location "normal" load_pricing_matrix = Ret normal /\
    calculate_boda_pricing location "peak" load_pricing_matrix = Ret peak /\
    road normal = road peak /\ distance_km normal = distance_km peak /\
    150 <= fst (boda_cost normal) <= snd (boda_cost normal) /\
    snd (boda_cost normal) <= 800 /\
    fst (boda_cost normal) <= fst (boda_cost peak) /\
    snd (boda_cost normal) <= snd (boda_cost peak) /\
    snd (boda_cost peak) <= 1280.
Proof.
  pose proof (catalog_boda_pricing location "normal") as H1.
  pose proof (catalog_boda_pricing location "peak") as H2.
  destruct (first_match _ _) as [[r b]|] eqn:E.
  - destruct H1 as (rd & adj & Hrd & Hadj & _ & ->).
    destruct H2 as (rd' & adj' & Hrd' & Hadj' & _ & ->).
    rewrite Hrd in Hrd'. injection Hrd' as <-.
    apply first_match_In in E as (es & Hin & _).
    pose proof (forallb_In _ _ catalog_band_bounds _ Hin) as Hok.
    unfold band_bounds_ok in Hok. rewrite Hrd, Hadj, Hadj' in Hok.
    destruct adj as [nlo nhi], adj' as [plo phi].
    repeat (apply andb_true_iff in Hok as [Hok ?]).
    repeat match goal with H : (_ <=? _) = true |- _ => apply Z.leb_le in H end.
    do 2 eexists. split; [reflexivity|]. split; [reflexivity|].
    cbn [road distance_km boda_cost fst snd]. repeat split; trivial.
  - rewrite H1, H2. do 2 eexists. split; [reflexivity|]. split; [reflexivity|].
    cbn. repeat split; lia.
Qed.

Lemma In_lookup {V : Type} (d : list (string * V)) (k : string) (v : V) :
  NoDup (map fst d) -> In (k, v) d -> lookup k d = Some v.
Proof.
  induction d as [|[k' v'] d IH]; simpl; intros Hnd H; [destruct H|].
  inversion Hnd as [|? ? Hk Hd]; subst.
  destruct (String.eqb k k') eqn:E.
  - apply String.eqb_eq in E. subst k'.
    destruct H as [H|H]; [congruence|].
    elim Hk. apply (in_map fst) in H. exact H.
  - destruct H as [H|H]; [|now apply IH].
    injection H as -> _. rewrite String.eqb_refl in E. discriminate.
Qed.

Lemma catalog_display_names (r : string) (rd : road_data) :
  In (r, rd) (road_network load_pricing_matrix) -> display_name r <> "unknown".
Proof.
  intros H Hu.
  assert (Hall : forallb (fun x => negb (String.eqb (display_name (fst x)) "unknown"))
                         (road_network load_pricing_matrix) = true)
    by (vm_compute; reflexivity).
  apply (forallb_In _ _ Hall) in H. cbn [fst] in H. rewrite Hu in H. discriminate.
Qed.

(** X9. A location resolves to a road of the table, never to the
    fallback, as soon as it is in bidirectional containment with one
    listed estate: in particular when it contains an estate name amid
    other text, or is a fragment of one. *)
Theorem matching_location_resolves
    (road_name : string) (rd : road_data) (distance_range : string)
    (estate_list : list string) (estate location time_of_day : string) :
  In (road_name, rd) (road_network load_pricing_matrix) ->
  In (distance_range, estate_list) (estates rd) ->
  In estate estate_list ->
  estate_matches (lower location) estate = true ->
  exists info r rd',
    calculate_boda_pricing location time_of_day load_pricing_matrix = Ret info /\
    In (r, rd') (road_network load_pricing_matrix) /\
    road info = display_name r /\
    road info <> "unknown" /\
    In (distance_km info) (map fst (estates rd')).
Proof.
  intros Hr Hb He Hm.
  pose proof (catalog_boda_pricing location time_of_day) as H.
  destruct (first_match _ _) as [[r b]|] eqn:E.
  - destruct H as (rd' & adj & Hrd & _ & _ & ->).
    apply lookup_In in Hrd.
    apply first_match_In in E as (es & Hin & _).
    eexists. exists r, rd'. split; [reflexivity|]. split; [exact Hrd|].
    cbn [road distance_km]. split; [reflexivity|].
    split; [now apply (catalog_display_names r rd')|].
    unfold all_bands in Hin. apply in_flat_map in Hin as ([r2 rd2] & Hin2 & Hin).
    apply in_map_iff in Hin as ([b2 es2] & [= -> -> ->] & Hb2).
    assert (rd2 = rd').
    { assert (Hnd : NoDup (map fst (road_network load_pricing_matrix))).
      { repeat constructor; simpl; intuition discriminate. }
      apply (In_lookup _ _ _ Hnd) in Hin2, Hrd. congruence. }
    subst rd2. apply (in_map fst) in Hb2. exact Hb2.
  - exfalso. unfold first_match in E.
    destruct (find _ _) as [[[? ?] ?]|] eqn:Ef; [discriminate|].
    pose proof (find_none _ _ Ef _ (all_bands_In _ _ _ _ _ Hr Hb)) as Hnone.
    unfold band_matches in Hnone. cbn [snd] in Hnone.
    rewrite (existsb_In _ _ estate He Hm) in Hnone. discriminate.
Qed.

(** Witness for X9: an estate name inside a longer address. *)
Lemma matching_location_witness :
  exists info r rd',
    calculate_boda_pricing "Near Kahawa Sukari stage, gate 4" "normal"
      load_pricing_matrix = Ret info /\
    In (r, rd') (road_network load_pricing_matrix) /\
    road info = display_name r /\
    road info <> "unknown" /\
    In (distance_km info) (map fst (estates rd')).
Proof.
  apply (matching_location_resolves "thika_road" thika_road "10-15km"
           ["Githurai 45"; "Kahawa West"; "Kahawa Sukari"] "Kahawa Sukari").
  - simpl. tauto.
  - simpl. tauto.
  - simpl. tauto.
  - vm_compute. reflexivity.
Defined.

(* ================================================================== *)
(** * The neutral multiplier *)

(** A multiple of [2^k] divided by [2^k] rounds to the quotient. *)
Lemma nearest_even_exact (R0 k R : Z) :
  0 <= k -> nearest_even (R0 * 2 ^ k) k R -> R = R0.
Proof.
  intros Hk [H _]. pose proof (pow2_pos k Hk). nia.
Qed.

(** Rounding a significand that fits the target exponent is exact. *)
Lemma binary_round_aux_exact (M : positive) (E R0 : Z) :
  E <= target_exp M E -> Zpos M = R0 * 2 ^ (target_exp M E - E) ->
  binary_round_aux prec emax false (Zpos M) E loc_Exact =
  round_result R0 (target_exp M E).
Proof.
  intros HE HM.
  destruct (binary_round_aux_spec M E HE) as (R & _ & Hne & _ & ->).
  rewrite HM in Hne. apply nearest_even_exact in Hne; [now subst|lia].
Qed.

Lemma iter_xO_pow (m d : positive) :
  Zpos (Pos.iter xO m d) = Zpos m * 2 ^ Zpos d.
Proof.
  induction d as [|d IH] using Pos.peano_ind.
  - cbn [Pos.iter]. lia.
  - rewrite Pos.iter_succ, Pos2Z.inj_xO, IH, Pos2Z.inj_succ, Z.pow_succ_r by lia. lia.
Qed.

(** A valid float has the exponent its number of digits calls for. *)
Lemma valid_target_exp (m : positive) (e : Z) :
  SpecFloat.bounded prec emax m e = true -> target_exp m e = e.
Proof.
  intros H. apply bounded_inv in H as (He & Hd & Hn). unfold_fexp. lia.
Qed.

Lemma valid_mantissa_bound (m : positive) (e : Z) :
  SpecFloat.bounded prec emax m e = true -> Zpos m < 2 ^ 53.
Proof.
  intros H. apply bounded_inv in H as (_ & Hd & _).
  pose proof (digits2_pos_bounds m) as [_ Hb].
  eapply Z.lt_le_trans; [exact Hb|]. apply Z.pow_le_mono_r; lia.
Qed.

Lemma round_result_normal (m : positive) (e : Z) :
  Zpos m < 2 ^ 53 -> e <= 971 ->
  round_result (Zpos m) e = S754_finite false m e.
Proof.
  intros Hm He. unfold round_result.
  destruct (Zpos m =? 0) eqn:E0; [apply Z.eqb_eq in E0; lia|].
  destruct (Zpos m =? 2 ^ 53) eqn:E1; [apply Z.eqb_eq in E1; lia|].
  destruct (e <=? 971) eqn:E2; [|apply Z.leb_gt in E2; lia].
  reflexivity.
Qed.

(** Multiplying a nonnegative finite float by [1.0] gives it back. *)
Lemma SFmul_one (X : spec_float) :
  valid_binary X = true -> nonneg_finite X ->
  SFmul prec emax X (Prim2SF 1.0%float) = X.
Proof.
  intros Hv Hn.
  change (Prim2SF 1.0%float) with (S754_finite false 4503599627370496 (-52)).
  destruct X as [s|s| |s m e]; try (destruct Hn; fail).
  - cbn. now destruct s.
  - destruct s; [destruct Hn|]. cbn [valid_binary] in Hv.
    cbn [SFmul xorb].
    assert (Hd : Zpos (digits2_pos (m * 4503599627370496)) = Zpos (digits2_pos m) + 52).
    { change (m * 4503599627370496)%positive with (m * Pos.iter xO 1 52)%positive.
      replace (m * Pos.iter xO 1 52)%positive with (Pos.iter xO m 52).
      - apply digits2_pos_shift.
      - apply Pos2Z.inj. rewrite Pos2Z.inj_mul, !iter_xO_pow. lia. }
    assert (Ht : target_exp (m * 4503599627370496) (e + -52) = e).
    { unfold target_exp. rewrite Hd.
      replace (Z.pos (digits2_pos m) + 52 + (e + -52)) with (Zpos (digits2_pos m) + e) by lia.
      now apply valid_target_exp. }
    rewrite (binary_round_aux_exact _ _ (Zpos m)); rewrite Ht.
    + apply round_result_normal; [now apply (valid_mantissa_bound m e)|].
      apply bounded_inv in Hv. lia.
    + lia.
    + replace (e - (e + -52)) with 52 by lia. rewrite Pos2Z.inj_mul. reflexivity.
Qed.

Lemma mul_one (x : float) :
  nonneg_finite (Prim2SF x) -> (x * 1.0)%float = x.
Proof.
  intros Hn. apply Prim2SF_inj. rewrite mul_spec.
  apply SFmul_one; [apply Prim2SF_valid|exact Hn].
Qed.

(** An [int] below [2^53] converts to [float] without rounding. *)
Lemma float_of_int_exact (n : Z) :
  0 <= n < 2 ^ 53 ->
  exists f, float_of_int n = Ret f /\ nonneg_finite (Prim2SF f) /\
            B2R (Prim2SF f) = IZR n.
Proof.
  intros Hn. unfold float_of_int, binary_normalize.
  destruct n as [|p|p]; try lia.
  - eexists. split; [reflexivity|]. split; [vm_compute; exact I|].
    vm_compute. lra.
  - assert (Hp : Zpos (digits2_pos p) <= 53) by (apply digits2_pos_le; lia).
    assert (Hr : exists mz ez,
               binary_round prec emax false p 0 = S754_finite false mz ez /\
               SpecFloat.bounded prec emax mz ez = true /\
               F2R (Zpos mz) ez = IZR (Zpos p)).
    { unfold binary_round, shl_align. fold (target_exp p 0).
      assert (Ht : target_exp p 0 = Zpos (digits2_pos p) - 53) by (unfold_fexp; lia).
      destruct (target_exp p 0 - 0) as [|d|d] eqn:Ed; try lia.
      - (* 53 digits already *)
        assert (Ht0 : target_exp p 0 = 0) by lia.
        rewrite (binary_round_aux_exact p 0 (Zpos p)); rewrite Ht0; try (cbn; lia).
        rewrite round_result_normal by lia.
        exists p, 0. split; [reflexivity|]. split.
        + unfold SpecFloat.bounded, canonical_mantissa. fold (target_exp p 0).
          rewrite Ht0. reflexivity.
        + unfold F2R, bpow. simpl. lra.
      - assert (Hd : Zpos d = 53 - Zpos (digits2_pos p)) by lia.
        assert (Hdig : Zpos (digits2_pos (Pos.iter xO p d)) = 53)
          by (rewrite digits2_pos_shift; lia).
        assert (Ht2 : target_exp (Pos.iter xO p d) (target_exp p 0) = target_exp p 0).
        { unfold target_exp at 1. rewrite Hdig. unfold_fexp. lia. }
        rewrite (binary_round_aux_exact _ _ (Zpos (Pos.iter xO p d))); rewrite Ht2;
          [|lia|replace (target_exp p 0 - target_exp p 0) with 0 by lia; cbn; lia].
        assert (Hlt : Zpos (Pos.iter xO p d) < 2 ^ 53).
        { pose proof (digits2_pos_bounds (Pos.iter xO p d)) as [_ Hb].
          rewrite Hdig in Hb. exact Hb. }
        rewrite round_result_normal by lia.
        exists (Pos.iter xO p d), (target_exp p 0). split; [reflexivity|]. split.
        + unfold SpecFloat.bounded, canonical_mantissa.
          fold (target_exp (Pos.iter xO p d) (target_exp p 0)). rewrite Ht2.
          apply andb_true_iff. split; [apply Z.eqb_eq; reflexivity|apply Z.leb_le; unfold emax, prec; lia].
        + unfold F2R. rewrite iter_xO_pow, mult_IZR, bpow_IZR by lia.
          replace (target_exp p 0) with (- Zpos d) by lia.
          rewrite Rmult_assoc, <- bpow_add.
          replace (Zpos d + - Zpos d) with 0 by lia. unfold bpow. simpl. lra. }
    destruct Hr as (mz & ez & -> & Hb & HR).
    eexists. split; [reflexivity|].
    rewrite Prim2SF_SF2Prim by exact Hb. split; [exact I|exact HR].
Qed.

(** [int] of a float whose value is an integer is that integer. *)
Lemma int_of_float_exact (x : float) (n : Z) :
  nonneg_finite (Prim2SF x) -> B2R (Prim2SF x) = IZR n ->
  int_of_float x = Ret n.
Proof.
  unfold int_of_float. destruct (Prim2SF x) as [s|s| |s m e]; try (intros []; fail).
  - intros _ H. cbn in H. apply eq_IZR in H. now subst.
  - destruct s; [intros []|]. intros _ H. cbn [B2R cond_Zopp] in H.
    destruct (shiftl_floor m e) as [_ [H1 H2]]. rewrite H in H1, H2.
    apply le_IZR in H1. rewrite <- plus_IZR in H2. apply lt_IZR in H2.
    cbn [cond_Zopp]. f_equal. lia.
Qed.

(** [int(n * 1.0 * 1.0)] is [n]. *)
Lemma scaled_labor_one (n : Z) :
  0 <= n < 2 ^ 53 -> scaled_labor n 1.0%float 1.0%float = Ret n.
Proof.
  intros Hn. destruct (float_of_int_exact n Hn) as (f & Hf & Nf & Vf).
  unfold scaled_labor, int_mul_float. rewrite Hf. cbn [bind].
  rewrite !(mul_one f Nf). now apply int_of_float_exact.
Qed.

(** [int(n * 1.0) if n > 0 else 0] is [n]. *)
Lemma scaled_parts_one (n : Z) :
  0 <= n < 2 ^ 53 -> scaled_parts n 1.0%float = Ret n.
Proof.
  intros Hn. unfold scaled_parts.
  destruct (0 <? n) eqn:E; [|apply Z.ltb_ge in E; f_equal; lia].
  destruct (float_of_int_exact n Hn) as (f & Hf & Nf & Vf).
  unfold int_mul_float. rewrite Hf. cbn [bind].
  rewrite (mul_one f Nf). now apply int_of_float_exact.
Qed.

(* ================================================================== *)
(** * Further properties of the pricing engine *)


Lemma mem_In (x : string) (xs : list string) : mem x xs = true -> In x xs.
Proof.
  unfold mem. intros H. apply existsb_exists in H as (y & Hy & E).
  apply String.eqb_eq in E. now subst.
Qed.

Lemma catalog_zone_of_area (zone_lower zone_name : string) (zd : zone_data) :
  In (zone_name, zd) (zones load_pricing_matrix) ->
  mem zone_lower (map lower (areas zd)) = true ->
  find_zone_mult zone_lower (zones load_pricing_matrix) 1.0%float = multiplier zd.
Proof.
  intros Hz Hm. apply mem_In in Hm.
  assert (Hall : zone_areas_resolve load_pricing_matrix = true) by (vm_compute; reflexivity).
  unfold zone_areas_resolve in Hall.
  pose proof (forallb_In _ _ Hall _ Hz) as H1. cbv beta in H1. cbn [snd] in H1.
  pose proof (forallb_In _ _ H1 _ Hm) as H2. cbv beta in H2.
  now apply FloatAxioms.Leibniz.eqb_spec.
Qed.

Lemma catalog_category_of_make (car_lower cat_name : string) (cd : category_data) :
  In (cat_name, cd) (car_categories load_pricing_matrix) ->
  mem car_lower (map lower (makes cd)) = true ->
  find_car_mult car_lower (car_categories load_pricing_matrix) 1.0%float = cat_multiplier cd.
Proof.
  intros Hz Hm. apply mem_In in Hm.
  assert (Hall : category_makes_resolve load_pricing_matrix = true) by (vm_compute; reflexivity).
  unfold category_makes_resolve in Hall.
  pose proof (forallb_In _ _ Hall _ Hz) as H1. cbv beta in H1. cbn [snd] in H1.
  pose proof (forallb_In _ _ H1 _ Hm) as H2. cbv beta in H2.
  now apply FloatAxioms.Leibniz.eqb_spec.
Qed.

Lemma find_zone_mult_unlisted (zone_lower : string) (zs : list (string * zone_data))
    (default : float) :
  (forall zone_name zd, In (zone_name, zd) zs ->
                        mem zone_lower (map lower (areas zd)) = false) ->
  find_zone_mult zone_lower zs default = default.
Proof.
  induction zs as [|[zone_name zd] zs IH]; intros H; [reflexivity|].
  cbn [find_zone_mult]. rewrite (H zone_name zd) by now left.
  apply IH. intros n z Hin. apply (H n z). now right.
Qed.

Lemma find_car_mult_unlisted (car_lower : string) (cs : list (string * category_data))
    (default : float) :
  (forall cat_name cd, In (cat_name, cd) cs ->
                       mem car_lower (map lower (makes cd)) = false) ->
  find_car_mult car_lower cs default = default.
Proof.
  induction cs as [|[cat_name cd] cs IH]; intros H; [reflexivity|].
  cbn [find_car_mult]. rewrite (H cat_name cd) by now left.
  apply IH. intros n z Hin. apply (H n z). now right.
Qed.

(** X10. The zone and car-category loops stop at the first table entry
    that lists the string, compared case-insensitively and as a whole. On
    the catalog no area and no make is listed twice, so a standard service
    is priced with the multipliers of the zone listing the area and of the
    category listing the make, wherever they stand in the tables. *)
Theorem listed_zone_and_make_multipliers
    (service_key : string) (s : service) (zone car : string)
    (zone_name : string) (zd : zone_data) (cat_name : string) (cd : category_data)
    (location : option string) (time_of_day : string) :
  In (service_key, s) (standard_entries load_pricing_matrix) ->
  In (zone_name, zd) (zones load_pricing_matrix) ->
  mem (lower zone) (map lower (areas zd)) = true ->
  In (cat_name, cd) (car_categories load_pricing_matrix) ->
  mem (lower car) (map lower (makes cd)) = true ->
  calculate_price_estimate service_key zone car load_pricing_matrix location time_of_day =
  (e <- standard_estimate s (multiplier zd) (cat_multiplier cd) ;; Ret (Some e)).
Proof.
  intros Hs Hz Hzm Hc Hcm. rewrite (standard_path _ _ _ _ _ _ Hs).
  rewrite (catalog_zone_of_area _ _ _ Hz Hzm), (catalog_category_of_make _ _ _ Hc Hcm).
  reflexivity.
Qed.

(** Witness for X10: upper-case ["KAREN"] and lower-case ["bugatti"]. *)
Lemma listed_zone_and_make_witness :
  calculate_price_estimate "brake_pads" "KAREN" "bugatti" load_pricing_matrix None "normal" =
  (e <- standard_estimate svc_brake_pads 1.2%float 2.5%float ;; Ret (Some e)).
Proof.
  apply (listed_zone_and_make_multipliers "brake_pads" svc_brake_pads "KAREN" "bugatti"
           "premium"
           {| multiplier := 1.2%float;
              areas := ["Karen"; "Westlands"; "Runda"; "Lavington"; "Kileleshwa";
                        "Muthaiga"; "Spring Valley"] |}
           "exotic"
           {| cat_multiplier := 2.5%float;
              makes := ["Bugatti"; "Koenigsegg"; "Pagani"] |}).
  - vm_compute. tauto.
  - vm_compute. tauto.
  - vm_compute. reflexivity.
  - vm_compute. tauto.
  - vm_compute. reflexivity.
Defined.

Lemma catalog_base_prices_small :
  forallb (fun x => base_prices_small (snd x)) (standard_entries load_pricing_matrix) = true.
Proof. vm_compute. reflexivity. Qed.

Lemma small_bounds (n : Z) : (0 <=? n) && (n <? 2 ^ 53) = true -> 0 <= n < 2 ^ 53.
Proof.
  intros H. apply andb_true_iff in H as [H1 H2].
  apply Z.leb_le in H1. apply Z.ltb_lt in H2. now split.
Qed.

(** X11. A zone that equals no listed area and a make that equals no
    listed make (["Westlands Mall"], ["Lexus"]: the table has
    ["Lexus (RX, NX)"]) leave both multipliers at 1.0, and every standard
    service of the catalog is then quoted at exactly its base labor and
    parts ranges, the total being their sum. *)
Theorem unlisted_zone_and_make_base_prices
    (service_key : string) (s : service) (zone car : string)
    (location : option string) (time_of_day : string) :
  In (service_key, s) (standard_entries load_pricing_matrix) ->
  (forall zone_name zd, In (zone_name, zd) (zones load_pricing_matrix) ->
                        mem (lower zone) (map lower (areas zd)) = false) ->
  (forall cat_name cd, In (cat_name, cd) (car_categories load_pricing_matrix) ->
                       mem (lower car) (map lower (makes cd)) = false) ->
  exists lo hi plo phi t,
    labor s = Some (Range lo hi) /\ parts_range s = Some (Range plo phi) /\
    time_mins s = Some t /\
    calculate_price_estimate service_key zone car load_pricing_matrix location time_of_day =
    Ret (Some (EstStandard (LaborRange lo hi)
                 (if 0 <? phi then Some (plo, phi) else None)
                 (lo + plo, if 0 <? phi then hi + phi else hi) t (note s))).
Proof.
  intros Hs Hz Hc. rewrite (standard_path _ _ _ _ _ _ Hs).
  rewrite (find_zone_mult_unlisted _ _ _ Hz), (find_car_mult_unlisted _ _ _ Hc).
  pose proof (forallb_In _ _ catalog_base_prices_small _ Hs) as Hb.
  cbn [snd] in Hb. unfold base_prices_small in Hb.
  destruct (labor s) as [[lo hi| |]|] eqn:El; try discriminate.
  destruct (parts_range s) as [[plo phi| |]|] eqn:Ep; try discriminate.
  cbn [forallb] in Hb.
  apply andb_true_iff in Hb as [H1 Hb]. apply andb_true_iff in Hb as [H2 Hb].
  apply andb_true_iff in Hb as [H3 Hb]. apply andb_true_iff in Hb as [H4 _].
  apply small_bounds in H1, H2, H3, H4.
  assert (Ht : exists t, time_mins s = Some t).
  { apply filter_In in Hs as [Hin _]. cbv in Hin.
    repeat (destruct Hin as [Hin|Hin];
            [injection Hin as <- <-; try discriminate; eexists; reflexivity|]).
    destruct Hin. }
  destruct Ht as [t Ht].
  exists lo, hi, plo, phi, t. repeat split; trivial.
  unfold standard_estimate. rewrite El, Ep, Ht. cbn [field bind].
  rewrite (scaled_labor_one lo H1), (scaled_labor_one hi H2). cbn [bind].
  rewrite (scaled_parts_one plo H3), (scaled_parts_one phi H4). reflexivity.
Qed.

(** Witness for X11. *)
Lemma unlisted_zone_and_make_witness :
  exists lo hi plo phi t,
    labor svc_oil_change = Some (Range lo hi) /\
    parts_range svc_oil_change = Some (Range plo phi) /\
    time_mins svc_oil_change = Some t /\
    calculate_price_estimate "oil_change" "Westlands Mall" "Lexus" load_pricing_matrix
      (Some "Westlands Mall") "peak" =
    Ret (Some (EstStandard (LaborRange lo hi)
                 (if 0 <? phi then Some (plo, phi) else None)
                 (lo + plo, if 0 <? phi then hi + phi else hi) t (note svc_oil_change))).
Proof.
  apply (unlisted_zone_and_make_base_prices "oil_change" svc_oil_change).
  - vm_compute. tauto.
  - intros zone_name zd H. apply negb_true_iff.
    change (negb (mem (lower "Westlands Mall") (map lower (areas (snd (zone_name, zd))))) = true).
    revert H. generalize (zone_name, zd). apply forallb_In. vm_compute. reflexivity.
  - intros cat_name cd H. apply negb_true_iff.
    change (negb (mem (lower "Lexus") (map lower (makes (snd (cat_name, cd))))) = true).
    revert H. generalize (cat_name, cd). apply forallb_In. vm_compute. reflexivity.
Defined.

(** X12. Multipliers 1.0 and 1.0 change no price: for base prices in
    [[0, 2^53)] the conversion to [float], the two multiplications and
    the truncation by [int] give each bound back, so the estimate carries
    the base ranges, their sum as total, and no parts entry when the upper
    parts bound is 0. *)
Theorem neutral_multipliers_keep_prices (s : service) (lo hi plo phi : Z) (t : amount) :
  labor s = Some (Range lo hi) -> parts_range s = Some (Range plo phi) ->
  time_mins s = Some t ->
  0 <= lo < 2 ^ 53 -> 0 <= hi < 2 ^ 53 -> 0 <= plo < 2 ^ 53 -> 0 <= phi < 2 ^ 53 ->
  standard_estimate s 1.0%float 1.0%float =
  Ret (EstStandard (LaborRange lo hi)
         (if 0 <? phi then Some (plo, phi) else None)
         (lo + plo, if 0 <? phi then hi + phi else hi) t (note s)).
Proof.
  intros Hl Hp Ht Hlo Hhi Hplo Hphi. unfold standard_estimate.
  rewrite Hl, Hp, Ht. cbn [field bind].
  rewrite (scaled_labor_one lo Hlo), (scaled_labor_one hi Hhi). cbn [bind].
  rewrite (scaled_parts_one plo Hplo), (scaled_parts_one phi Hphi). cbn [bind].
  reflexivity.
Qed.

(** Witness for X12: a service priced in the trillions, with no parts. *)
Lemma neutral_multipliers_witness :
  standard_estimate
    {| labor := Some (Range 1 9007199254740991);
       parts_range := Some (Range 0 0);
       time_mins := Some (Single 30);
       flat_fee := None; boda_range := None; pickup_boda := None;
       return_boda := None; service_fee := None; range := None;
       note := None |} 1.0%float 1.0%float =
  Ret (EstStandard (LaborRange 1 9007199254740991) None
         (1, 9007199254740991) (Single 30) None).
Proof.
  apply (neutral_multipliers_keep_prices
           {| labor := Some (Range 1 9007199254740991);
              parts_range := Some (Range 0 0);
              time_mins := Some (Single 30);
              flat_fee := None; boda_range := None; pickup_boda := None;
              return_boda := None; service_fee := None; range := None;
              note := None |} 1 9007199254740991 0 0 (Single 30));
    try reflexivity; lia.
Defined.

(** X13. For one located request the mobile callout and the pick and
    drop are built on the same resolved boda range: the callout total is
    500 plus that range, the pick-and-drop total 500 plus twice that range,
    with equal location details; zone and car make play no part. *)
Theorem pick_and_drop_doubles_the_callout_leg
    (zone car zone' car' : string) (c : ascii) (rest time_of_day : string) :
  exists boda details,
    calculate_price_estimate "mobile_callout" zone car load_pricing_matrix
      (Some (String c rest)) time_of_day =
    Ret (Some (EstMobileCallout 500 boda (500 + fst boda, 500 + snd boda) details)) /\
    calculate_price_estimate "pick_and_drop" zone' car' load_pricing_matrix
      (Some (String c rest)) time_of_day =
    Ret (Some (EstPickAndDrop boda boda 500
                 (fst boda + fst boda + 500, snd boda + snd boda + 500) details)) /\
    fst boda <= snd boda.
Proof.
  rewrite mobile_callout_located, pick_and_drop_located.
  destruct (catalog_located_ordered (String c rest) time_of_day) as (info & -> & Hord).
  cbn [bind]. do 2 eexists. split; [reflexivity|]. split; [reflexivity|exact Hord].
Qed.

Lemma catalog_standard_sums :
  forallb (fun x =>
    forallb (fun zone_mult =>
      forallb (fun car_mult => standard_sums (snd x) zone_mult car_mult)
              (car_candidates load_pricing_matrix))
            (zone_candidates load_pricing_matrix))
    (standard_entries load_pricing_matrix) = true.
Proof. vm_compute. reflexivity. Qed.

(** X14. In every estimate the pricing engine returns on the catalog the
    total is the sum of the components shown: labor plus parts (an absent
    parts entry counting for nothing) for a standard service, fee plus
    boda for a callout, both legs plus fee for a pick and drop. *)
Theorem catalog_total_is_sum_of_components
    (service_key zone car : string) (location : option string) (time_of_day : string)
    (e : estimate) :
  calculate_price_estimate service_key zone car load_pricing_matrix
    location time_of_day = Ret (Some e) ->
  components_sum e = true.
Proof.
  destruct (lookup service_key (services load_pricing_matrix)) as [s|] eqn:E.
  2:{ unfold calculate_price_estimate. rewrite E. discriminate. }
  apply lookup_In in E.
  destruct (is_standard_entry (service_key, s)) eqn:Estd.
  - assert (Hin : In (service_key, s) (standard_entries load_pricing_matrix))
      by (apply filter_In; now split).
    rewrite (standard_path _ _ _ _ _ _ Hin).
    pose proof (forallb_In _ _ catalog_standard_sums _ Hin) as H1. cbv beta in H1.
    pose proof (forallb_In _ _ H1 _
                  (find_zone_mult_In (lower zone) (zones load_pricing_matrix) 1.0%float)) as H2.
    cbv beta in H2.
    pose proof (forallb_In _ _ H2 _
                  (find_car_mult_In (lower car) (car_categories load_pricing_matrix) 1.0%float)) as H3.
    cbv beta in H3. unfold standard_sums in H3. cbn [snd] in H3.
    destruct (standard_estimate s _ _) as [e'|]; [|discriminate].
    cbn [bind]. intros H. injection H as <-. exact H3.
  - cbv in E.
    repeat (destruct E as [E|E];
            [injection E as <- <-; try discriminate Estd|]); try destruct E.
    + (* mobile_callout *)
      destruct location as [[|c rest]|].
      * intros H. injection H as <-. reflexivity.
      * rewrite mobile_callout_located.
        destruct (calculate_boda_pricing _ _ _) as [info|]; [|discriminate].
        cbn [bind]. intros H. injection H as <-.
        cbn [components_sum fst snd]. now rewrite !Z.eqb_refl.
      * intros H. injection H as <-. reflexivity.
    + (* pick_and_drop *)
      destruct location as [[|c rest]|].
      * intros H. injection H as <-. reflexivity.
      * rewrite pick_and_drop_located.
        destruct (calculate_boda_pricing _ _ _) as [info|]; [|discriminate].
        cbn [bind]. intros H. injection H as <-.
        cbn [components_sum fst snd]. now rewrite !Z.eqb_refl.
      * intros H. injection H as <-. reflexivity.
    + intros H. injection H as <-. reflexivity.
    + intros H. injection H as <-. reflexivity.
    + intros H. injection H as <-. reflexivity.
    + intros H. injection H as <-. reflexivity.
Qed.

(** Witness for X14: a diagnostic scan, which has no parts. *)
Lemma catalog_total_witness :
  components_sum
    (EstStandard (LaborRange 1500 15000) None (1500, 15000) (Range 30 180)
       (Some "Complex diagnostics (transmission, engine) cost more")) = true.
Proof.
  apply (catalog_total_is_sum_of_components "diagnostic_scan" "Nairobi" "Toyota"
           (Some "Nairobi") "normal").
  vm_compute. reflexivity.
Defined.


(** Every service of the catalog is priced, for all arguments. *)
Lemma catalog_known_service_priced (service_key : string) (s : service)
    (zone car : string) (location : option string) (time_of_day : string) :
  lookup service_key (services load_pricing_matrix) = Some s ->
  exists e,
    calculate_price_estimate service_key zone car load_pricing_matrix
      location time_of_day = Ret (Some e).
Proof.
  intros E. apply lookup_In in E.
  destruct (is_standard_entry (service_key, s)) eqn:Estd.
  - assert (Hin : In (service_key, s) (standard_entries load_pricing_matrix))
      by (apply filter_In; now split).
    destruct (catalog_standard_ordered _ _ zone car location time_of_day Hin) as (e & He & _).
    now exists e.
  - cbv in E.
    repeat (destruct E as [E|E];
            [injection E as <- <-; try discriminate Estd|]); try destruct E.
    + destruct location as [[|c rest]|]; try (eexists; reflexivity).
      rewrite mobile_callout_located.
      destruct (catalog_located_ordered (String c rest) time_of_day) as (info & -> & _).
      eexists. reflexivity.
    + destruct location as [[|c rest]|]; try (eexists; reflexivity).
      rewrite pick_and_drop_located.
      destruct (catalog_located_ordered (String c rest) time_of_day) as (info & -> & _).
      eexists. reflexivity.
    + eexists. reflexivity.
    + eexists. reflexivity.
    + eexists. reflexivity.
    + eexists. reflexivity.
Qed.

(** X20. On the catalog the pricing engine returns [None] exactly for a
    service key that is not a key of ['services'] (keys are compared as
    they are: ["Towing"] is unknown); every known key is priced, whatever
    the other arguments. *)
Theorem unknown_service_key_gives_none
    (service_key zone car : string) (location : option string) (time_of_day : string) :
  calculate_price_estimate service_key zone car load_pricing_matrix
    location time_of_day = Ret None <->
  ~ In service_key (map fst (services load_pricing_matrix)).
Proof.
  destruct (lookup service_key (services load_pricing_matrix)) as [s|] eqn:E.
  - destruct (catalog_known_service_priced _ _ zone car location time_of_day E) as (e & ->).
    split; [discriminate|].
    intros H. elim H. apply lookup_In in E. apply (in_map fst) in E. exact E.
  - split.
    + intros _ Hin. apply in_map_iff in Hin as ([k s] & Hk & Hin). cbn [fst] in Hk. subst k.
      assert (Hnd : NoDup (map fst (services load_pricing_matrix))).
      { repeat constructor; simpl; intuition discriminate. }
      rewrite (In_lookup _ _ _ Hnd Hin) in E. discriminate.
    + intros _. unfold calculate_price_estimate. now rewrite E.
Qed.

(** X21. An empty location string is treated as no location at all: the
    engine answers as without location, under any time of day, and so
    never hands the empty string to the road resolver. Holds for any
    pricing matrix and service key. *)
Theorem empty_location_is_no_location
    (pm : pricing_matrix) (service_key zone car time_of_day time_of_day' : string) :
  calculate_price_estimate service_key zone car pm (Some "") time_of_day =
  calculate_price_estimate service_key zone car pm None time_of_day'.
Proof.
  unfold calculate_price_estimate.
  destruct (lookup service_key (services pm)) as [s|]; [|reflexivity].
  destruct (service_is_empty s); [reflexivity|].
  change (truthy (Some "")) with false. change (truthy None) with false.
  reflexivity.
Qed.

(* ================================================================== *)
(** * Properties of the handler [diagnose] *)

(** The services the templates price: seven standard ones and
    [transmission]. *)
Lemma catalog_price_services (t : template) :
  In t load_diagnostic_templates ->
  In (price_service t)
     ["battery_replacement"; "oil_change"; "brake_pads"; "diagnostic_scan";
      "alternator"; "starter_motor"; "radiator"; "transmission"].
Proof.
  intros H.
  assert (Hall : forallb (fun t => mem (price_service t)
                   ["battery_replacement"; "oil_change"; "brake_pads"; "diagnostic_scan";
                    "alternator"; "starter_motor"; "radiator"; "transmission"])
                   load_diagnostic_templates = true) by (vm_compute; reflexivity).
  apply mem_In. exact (forallb_In _ _ Hall _ H).
Qed.

(** Every template is priced, with a standard estimate or the
    diagnosis-required notice, whatever the zone, make, location and time
    of day; the estimate depends on neither of the last two. *)
Lemma catalog_template_priced (t : template) (zone car : string) :
  In t load_diagnostic_templates ->
  exists e,
    is_standard_or_diagnosis e = true /\
    forall location time_of_day,
      calculate_price_estimate (price_service t) zone car load_pricing_matrix
        location time_of_day = Ret (Some e).
Proof.
  intros H. apply catalog_price_services in H.
  assert (Hstd : forall k s, In (k, s) (standard_entries load_pricing_matrix) ->
            exists e,
              is_standard_or_diagnosis e = true /\
              forall location time_of_day,
                calculate_price_estimate k zone car load_pricing_matrix
                  location time_of_day = Ret (Some e)).
  { intros k s Hin.
    destruct (catalog_standard_ordered k s zone car None "normal" Hin) as (e & He & _).
    rewrite (standard_path _ _ _ _ _ _ Hin) in He.
    destruct (standard_estimate s _ _) as [e'|] eqn:E; [|discriminate].
    injection He as <-.
    exists e'. split.
    - apply standard_estimate_inv in E.
      destruct E as (? & ? & ? & ? & ? & ? & ? & _ & _ & _ & _ & _ & ->). reflexivity.
    - intros location time_of_day.
      rewrite (standard_path _ _ _ _ _ _ Hin), E. reflexivity. }
  cbn [In] in H.
  destruct H as [<-|[<-|[<-|[<-|[<-|[<-|[<-|[<-|[]]]]]]]]];
    try (eapply Hstd; vm_compute; tauto).
  eexists. split; [|intros location time_of_day; reflexivity]. reflexivity.
Qed.

(** Every template recommends a service of the business model. *)
Lemma catalog_recommended_services (t : template) :
  In t load_diagnostic_templates ->
  exists info, item (bm_services load_business_model) (recommended_service t) = Ret info.
Proof.
  intros H.
  assert (Hall : forallb (fun t =>
                   match lookup (recommended_service t) (bm_services load_business_model) with
                   | Some _ => true
                   | None => false
                   end) load_diagnostic_templates = true) by (vm_compute; reflexivity).
  apply (forallb_In _ _ Hall) in H. unfold item.
  destruct (lookup _ _) as [info|]; [now exists info|discriminate].
Qed.

(** The template the matcher returns is one of the knowledge base. *)
Lemma query_success_In (kb : knowledge_base) (text : string) (t : template)
    (c : string) (kws : list string) :
  query_knowledge_base text kb = SUCCESS t c kws -> In t (templates kb).
Proof.
  intros H.
  destruct (query_outcome kb text) as [[Hq _]|(before & t' & after & Hts & _ & _ & _ & Hq)];
    rewrite Hq in H; [discriminate|].
  injection H as <- _ _. rewrite Hts. apply in_or_app. right. now left.
Qed.

(** The response is built without reading the time of day: it is the
    same under any other [timing] and parser. *)
Lemma build_response_timing (to_int : string -> result Z)
    (int_to_str : Z -> result string)
    (parse parse' : string -> option datetime) (data data' : diagnose_request)
    (t : template) (matched : list string) :
  In t load_diagnostic_templates ->
  car_make_field data' = car_make_field data ->
  car_model_field data' = car_model_field data ->
  year_field data' = year_field data ->
  mileage_field data' = mileage_field data ->
  location_field data' = location_field data ->
  build_response to_int int_to_str parse' data' t matched =
  build_response to_int int_to_str parse data t matched.
Proof.
  intros Ht Hmk Hmd Hy Hm Hl. unfold build_response.
  destruct (catalog_template_priced t (field_or "Nairobi" (location_field data))
              (field_or "Toyota" (car_make_field data)) Ht) as (e & _ & Hp).
  rewrite Hmk, Hmd, Hy, Hm, Hl.
  change (kb_pricing_matrix load_skill_files) with load_pricing_matrix.
  rewrite !Hp. reflexivity.
Qed.

(** The year block raises or returns, as [year_raises] and [year_returns]
    say. *)
Lemma year_context_cases (to_int : string -> result Z)
    (int_to_str : Z -> result string) (o : option string) :
  (exists e, year_context_of to_int int_to_str (field_or "" o) = Raise e /\
             year_raises to_int int_to_str o e) \/
  (exists v, year_context_of to_int int_to_str (field_or "" o) = Ret v /\
             year_returns to_int int_to_str o).
Proof.
  unfold year_context_of, year_raises, year_returns.
  destruct (truthy (Some (field_or "" o))); [|right; eexists; split; [reflexivity|discriminate]].
  destruct (to_int (field_or "" o)) as [y|e]; cbn [bind];
    [|left; exists e; repeat split; now left].
  cbv zeta.
  destruct (10 <? 2025 - y) eqn:E10.
  - apply Z.ltb_lt in E10.
    destruct (int_to_str (2025 - y)) as [s|e] eqn:Es; cbn [bind].
    + right. eexists. split; [reflexivity|]. intros _. exists y. split; [reflexivity|].
      intros _. now exists s.
    + left. exists e. repeat split. right. exists y. repeat split; trivial. lia.
  - apply Z.ltb_ge in E10. destruct (5 <? 2025 - y) eqn:E5.
    + apply Z.ltb_lt in E5.
      destruct (int_to_str (2025 - y)) as [s|e] eqn:Es; cbn [bind].
      * right. eexists. split; [reflexivity|]. intros _. exists y. split; [reflexivity|].
        intros _. now exists s.
      * left. exists e. repeat split. right. exists y. now repeat split.
    + apply Z.ltb_ge in E5. right. eexists. split; [reflexivity|].
      intros _. exists y. split; [reflexivity|]. lia.
Qed.

Lemma year_raises_not_returns (to_int : string -> result Z)
    (int_to_str : Z -> result string) (o : option string) (e : exn) :
  year_raises to_int int_to_str o e -> year_returns to_int int_to_str o -> False.
Proof.
  intros [T [H|(y & Hy & H5 & Hs)]] Hr; destruct (Hr T) as (y' & Hy' & Hs').
  - rewrite H in Hy'. discriminate.
  - rewrite Hy in Hy'. injection Hy' as <-. destruct (Hs' H5) as [s Hs''].
    rewrite Hs in Hs''. discriminate.
Qed.

Lemma year_raises_unique (to_int : string -> result Z)
    (int_to_str : Z -> result string) (o : option string) (e e' : exn) :
  year_raises to_int int_to_str o e -> year_raises to_int int_to_str o e' -> e = e'.
Proof.
  intros [_ [H|(y & Hy & _ & Hs)]] [_ [H'|(y' & Hy' & _ & Hs')]]; congruence.
Qed.

(** The mileage block likewise. *)
Lemma mileage_context_cases (to_int : string -> result Z)
    (int_to_str : Z -> result string) (o : option string) :
  (exists e, mileage_context_of to_int int_to_str (field_or "" o) = Raise e /\
             mileage_raises to_int int_to_str o e) \/
  (exists v, mileage_context_of to_int int_to_str (field_or "" o) = Ret v /\
             mileage_returns to_int int_to_str o).
Proof.
  unfold mileage_context_of, mileage_raises, mileage_returns.
  destruct (truthy (Some (field_or "" o))); [|right; eexists; split; [reflexivity|discriminate]].
  destruct (to_int (field_or "" o)) as [m|e]; cbn [bind];
    [|left; exists e; repeat split; now left].
  assert (Hshown : forall note : mileage_note, 100000 < m ->
            (exists e, (_ <- int_to_str m ;; Ret (Some note)) = Raise e /\
               (true = true /\
                (Ret m = Raise e \/
                 exists m0, Ret m = Ret m0 /\ 100000 < m0 /\ int_to_str m0 = Raise e))) \/
            (exists v, (_ <- int_to_str m ;; Ret (Some note)) = Ret v /\
               (true = true ->
                exists m0, Ret m = Ret m0 /\
                           (100000 < m0 -> exists s, int_to_str m0 = Ret s)))).
  { intros note Hm. destruct (int_to_str m) as [s|e] eqn:Es; cbn [bind].
    - right. eexists. split; [reflexivity|]. intros _. exists m. split; [reflexivity|].
      intros _. now exists s.
    - left. exists e. repeat split. right. exists m. now repeat split. }
  destruct (200000 <? m) eqn:E2; [apply Z.ltb_lt in E2; apply Hshown; lia|].
  destruct (150000 <? m) eqn:E15; [apply Z.ltb_lt in E15; apply Hshown; lia|].
  destruct (100000 <? m) eqn:E1; [apply Z.ltb_lt in E1; apply Hshown; lia|].
  apply Z.ltb_ge in E1. right. eexists. split; [reflexivity|].
  intros _. exists m. split; [reflexivity|]. lia.
Qed.

Lemma mileage_raises_not_returns (to_int : string -> result Z)
    (int_to_str : Z -> result string) (o : option string) (e : exn) :
  mileage_raises to_int int_to_str o e -> mileage_returns to_int int_to_str o -> False.
Proof.
  intros [T [H|(m & Hm & H1 & Hs)]] Hr; destruct (Hr T) as (m' & Hm' & Hs').
  - rewrite H in Hm'. discriminate.
  - rewrite Hm in Hm'. injection Hm' as <-. destruct (Hs' H1) as [s Hs''].
    rewrite Hs in Hs''. discriminate.
Qed.

Lemma mileage_raises_unique (to_int : string -> result Z)
    (int_to_str : Z -> result string) (o : option string) (e e' : exn) :
  mileage_raises to_int int_to_str o e -> mileage_raises to_int int_to_str o e' -> e = e'.
Proof.
  intros [_ [H|(m & Hm & _ & Hs)]] [_ [H'|(m' & Hm' & _ & Hs')]]; congruence.
Qed.

(** After a year block that returned, ['age_years'] is computed, and the
    JSON encoder writes it or raises on it. *)
Lemma age_cases (to_int : string -> result Z)
    (int_to_str : Z -> result string) (o : option string) :
  year_returns to_int int_to_str o ->
  exists age,
    age_years_of to_int (field_or "" o) = Ret age /\
    ((age_written to_int int_to_str o /\
      forall body, age_years body = age -> jsonify int_to_str body = Ret body) \/
     (exists e, age_raises to_int int_to_str o e /\
        forall body, age_years body = age -> jsonify int_to_str body = Raise e)).
Proof.
  unfold year_returns, age_years_of, age_written, age_raises, jsonify.
  destruct (truthy (Some (field_or "" o))).
  - intros H. destruct (H eq_refl) as (y & Hy & _). rewrite Hy. cbn [bind].
    eexists. split; [reflexivity|].
    destruct (int_to_str (2025 - y)) as [s|e] eqn:Es.
    + left. split; [intros _; now exists y, s|].
      intros body ->. rewrite Es. reflexivity.
    + right. exists e. split; [split; [reflexivity|now exists y]|].
      intros body ->. rewrite Es. reflexivity.
  - intros _. eexists. split; [reflexivity|]. left. split; [discriminate|].
    intros body ->. reflexivity.
Qed.

Lemma age_raises_not_written (to_int : string -> result Z)
    (int_to_str : Z -> result string) (o : option string) (e : exn) :
  age_raises to_int int_to_str o e -> age_written to_int int_to_str o -> False.
Proof.
  intros [T (y & Hy & Hs)] Hw. destruct (Hw T) as (y' & s & Hy' & Hs').
  rewrite Hy in Hy'. injection Hy' as <-. rewrite Hs in Hs'. discriminate.
Qed.

Lemma age_raises_unique (to_int : string -> result Z)
    (int_to_str : Z -> result string) (o : option string) (e e' : exn) :
  age_raises to_int int_to_str o e -> age_raises to_int int_to_str o e' -> e = e'.
Proof.
  intros [_ (y & Hy & Hs)] [_ (y' & Hy' & Hs')].
  rewrite Hy in Hy'. injection Hy' as <-. congruence.
Qed.

(** The construction of the response, case by case. *)
Lemma build_response_cases (to_int : string -> result Z)
    (int_to_str : Z -> result string)
    (parse : string -> option datetime) (data : diagnose_request)
    (t : template) (matched : list string) :
  In t load_diagnostic_templates ->
  (exists e, year_raises to_int int_to_str (year_field data) e /\
             build_response to_int int_to_str parse data t matched = Raise e) \/
  (exists e, year_returns to_int int_to_str (year_field data) /\
             mileage_raises to_int int_to_str (mileage_field data) e /\
             build_response to_int int_to_str parse data t matched = Raise e) \/
  (year_returns to_int int_to_str (year_field data) /\
   mileage_returns to_int int_to_str (mileage_field data) /\
   exists body e,
     build_response to_int int_to_str parse data t matched = Ret body /\
     age_years_of to_int (field_or "" (year_field data)) = Ret (age_years body) /\
     price_estimate body = Some e /\ is_standard_or_diagnosis e = true /\
     (forall location time_of_day,
        calculate_price_estimate (price_service t)
          (field_or "Nairobi" (location_field data))
          (field_or "Toyota" (car_make_field data))
          load_pricing_matrix location time_of_day = Ret (Some e)) /\
     issue body = diagnosis t /\ diagnosis_keywords body = matched).
Proof.
  intros Ht. unfold build_response.
  destruct (catalog_template_priced t (field_or "Nairobi" (location_field data))
              (field_or "Toyota" (car_make_field data)) Ht) as (e & He & Hp).
  destruct (catalog_recommended_services t Ht) as (info & Hinfo).
  change (kb_pricing_matrix load_skill_files) with load_pricing_matrix.
  rewrite Hp, Hinfo.
  destruct (year_context_cases to_int int_to_str (year_field data))
    as [(ey & -> & Hy)|(yc & -> & Hy)]; cbn [bind]; [left; now exists ey|right].
  destruct (mileage_context_cases to_int int_to_str (mileage_field data))
    as [(em & -> & Hm)|(mc & -> & Hm)]; cbn [bind]; [left; now exists em|right].
  destruct (age_cases to_int int_to_str (year_field data) Hy) as (age & Hage & _).
  rewrite Hage. cbn [bind].
  split; [exact Hy|]. split; [exact Hm|].
  do 2 eexists. split; [reflexivity|].
  cbn [age_years price_estimate issue diagnosis_keywords]. now repeat split.
Qed.

(** The two answers of the matcher, by the occurrence of a keyword. *)
Lemma query_cases (kb : knowledge_base) (text : string) :
  (query_knowledge_base text kb =
     DATA_MISSING
       "I don't have enough information to diagnose this specific issue."
       "Book a diagnostic scan with our mobile mechanic for proper assessment."
       "N/A" /\
   ~ some_keyword_occurs text (templates kb)) \/
  (exists t, In t (templates kb) /\
     query_knowledge_base text kb =
       SUCCESS t (confidence t) (occurring_keywords text t) /\
     some_keyword_occurs text (templates kb)).
Proof.
  destruct (query_outcome kb text)
    as [[Hq Hno]|(before & t & after & Hts & Hpos & _ & _ & Hq)].
  - left. split; [exact Hq|].
    intros (t & k & Ht & Hk & Hc). rewrite (Hno t k Ht Hk) in Hc. discriminate.
  - right. exists t.
    assert (Hin : In t (templates kb)) by (rewrite Hts; apply in_elt).
    split; [exact Hin|]. split; [exact Hq|].
    destruct (template_score_count text t) as [Hs _]. rewrite Hs in Hpos.
    unfold occurring_keywords in Hpos.
    destruct (filter _ (keywords t)) as [|k ks] eqn:Ef; [simpl in Hpos; lia|].
    assert (Hk : In k (filter (fun k => contains (lower k) (lower text)) (keywords t)))
      by (rewrite Ef; now left).
    apply filter_In in Hk as [Hk Hc].
    exists t, k. now repeat split.
Qed.


(** The answer of the handler, case by case. *)
Lemma diagnose_cases (to_int : string -> result Z)
    (int_to_str : Z -> result string)
    (parse : string -> option datetime) (data : diagnose_request) :
  let text := field_or "" (problem_description_field data) in
  (truthy (problem_description_field data) = false /\
   diagnose to_int int_to_str parse data = BadRequest "problem_description is required") \/
  (truthy (problem_description_field data) = true /\
   ~ some_keyword_occurs text load_diagnostic_templates /\
   diagnose to_int int_to_str parse data =
     DataMissingResponse
       "I don't have enough information to diagnose this specific issue."
       "Book a diagnostic scan with our mobile mechanic for proper assessment."
       "N/A" "/book-now?service=diagnostic") \/
  (truthy (problem_description_field data) = true /\
   some_keyword_occurs text load_diagnostic_templates /\
   exists t, In t load_diagnostic_templates /\
     query_knowledge_base text load_skill_files =
       SUCCESS t (confidence t) (occurring_keywords text t) /\
     ((exists e, year_raises to_int int_to_str (year_field data) e /\
                 diagnose to_int int_to_str parse data = ServerError (Raised e)) \/
      (exists e, year_returns to_int int_to_str (year_field data) /\
                 mileage_raises to_int int_to_str (mileage_field data) e /\
                 diagnose to_int int_to_str parse data = ServerError (Raised e)) \/
      (year_returns to_int int_to_str (year_field data) /\
       mileage_returns to_int int_to_str (mileage_field data) /\
       timestamp_field (timing data) = None /\
       diagnose to_int int_to_str parse data = ServerError UnboundLocalError) \/
      (exists e ts, year_returns to_int int_to_str (year_field data) /\
                 mileage_returns to_int int_to_str (mileage_field data) /\
                 timestamp_field (timing data) = Some ts /\
                 age_raises to_int int_to_str (year_field data) e /\
                 diagnose to_int int_to_str parse data = ServerError (Raised e)) \/
      (year_returns to_int int_to_str (year_field data) /\
       mileage_returns to_int int_to_str (mileage_field data) /\
       age_written to_int int_to_str (year_field data) /\
       exists ts body,
         timestamp_field (timing data) = Some ts /\
         build_response to_int int_to_str parse data t (occurring_keywords text t) =
           Ret body /\
         diagnose to_int int_to_str parse data = SuccessResponse body))).
Proof.
  intros text. unfold diagnose. fold text.
  destruct (truthy (problem_description_field data)) eqn:Td; cbn [negb];
    [right|left; now split].
  destruct (query_cases load_skill_files text) as [[Hq Hno]|(t & Ht & Hq & Hk)];
    rewrite Hq; [left; now repeat split|right].
  change (templates load_skill_files) with load_diagnostic_templates in Ht, Hk.
  split; [reflexivity|]. split; [exact Hk|]. exists t. split; [exact Ht|].
  split; [reflexivity|].
  destruct (build_response_cases to_int int_to_str parse data t
              (occurring_keywords text t) Ht)
    as [(e & Hy & ->)|[(e & Hy & Hm & ->)|(Hy & Hm & body & e & Hb & Hage & _)]].
  - left. now exists e.
  - right. left. now exists e.
  - right. right. rewrite Hb.
    destruct (timestamp_field (timing data)) as [ts|]; [right|left; now repeat split].
    destruct (age_cases to_int int_to_str (year_field data) Hy)
      as (age & Hage' & [[Hw Hj]|(ea & Ha & Hj)]);
      rewrite Hage in Hage'; injection Hage' as Hage'; rewrite (Hj body Hage').
    + right. split; [exact Hy|]. split; [exact Hm|]. split; [exact Hw|].
      now exists ts, body.
    + left. exists ea, ts.
      split; [exact Hy|]. split; [exact Hm|]. split; [reflexivity|].
      split; [exact Ha|reflexivity].
Qed.

Lemma age_written_year_returns (to_int : string -> result Z)
    (int_to_str : Z -> result string) (o : option string) :
  age_written to_int int_to_str o -> year_returns to_int int_to_str o.
Proof.
  intros H T. destruct (H T) as (y & s & Hy & Hs). exists y. split; [exact Hy|].
  intros _. now exists s.
Qed.

(** X15. The two early answers come before any other field is read: the
    handler answers 400 exactly when the description is absent or empty,
    and DATA_MISSING exactly when a non-empty description contains no
    keyword of any template, whatever the year, the mileage and the
    timestamp. *)
Theorem diagnose_early_answers (to_int : string -> result Z)
    (int_to_str : Z -> result string)
    (parse : string -> option datetime) (data : diagnose_request) :
  (diagnose to_int int_to_str parse data =
     BadRequest "problem_description is required" <->
   truthy (problem_description_field data) = false) /\
  ((exists m r c b, diagnose to_int int_to_str parse data = DataMissingResponse m r c b) <->
   truthy (problem_description_field data) = true /\
   ~ some_keyword_occurs (field_or "" (problem_description_field data))
       load_diagnostic_templates).
Proof.
  pose proof (diagnose_cases to_int int_to_str parse data) as H. cbv zeta in H.
  destruct H as [[Td Hd]|[(Td & Hno & Hd)|(Td & Hk & t & _ & _ & H)]].
  - rewrite Hd, Td. split; [tauto|].
    split; [intros (? & ? & ? & ? & ?); discriminate|intros [? _]; discriminate].
  - rewrite Hd, Td. split; [split; discriminate|].
    split; [tauto|intros _; now do 4 eexists].
  - rewrite Td.
    destruct H as [(e & _ & Hd)|[(e & _ & _ & Hd)|[(_ & _ & _ & Hd)|
                   [(e & ts & _ & _ & _ & _ & Hd)|
                    (_ & _ & _ & ts & body & _ & _ & Hd)]]]]; rewrite Hd;
      (split; [split; discriminate|]);
      (split; [intros (? & ? & ? & ? & ?); discriminate|intros [_ Hno]; now elim Hno]).
Qed.

(** X16. The handler answers 500 in exactly four cases, all after a
    keyword has matched and in this order: the year block raises ([int]
    rejects a non-empty year, or the car age is above 5 and its conversion
    to text for the context sentence raises); the mileage block raises
    likewise (a value above 100000 is shown); the request has no
    ['timestamp'] key, the read of the local name [datetime] then failing;
    or the JSON encoder raises on ['age_years']. The pricing engine and the
    business-model lookup never fail on the catalog. *)
Theorem diagnose_server_error_iff (to_int : string -> result Z)
    (int_to_str : Z -> result string)
    (parse : string -> option datetime) (data : diagnose_request) (f : failure) :
  diagnose to_int int_to_str parse data = ServerError f <->
  truthy (problem_description_field data) = true /\
  some_keyword_occurs (field_or "" (problem_description_field data))
    load_diagnostic_templates /\
  ((exists e, f = Raised e /\ year_raises to_int int_to_str (year_field data) e) \/
   (exists e, f = Raised e /\ year_returns to_int int_to_str (year_field data) /\
              mileage_raises to_int int_to_str (mileage_field data) e) \/
   (f = UnboundLocalError /\ year_returns to_int int_to_str (year_field data) /\
    mileage_returns to_int int_to_str (mileage_field data) /\
    timestamp_field (timing data) = None) \/
   (exists e, f = Raised e /\ year_returns to_int int_to_str (year_field data) /\
              mileage_returns to_int int_to_str (mileage_field data) /\
              (exists ts, timestamp_field (timing data) = Some ts) /\
              age_raises to_int int_to_str (year_field data) e)).
Proof.
  pose proof (diagnose_cases to_int int_to_str parse data) as H. cbv zeta in H.
  destruct H as [[Td Hd]|[(Td & Hno & Hd)|(Td & Hk & t & _ & _ & H)]].
  - rewrite Hd, Td. split; [discriminate|intros [? _]; discriminate].
  - rewrite Hd. split; [discriminate|intros (_ & Hk & _); now elim Hno].
  - destruct H as [(e & Hy & Hd)|[(e & Hy & Hm & Hd)|[(Hy & Hm & Hts & Hd)|
                   [(e & ts & Hy & Hm & Hts & Ha & Hd)|
                    (Hy & Hm & Hw & ts & body & Hts & _ & Hd)]]]]; rewrite Hd.
    + split.
      * intros [= <-]. split; [exact Td|]. split; [exact Hk|]. left. now exists e.
      * intros (_ & _ & [(e' & -> & Hy')|[(e' & _ & Hy' & _)|[(_ & Hy' & _)|
                         (e' & _ & Hy' & _)]]]).
        -- now rewrite (year_raises_unique _ _ _ _ _ Hy Hy').
        -- elim (year_raises_not_returns _ _ _ _ Hy Hy').
        -- elim (year_raises_not_returns _ _ _ _ Hy Hy').
        -- elim (year_raises_not_returns _ _ _ _ Hy Hy').
    + split.
      * intros [= <-]. split; [exact Td|]. split; [exact Hk|]. right. left. now exists e.
      * intros (_ & _ & [(e' & _ & Hy')|[(e' & -> & _ & Hm')|[(_ & _ & Hm' & _)|
                         (e' & _ & _ & Hm' & _)]]]).
        -- elim (year_raises_not_returns _ _ _ _ Hy' Hy).
        -- now rewrite (mileage_raises_unique _ _ _ _ _ Hm Hm').
        -- elim (mileage_raises_not_returns _ _ _ _ Hm Hm').
        -- elim (mileage_raises_not_returns _ _ _ _ Hm Hm').
    + split.
      * intros [= <-]. split; [exact Td|]. split; [exact Hk|]. right. right. left.
        now repeat split.
      * intros (_ & _ & [(e' & _ & Hy')|[(e' & _ & _ & Hm')|[(-> & _)|
                         (e' & _ & _ & _ & (ts' & Hts') & _)]]]).
        -- elim (year_raises_not_returns _ _ _ _ Hy' Hy).
        -- elim (mileage_raises_not_returns _ _ _ _ Hm' Hm).
        -- reflexivity.
        -- rewrite Hts in Hts'. discriminate.
    + split.
      * intros [= <-]. split; [exact Td|]. split; [exact Hk|]. right. right. right.
        exists e. split; [reflexivity|]. split; [exact Hy|]. split; [exact Hm|].
        split; [now exists ts|exact Ha].
      * intros (_ & _ & [(e' & _ & Hy')|[(e' & _ & _ & Hm')|[(_ & _ & _ & Hts')|
                         (e' & -> & _ & _ & _ & Ha')]]]).
        -- elim (year_raises_not_returns _ _ _ _ Hy' Hy).
        -- elim (mileage_raises_not_returns _ _ _ _ Hm' Hm).
        -- rewrite Hts in Hts'. discriminate.
        -- now rewrite (age_raises_unique _ _ _ _ _ Ha Ha').
    + split; [discriminate|].
      intros (_ & _ & [(e' & _ & Hy')|[(e' & _ & _ & Hm')|[(_ & _ & _ & Hts')|
                       (e' & _ & _ & _ & _ & Ha')]]]).
      * elim (year_raises_not_returns _ _ _ _ Hy' Hy).
      * elim (mileage_raises_not_returns _ _ _ _ Hm' Hm).
      * rewrite Hts in Hts'. discriminate.
      * elim (age_raises_not_written _ _ _ _ Ha' Hw).
Qed.

(** Witness for X16: the request of the handler's documentation, which
    has no ['timestamp'] key, is answered 500. *)
Lemma diagnose_documented_request_fails :
  diagnose int_of_decimal str_of_int fromisoformat
    {| problem_description_field := Some "My car won't start, makes clicking sound";
       car_make_field := Some "Toyota";
       car_model_field := Some "Vitz";
       year_field := Some "2015";
       mileage_field := Some "150000";
       location_field := Some "Westlands";
       timing := {| time_of_day_field := None; timestamp_field := None |} |} =
  ServerError UnboundLocalError.
Proof.
  apply diagnose_server_error_iff. split; [reflexivity|]. split.
  - exists tpl_battery_dead, "won't start".
    split; [now left|]. split; [now left|vm_compute; reflexivity].
  - right. right. left. split; [reflexivity|].
    split; [intros _; exists 2015; split; [vm_compute; reflexivity|];
            intros _; eexists; vm_compute; reflexivity|].
    split; [intros _; exists 150000; split; [vm_compute; reflexivity|];
            intros _; eexists; vm_compute; reflexivity|reflexivity].
Defined.

(** A car age with one digit more than the digit limit, here at 640, the
    least limit the interpreter accepts: the year is a minus sign and 640
    nines. [int] accepts it (640 digits), the car age [2025 - year] has 641, and
    the handler answers 500 although the request has a timestamp. *)
Lemma diagnose_huge_car_age_fails :
  diagnose int_of_decimal (str_of_int_within 640) fromisoformat
    {| problem_description_field := Some "My car won't start, makes clicking sound";
       car_make_field := Some "Toyota";
       car_model_field := Some "Vitz";
       year_field := Some ("-" ++ String.concat "" (repeat "9" 640));
       mileage_field := Some "150000";
       location_field := Some "Westlands";
       timing := {| time_of_day_field := None;
                    timestamp_field := Some "2025-11-05T17:30:00" |} |} =
  ServerError (Raised ValueError).
Proof. vm_compute. reflexivity. Qed.

(** X17. A diagnosis is returned exactly when the description is
    non-empty and contains a keyword; the year is absent or empty, or
    [int] accepts it and the age [2025 - year] converts to text; the
    mileage is absent or empty, or [int] accepts it and, above 100000, it
    converts to text; and the request carries a ['timestamp'] key
    (whatever its value). *)
Theorem diagnose_success_iff (to_int : string -> result Z)
    (int_to_str : Z -> result string)
    (parse : string -> option datetime) (data : diagnose_request) :
  (exists body, diagnose to_int int_to_str parse data = SuccessResponse body) <->
  truthy (problem_description_field data) = true /\
  some_keyword_occurs (field_or "" (problem_description_field data))
    load_diagnostic_templates /\
  age_written to_int int_to_str (year_field data) /\
  mileage_returns to_int int_to_str (mileage_field data) /\
  exists ts, timestamp_field (timing data) = Some ts.
Proof.
  pose proof (diagnose_cases to_int int_to_str parse data) as H. cbv zeta in H.
  destruct H as [[Td Hd]|[(Td & Hno & Hd)|(Td & Hk & t & _ & _ & H)]].
  - rewrite Hd, Td. split; [intros [? ?]; discriminate|intros [? _]; discriminate].
  - rewrite Hd. split; [intros [? ?]; discriminate|intros (_ & Hk & _); now elim Hno].
  - destruct H as [(e & Hy & Hd)|[(e & Hy & Hm & Hd)|[(Hy & Hm & Hts & Hd)|
                   [(e & ts & Hy & Hm & Hts & Ha & Hd)|
                    (Hy & Hm & Hw & ts & body & Hts & _ & Hd)]]]]; rewrite Hd.
    + split; [intros [? ?]; discriminate|].
      intros (_ & _ & Hw & _).
      elim (year_raises_not_returns _ _ _ _ Hy (age_written_year_returns _ _ _ Hw)).
    + split; [intros [? ?]; discriminate|].
      intros (_ & _ & _ & Hm' & _). elim (mileage_raises_not_returns _ _ _ _ Hm Hm').
    + split; [intros [? ?]; discriminate|].
      intros (_ & _ & _ & _ & ts & Hts'). rewrite Hts in Hts'. discriminate.
    + split; [intros [? ?]; discriminate|].
      intros (_ & _ & Hw & _). elim (age_raises_not_written _ _ _ _ Ha Hw).
    + split; [|intros _; now exists body].
      intros _. split; [exact Td|]. split; [exact Hk|]. split; [exact Hw|].
      split; [exact Hm|now exists ts].
Qed.

(** Witness for X17: the documented request with a timestamp. *)
Lemma diagnose_success_iff_witness :
  exists body,
    diagnose int_of_decimal str_of_int fromisoformat
      {| problem_description_field := Some "My car won't start, makes clicking sound";
         car_make_field := Some "Toyota";
         car_model_field := Some "Vitz";
         year_field := Some "2015";
         mileage_field := Some "150000";
         location_field := Some "Westlands";
         timing := {| time_of_day_field := None;
                      timestamp_field := Some "2025-11-05T17:30:00" |} |} =
    SuccessResponse body.
Proof.
  apply diagnose_success_iff. split; [reflexivity|]. split.
  - exists tpl_battery_dead, "won't start".
    split; [now left|]. split; [now left|vm_compute; reflexivity].
  - split; [intros _; exists 2015; eexists; split; vm_compute; reflexivity|].
    split; [intros _; exists 150000; split; [vm_compute; reflexivity|];
            intros _; eexists; vm_compute; reflexivity|].
    eexists. reflexivity.
Defined.

(** X18. The answer does not depend on the time of day: two requests
    that differ only in ['time_of_day'] and in the value of ['timestamp']
    (both with the key, or both without) get the same answer, under any
    timestamp parser. *)
Theorem diagnose_ignores_time_of_day (to_int : string -> result Z)
    (int_to_str : Z -> result string)
    (parse parse' : string -> option datetime) (data data' : diagnose_request) :
  problem_description_field data' = problem_description_field data ->
  car_make_field data' = car_make_field data ->
  car_model_field data' = car_model_field data ->
  year_field data' = year_field data ->
  mileage_field data' = mileage_field data ->
  location_field data' = location_field data ->
  (timestamp_field (timing data') = None <-> timestamp_field (timing data) = None) ->
  diagnose to_int int_to_str parse' data' = diagnose to_int int_to_str parse data.
Proof.
  intros Hd Hmk Hmd Hy Hm Hl Hts. unfold diagnose. rewrite Hd.
  destruct (truthy (problem_description_field data)); cbn [negb]; [|reflexivity].
  destruct (query_knowledge_base _ _) as [m r c|t c kws] eqn:Hq; [reflexivity|].
  apply query_success_In in Hq.
  rewrite (build_response_timing to_int int_to_str parse parse' data data' t kws
             Hq Hmk Hmd Hy Hm Hl).
  destruct (build_response to_int int_to_str parse data t kws) as [body|e]; [|reflexivity].
  destruct (timestamp_field (timing data')) as [ts'|],
           (timestamp_field (timing data)) as [ts|]; try reflexivity.
  - destruct Hts as [_ Hts]. discriminate (Hts eq_refl).
  - destruct Hts as [Hts _]. discriminate (Hts eq_refl).
Qed.

(** Witness for X18: an evening rush-hour timestamp with ['peak'] against
    an unreadable timestamp with no time of day. *)
Lemma diagnose_ignores_time_of_day_witness :
  diagnose int_of_decimal str_of_int fromisoformat
    {| problem_description_field := Some "My car won't start, makes clicking sound";
       car_make_field := Some "BMW";
       car_model_field := Some "X5";
       year_field := Some "2012";
       mileage_field := Some "180000";
       location_field := Some "Kahawa Sukari";
       timing := {| time_of_day_field := None; timestamp_field := Some "soon" |} |} =
  diagnose int_of_decimal str_of_int fromisoformat
    {| problem_description_field := Some "My car won't start, makes clicking sound";
       car_make_field := Some "BMW";
       car_model_field := Some "X5";
       year_field := Some "2012";
       mileage_field := Some "180000";
       location_field := Some "Kahawa Sukari";
       timing := {| time_of_day_field := Some "peak";
                    timestamp_field := Some "2025-11-05T17:30:00" |} |}.
Proof.
  apply diagnose_ignores_time_of_day; try reflexivity.
  cbn. split; discriminate.
Defined.

(** X19. In a returned diagnosis the template is the one the matcher
    returned, with its matched keywords, and the price is a standard
    estimate or the diagnosis-required notice for the template's service,
    computed with the location as zone: it is the same for every location
    argument and time of day, so the road resolver contributes nothing. *)
Theorem diagnose_success_is_priced_without_the_road
    (to_int : string -> result Z) (int_to_str : Z -> result string)
    (parse : string -> option datetime)
    (data : diagnose_request) (body : diagnosis_body) :
  diagnose to_int int_to_str parse data = SuccessResponse body ->
  exists t e,
    query_knowledge_base (field_or "" (problem_description_field data)) load_skill_files =
      SUCCESS t (confidence t)
        (occurring_keywords (field_or "" (problem_description_field data)) t) /\
    issue body = diagnosis t /\
    diagnosis_keywords body =
      occurring_keywords (field_or "" (problem_description_field data)) t /\
    price_estimate body = Some e /\
    is_standard_or_diagnosis e = true /\
    forall location time_of_day,
      calculate_price_estimate (price_service t)
        (field_or "Nairobi" (location_field data))
        (field_or "Toyota" (car_make_field data))
        load_pricing_matrix location time_of_day = Ret (Some e).
Proof.
  intros Hs.
  pose proof (diagnose_cases to_int int_to_str parse data) as H. cbv zeta in H.
  destruct H as [[_ Hd]|[(_ & _ & Hd)|(_ & _ & t & Ht & Hq & H)]];
    try (rewrite Hd in Hs; discriminate).
  destruct H as [(e & _ & Hd)|[(e & _ & _ & Hd)|[(_ & _ & _ & Hd)|
                 [(e & ts & _ & _ & _ & _ & Hd)|
                  (Hy & Hm & Hw & ts & body' & _ & Hb & Hd)]]]];
    try (rewrite Hd in Hs; discriminate).
  rewrite Hd in Hs. injection Hs as ->.
  destruct (build_response_cases to_int int_to_str parse data t
              (occurring_keywords (field_or "" (problem_description_field data)) t) Ht)
    as [(e & _ & Hb')|[(e & _ & _ & Hb')|(_ & _ & body' & e & Hb' & _ & Hpe & He & Hp & Hi & Hk)]];
    try (rewrite Hb in Hb'; discriminate).
  rewrite Hb in Hb'. injection Hb' as <-.
  exists t, e. now repeat split.
Qed.

(** Witness for X19. *)
Lemma diagnose_success_witness :
  exists body,
    diagnose int_of_decimal str_of_int fromisoformat
      {| problem_description_field := Some "My car won't start, makes clicking sound";
         car_make_field := Some "BMW";
         car_model_field := Some "X5";
         year_field := Some "2012";
         mileage_field := Some "180000";
         location_field := Some "Kahawa Sukari";
         timing := {| time_of_day_field := Some "peak";
                      timestamp_field := Some "2025-11-05T17:30:00" |} |} =
    SuccessResponse body /\
    exists t e,
      query_knowledge_base "My car won't start, makes clicking sound" load_skill_files =
        SUCCESS t (confidence t)
          (occurring_keywords "My car won't start, makes clicking sound" t) /\
      issue body = diagnosis t /\
      diagnosis_keywords body =
        occurring_keywords "My car won't start, makes clicking sound" t /\
      price_estimate body = Some e /\
      is_standard_or_diagnosis e = true /\
      forall location time_of_day,
        calculate_price_estimate (price_service t) "Kahawa Sukari" "BMW"
          load_pricing_matrix location time_of_day = Ret (Some e).
Proof.
  eexists. split; [vm_compute; reflexivity|].
  apply (diagnose_success_is_priced_without_the_road int_of_decimal str_of_int
           fromisoformat
           {| problem_description_field := Some "My car won't start, makes clicking sound";
              car_make_field := Some "BMW";
              car_model_field := Some "X5";
              year_field := Some "2012";
              mileage_field := Some "180000";
              location_field := Some "Kahawa Sukari";
              timing := {| time_of_day_field := Some "peak";
                           timestamp_field := Some "2025-11-05T17:30:00" |} |}).
  vm_compute. reflexivity.
Defined.
